(** * Library catalog exercises: SQLite, MongoDB and validated REST variants

  Shallow embedding of
    - [3a/ej3a1.py]  (sqlite3, raw SQL),
    - [3a/ej3a4.py]  (MongoDB through PyMongo),
    - [3b/ej3b3.py]  (Flask view functions with JSON-schema validation),
  and the properties of the catalog operations they implement.

  Conventions of the embedding.
    - A Python [str] is a [string] whose characters are its code points
      (code points below 256); a Python [int] is a [Z]; an optional
      argument defaulting to [None] is an [option].
    - A function that mutates the store and may raise is a state
      transformer returning an [outcome]: the store keeps what was written
      before an exception, as the connection does.
    - The database engines are not code of the repository.  Their
      behaviour is written out for the statements and driver calls the
      exercises issue, on the domain where the issued statement is the one
      the source intends: SQL text whose interpolated strings hold no
      apostrophe or NUL ([sql_text]) and whose integers are 64-bit
      ([sql_int]); BSON integers that are 64-bit ([bson_int]).  Theorems
      over arbitrary arguments carry these conditions as hypotheses.
    - [3a/ej3a1.py] builds its statements by interpolating the arguments
      into the SQL text.  For [actualizar_libro] the texts are embedded as
      built, with a reader of the statements they can denote
      ([cursor_execute]); on the domain above the texts read as the
      statements written out, and outside it they need not: both facts
      are proved below. *)

From Stdlib Require Import ZArith NArith List String Ascii Bool Lia.
From Stdlib Require Import Permutation Sorted DecimalString.
From Stdlib Require DecimalZ.
Import ListNotations.

Local Open Scope string_scope.
Local Open Scope list_scope.
Local Open Scope Z_scope.

(** ** Store-passing computations that may raise *)

Section Effects.
Context {St Exn : Type}.

Inductive outcome (A : Type) : Type :=
| Return (a : A)
| Raise (e : Exn).
Arguments Return {A} a.
Arguments Raise {A} e.

Definition M (A : Type) : Type := St -> outcome A * St.

Definition ret {A} (a : A) : M A := fun s => (Return a, s).
Definition raise {A} (e : Exn) : M A := fun s => (Raise e, s).
Definition bind {A B} (m : M A) (k : A -> M B) : M B :=
  fun s =>
    match m s with
    | (Return a, s') => k a s'
    | (Raise e, s') => (Raise e, s')
    end.
Definition get : M St := fun s => (Return s, s).
Definition put (s : St) : M unit := fun _ => (Return tt, s).

(** [for i, x in enumerate(l, start): body(i, x)] *)
Fixpoint for_enumerate {A} (i : Z) (l : list A) (body : Z -> A -> M unit)
  : M unit :=
  match l with
  | [] => ret tt
  | x :: l' => bind (body i x) (fun _ => for_enumerate (i + 1) l' body)
  end.

(** [[f(x) for x in l]] where [f] may raise. *)
Fixpoint comprehension {A B} (f : A -> M B) (l : list A) : M (list B) :=
  match l with
  | [] => ret []
  | x :: l' =>
      bind (f x) (fun y => bind (comprehension f l') (fun ys => ret (y :: ys)))
  end.
End Effects.

Arguments outcome : clear implicits.
Arguments M : clear implicits.
Arguments Return {Exn A} a.
Arguments Raise {Exn A} e.

Declare Scope effect_scope.
Delimit Scope effect_scope with eff.
Notation "x <- m ;; k" := (bind m (fun x => k))
(at level 61, m at next level, right associativity) : effect_scope.
Notation "m ;; k" := (bind m (fun _ => k))
(at level 61, right associativity) : effect_scope.
Local Open Scope effect_scope.

(** ** Python values *)

Module Py.

(** Truth value testing, [if x:]. *)
Class Truthy (A : Type) := truthy : A -> bool.

#[export] Instance Truthy_str : Truthy string :=
  fun s => negb (s =? "")%string.
#[export] Instance Truthy_int : Truthy Z :=
  fun z => negb (z =? 0).
#[export] Instance Truthy_list {A} : Truthy (list A) :=
  fun l => match l with [] => false | _ => true end.
(** [None] is false; any other object has the truth value of its type. *)
#[export] Instance Truthy_optional {A} `{Truthy A} : Truthy (option A) :=
  fun o => match o with None => false | Some x => truthy x end.

(** [str(n)] for an [int]. *)
Definition str_int (z : Z) : string := NilZero.string_of_int (Z.to_int z).

(** [if x: body(x)] for an optional argument [x]. *)
Definition if_truthy {St Exn A} `{Truthy A}
    (x : option A) (body : A -> M St Exn unit) : M St Exn unit :=
  match x with
  | Some v => if truthy v then body v else ret tt
  | None => ret tt
  end.

End Py.
Import Py.

(** ** Sorting, as the engines' [ORDER BY] / [$sort] stage *)

Section Sort.
Context {A : Type} (leb : A -> A -> bool).

Fixpoint insert_sorted (x : A) (l : list A) : list A :=
  match l with
  | [] => [x]
  | y :: l' => if leb x y then x :: y :: l' else y :: insert_sorted x l'
  end.

Definition sort_by (l : list A) : list A := fold_right insert_sorted [] l.
End Sort.

(** ** Joins, as the engines evaluate them: for each left row in order,
    the right rows that match *)

Section Join.
Context {L U R : Type} (on : L -> U -> bool) (fila : L -> U -> R).

Definition join (ls : list L) (us : list U) : list R :=
  flat_map (fun l => map (fila l) (filter (on l) us)) ls.
End Join.

(** ** 3a/ej3a1.py: SQLite through [sqlite3] *)

Module Ej3a1.

(** Rows of [autores(id int primary key, nombre text)]. *)
Record fila_autor := { a_id : Z; a_nombre : string }.

(** Rows of [libros(id int primary key, titulo text, anio int,
    autor_id int, FOREIGN KEY(autor_id) REFERENCES autores(id))]. *)
Record fila_libro :=
  { l_id : Z; l_titulo : string; l_anio : Z; l_autor_id : Z }.

(** The connection after [crear_tablas]: both tables, rows in rowid
    order.  [crear_conexion] never issues [PRAGMA foreign_keys = ON], so
    the engine keeps its default and does not enforce the foreign key. *)
Record conexion := { autores : list fila_autor; libros : list fila_libro }.

Inductive sqlite3_Error := IntegrityError.

Definition Sql := M conexion sqlite3_Error.

(** [crear_tablas(crear_conexion())] *)
Definition crear_tablas : conexion := {| autores := []; libros := [] |}.

(** *** Domain of the interpolated SQL text *)

Definition sql_char (c : ascii) : bool :=
  negb (Ascii.eqb c "'"%char) && negb (Ascii.eqb c "000"%char).

Fixpoint sql_text (s : string) : bool :=
  match s with
  | EmptyString => true
  | String c s' => sql_char c && sql_text s'
  end.

Definition sql_int (z : Z) : bool :=
  (- 9223372036854775808 <=? z) && (z <=? 9223372036854775807).

(** *** The statements the exercise executes *)

(** [INSERT INTO autores (id, nombre) VALUES (id, 'nombre')], for a name
    inside [sql_text]: the primary key rejects an id the table holds. *)
Definition INSERT_autores (id : Z) (nombre : string) : Sql unit :=
  fun c =>
    if existsb (fun a => a_id a =? id) (autores c)
    then (Raise IntegrityError, c)
    else (Return tt,
          {| autores := autores c ++ [{| a_id := id; a_nombre := nombre |}];
             libros := libros c |}).

(** [INSERT INTO libros (id, titulo, anio, autor_id)
     VALUES (id, 'titulo', anio, autor_id)], for a title inside [sql_text]
    and integers inside [sql_int] *)
Definition INSERT_libros (id : Z) (titulo : string) (anio autor_id : Z)
  : Sql unit :=
  fun c =>
    if existsb (fun l => l_id l =? id) (libros c)
    then (Raise IntegrityError, c)
    else (Return tt,
          {| autores := autores c;
             libros := libros c ++
               [{| l_id := id; l_titulo := titulo; l_anio := anio;
                   l_autor_id := autor_id |}] |}).

(** [SET titulo = 'titulo' WHERE id = id] on one row. *)
Definition SET_titulo (titulo : string) (id : Z) (l : fila_libro) : fila_libro :=
  if l_id l =? id
  then {| l_id := l_id l; l_titulo := titulo; l_anio := l_anio l;
          l_autor_id := l_autor_id l |}
  else l.

(** [SET anio = 'anio' WHERE id = id] on one row: the quoted decimal text
    of an int is stored as that integer by the column's INT affinity. *)
Definition SET_anio (anio : Z) (id : Z) (l : fila_libro) : fila_libro :=
  if l_id l =? id
  then {| l_id := l_id l; l_titulo := l_titulo l; l_anio := anio;
          l_autor_id := l_autor_id l |}
  else l.

(** [UPDATE libros SET titulo = 'titulo' WHERE id = id], for a title
    inside [sql_text] *)
Definition UPDATE_titulo (titulo : string) (id : Z) : Sql unit :=
  fun c =>
    (Return tt,
     {| autores := autores c;
        libros := map (SET_titulo titulo id) (libros c) |}).

(** [UPDATE libros SET anio = 'anio' WHERE id = id] *)
Definition UPDATE_anio (anio : Z) (id : Z) : Sql unit :=
  fun c =>
    (Return tt,
     {| autores := autores c;
        libros := map (SET_anio anio id) (libros c) |}).

(** [DELETE FROM libros WHERE id = id] *)
Definition DELETE_libros (id : Z) : Sql unit :=
  fun c =>
    (Return tt,
     {| autores := autores c;
        libros := filter (fun l => negb (l_id l =? id)) (libros c) |}).

(** [SELECT libros.titulo, libros.anio, autores.nombre FROM libros
     JOIN autores ON (libros.autor_id = autores.id)], optionally with
    [WHERE donde(autores.nombre)]; no [ORDER BY]: rows come in scan
    order, [libros] outer. *)
Definition SELECT_join (donde : string -> bool) (c : conexion)
  : list (string * Z * string) :=
  join (fun l a => (l_autor_id l =? a_id a) && donde (a_nombre a))
       (fun l a => (l_titulo l, l_anio l, a_nombre a))
       (libros c) (autores c).

(** SQLite's [LIKE]: [%] matches any run of characters, [_] any one
    character, any other character matches itself, ASCII letters
    regardless of case.  (The engine refuses a pattern longer than 50000
    bytes.) *)
Definition ascii_lower (c : ascii) : ascii :=
  let n := N_of_ascii c in
  if ((65 <=? n) && (n <=? 90))%N then ascii_of_N (n + 32) else c.

Fixpoint like (patron s : string) {struct patron} : bool :=
  match patron with
  | EmptyString =>
      match s with EmptyString => true | String _ _ => false end
  | String p patron' =>
      if Ascii.eqb p "%"%char then
        (fix resto (s : string) : bool :=
           like patron' s ||
           match s with
           | EmptyString => false
           | String _ s' => resto s'
           end) s
      else
        match s with
        | EmptyString => false
        | String x s' =>
            (Ascii.eqb p "_"%char || Ascii.eqb (ascii_lower p) (ascii_lower x))
            && like patron' s'
        end
  end.

(** *** The functions of the exercise *)

(** [autores]: list of tuples [(nombre,)]. *)
Definition insertar_autores (autores : list string) : Sql unit :=
  for_enumerate 0 autores (fun i autor => INSERT_autores (i + 1) autor).

(** [libros]: list of tuples [(titulo, anio, autor_id)]. *)
Definition insertar_libros (libros : list (string * Z * Z)) : Sql unit :=
  for_enumerate 0 libros
    (fun i libro =>
       let '(titulo, anio, autor_id) := libro in
       INSERT_libros (i + 1) titulo anio autor_id).

(** The rows [consultar_libros] fetches. *)
Definition consultar_libros_filas (c : conexion) : list (string * Z * string) :=
  SELECT_join (fun _ => true) c.

(** [f"{book[0]}: Publicado por {book[2]} en {book[1]}"] *)
Definition linea (book : string * Z * string) : string :=
  let '(titulo, anio, nombre) := book in
  (titulo ++ ": Publicado por " ++ nombre ++ " en " ++ str_int anio)%string.

(** The lines [consultar_libros] prints. *)
Definition consultar_libros (c : conexion) : list string :=
  map linea (consultar_libros_filas c).

(** The argument is interpolated as the pattern of [LIKE]; written out
    for an argument inside [sql_text]. *)
Definition buscar_libros_por_autor (c : conexion) (nombre_autor : string)
  : list (string * Z * string) :=
  SELECT_join (like nombre_autor) c.

Definition actualizar_libro (id_libro : Z)
    (nuevo_titulo : option string) (nuevo_anio : option Z) : Sql unit :=
  if_truthy nuevo_titulo (fun t => UPDATE_titulo t id_libro) ;;
  if_truthy nuevo_anio (fun a => UPDATE_anio a id_libro).

Definition eliminar_libro (id_libro : Z) : Sql unit :=
  DELETE_libros id_libro.

(** *** The statements as text

    [actualizar_libro] builds each [UPDATE] by interpolating its
    arguments into the text that [cursor.execute] hands to the engine, so
    the statement executed is whatever that text reads as.  [leer_tokens]
    and [leer_update] read the part of SQLite's grammar written out below:
    [UPDATE libros SET col = suma {, col = suma} [WHERE col = atomo]],
    with integer and string literals, column names, [+] and [--]
    comments.  A text outside that part, or whose evaluation leaves the
    stored types ([None] results below), is not given a meaning here. *)

(** [f"UPDATE libros SET titulo = '{nuevo_titulo}' WHERE id = {id_libro}"] *)
Definition sql_actualizar_titulo (nuevo_titulo : string) (id_libro : Z)
  : string :=
  ("UPDATE libros SET titulo = '" ++ nuevo_titulo ++ "' WHERE id = "
     ++ str_int id_libro)%string.

(** [f"UPDATE libros SET anio = '{nuevo_anio}' WHERE id = {id_libro}"] *)
Definition sql_actualizar_anio (nuevo_anio : Z) (id_libro : Z) : string :=
  ("UPDATE libros SET anio = '" ++ str_int nuevo_anio ++ "' WHERE id = "
     ++ str_int id_libro)%string.

Inductive token :=
| T_palabra (s : string)
| T_entero (digitos : string)
| T_texto (s : string)
| T_igual
| T_coma
| T_mas
| T_menos.

(** Where the tokenizer stands: between tokens, inside a word, a number
    or a string literal, after a quote inside a literal (the end of the
    literal, or the first half of a doubled quote), after one [-], or
    inside a [--] comment. *)
Inductive modo :=
| Fuera
| Palabra (leido : string)
| Numero (leido : string)
| Texto (leido : string)
| Comilla (leido : string)
| Guion
| Comentario.

Definition entre (a b : N) (c : ascii) : bool :=
  let n := N_of_ascii c in ((a <=? n) && (n <=? b))%N.

(** Space, tab, line feed, form feed and carriage return. *)
Definition es_espacio (c : ascii) : bool :=
  let n := N_of_ascii c in
  ((n =? 32) || (n =? 9) || (n =? 10) || (n =? 12) || (n =? 13))%N.

Definition es_digito (c : ascii) : bool := entre 48 57 c.

Definition es_letra (c : ascii) : bool :=
  entre 65 90 c || entre 97 122 c || Ascii.eqb c "_"%char.

Definition mas_caracter (s : string) (c : ascii) : string :=
  (s ++ String c EmptyString)%string.

(** The first character of a token. *)
Definition inicio (c : ascii) : option (list token * modo) :=
  if es_espacio c then Some ([], Fuera)
  else if es_letra c then Some ([], Palabra (String (ascii_lower c) EmptyString))
  else if es_digito c then Some ([], Numero (String c EmptyString))
  else if Ascii.eqb c "'"%char then Some ([], Texto EmptyString)
  else if Ascii.eqb c "="%char then Some ([T_igual], Fuera)
  else if Ascii.eqb c ","%char then Some ([T_coma], Fuera)
  else if Ascii.eqb c "+"%char then Some ([T_mas], Fuera)
  else if Ascii.eqb c "-"%char then Some ([], Guion)
  else None.

Definition tras (t : token) (c : ascii) : option (list token * modo) :=
  match inicio c with
  | Some (ts, m) => Some (t :: ts, m)
  | None => None
  end.

(** One character.  Words are kept in lower case: keywords and names are
    read regardless of case. *)
Definition paso (m : modo) (c : ascii) : option (list token * modo) :=
  match m with
  | Fuera => inicio c
  | Palabra w =>
      if es_letra c || es_digito c
      then Some ([], Palabra (mas_caracter w (ascii_lower c)))
      else tras (T_palabra w) c
  | Numero d =>
      if es_digito c then Some ([], Numero (mas_caracter d c))
      else if es_letra c then None
      else tras (T_entero d) c
  | Texto s =>
      if Ascii.eqb c "'"%char then Some ([], Comilla s)
      else if Ascii.eqb c "000"%char then None
      else Some ([], Texto (mas_caracter s c))
  | Comilla s =>
      if Ascii.eqb c "'"%char then Some ([], Texto (mas_caracter s c))
      else tras (T_texto s) c
  | Guion =>
      if Ascii.eqb c "-"%char then Some ([], Comentario)
      else tras T_menos c
  | Comentario =>
      if Ascii.eqb c "010"%char then Some ([], Fuera)
      else if Ascii.eqb c "000"%char then None
      else Some ([], Comentario)
  end.

(** The end of the text: a string literal left open is not a token. *)
Definition fin (m : modo) : option (list token) :=
  match m with
  | Fuera | Comentario => Some []
  | Palabra w => Some [T_palabra w]
  | Numero d => Some [T_entero d]
  | Texto _ => None
  | Comilla s => Some [T_texto s]
  | Guion => Some [T_menos]
  end.

(** The automaton run over a text: the tokens completed on the way and
    the place reached. *)
Fixpoint correr (m : modo) (sql : string) : option (list token * modo) :=
  match sql with
  | EmptyString => Some ([], m)
  | String c sql' =>
      match paso m c with
      | Some (ts, m') =>
          match correr m' sql' with
          | Some (ts', m'') => Some (ts ++ ts', m'')
          | None => None
          end
      | None => None
      end
  end.

Definition leer_tokens (sql : string) : option (list token) :=
  match correr Fuera sql with
  | Some (ts, m) =>
      match fin m with
      | Some ts' => Some (ts ++ ts')
      | None => None
      end
  | None => None
  end.

Inductive columna := Col_id | Col_titulo | Col_anio | Col_autor_id.

Inductive expresion :=
| E_entero (z : Z)
| E_texto (s : string)
| E_columna (c : columna)
| E_suma (a b : expresion).

Record sentencia_update :=
  { asignaciones : list (columna * expresion);
    donde : option (columna * expresion) }.

Definition columna_de (w : string) : option columna :=
  if (w =? "id")%string then Some Col_id
  else if (w =? "titulo")%string then Some Col_titulo
  else if (w =? "anio")%string then Some Col_anio
  else if (w =? "autor_id")%string then Some Col_autor_id
  else None.

(** The value of a run of decimal digits. *)
Definition valor_digitos (d : string) : Z :=
  match NilEmpty.uint_of_string d with
  | Some u => Z.of_uint u
  | None => 0
  end.

(** An integer literal, with or without a sign in front, that is a 64-bit
    integer (a larger one is a floating-point literal for the engine), a
    string literal or a column. *)
Definition leer_atomo (ts : list token) : option (expresion * list token) :=
  match ts with
  | T_entero d :: r =>
      if sql_int (valor_digitos d) then Some (E_entero (valor_digitos d), r)
      else None
  | T_menos :: T_entero d :: r =>
      if sql_int (- valor_digitos d) then Some (E_entero (- valor_digitos d), r)
      else None
  | T_texto s :: r => Some (E_texto s, r)
  | T_palabra w :: r =>
      match columna_de w with
      | Some c => Some (E_columna c, r)
      | None => None
      end
  | _ => None
  end.

(** [atomo {+ atomo}], the sum associating to the left. *)
Fixpoint leer_suma (n : nat) (e : expresion) (ts : list token)
  : option (expresion * list token) :=
  match n, ts with
  | S n', T_mas :: r =>
      match leer_atomo r with
      | Some (e', r') => leer_suma n' (E_suma e e') r'
      | None => None
      end
  | _, _ => Some (e, ts)
  end.

(** [col = suma {, col = suma}] *)
Fixpoint leer_asignaciones (n : nat) (ts : list token)
  : option (list (columna * expresion) * list token) :=
  match n, ts with
  | S n', T_palabra w :: T_igual :: r =>
      match columna_de w, leer_atomo r with
      | Some c, Some (e, r1) =>
          match leer_suma n' e r1 with
          | Some (e', T_coma :: r2) =>
              match leer_asignaciones n' r2 with
              | Some (l, r3) => Some ((c, e') :: l, r3)
              | None => None
              end
          | Some (e', r2) => Some ([(c, e')], r2)
          | None => None
          end
      | _, _ => None
      end
  | _, _ => None
  end.

(** Nothing, or [WHERE col = atomo], up to the end of the statement. *)
Definition leer_donde (ts : list token) : option (option (columna * expresion)) :=
  match ts with
  | [] => Some None
  | T_palabra w :: T_palabra col :: T_igual :: r =>
      if (w =? "where")%string then
        match columna_de col, leer_atomo r with
        | Some c, Some (e, []) => Some (Some (c, e))
        | _, _ => None
        end
      else None
  | _ => None
  end.

Definition leer_update (ts : list token) : option sentencia_update :=
  match ts with
  | T_palabra u :: T_palabra tabla :: T_palabra s :: r =>
      if ((u =? "update") && (tabla =? "libros") && (s =? "set"))%string then
        match leer_asignaciones (List.length r) r with
        | Some (asig, r') =>
            match leer_donde r' with
            | Some d => Some {| asignaciones := asig; donde := d |}
            | None => None
            end
        | None => None
        end
      else None
  | _ => None
  end.

(** Values of the two storage classes the tables hold. *)
Inductive dato := D_entero (z : Z) | D_texto (s : string).

Definition valor_columna (c : columna) (l : fila_libro) : dato :=
  match c with
  | Col_id => D_entero (l_id l)
  | Col_titulo => D_texto (l_titulo l)
  | Col_anio => D_entero (l_anio l)
  | Col_autor_id => D_entero (l_autor_id l)
  end.

(** A sum of two 64-bit integers that is a 64-bit integer; the engine
    turns any other sum into a floating-point or converted value. *)
Fixpoint evaluar (e : expresion) (l : fila_libro) : option dato :=
  match e with
  | E_entero z => Some (D_entero z)
  | E_texto s => Some (D_texto s)
  | E_columna c => Some (valor_columna c l)
  | E_suma a b =>
      match evaluar a l, evaluar b l with
      | Some (D_entero x), Some (D_entero y) =>
          if sql_int (x + y) then Some (D_entero (x + y)) else None
      | _, _ => None
      end
  end.

(** The integer a column of INT affinity stores for a text that is the
    decimal writing of a 64-bit integer, as [str] prints it. *)
Definition entero_de_texto (s : string) : option Z :=
  match NilZero.int_of_string s with
  | Some d =>
      let z := Z.of_int d in
      if (str_int z =? s)%string && sql_int z then Some z else None
  | None => None
  end.

Definition entero_de_dato (d : dato) : option Z :=
  match d with
  | D_entero z => Some z
  | D_texto s => entero_de_texto s
  end.

(** Storing a value in a column of a row.  [titulo] takes a text; [anio]
    and [autor_id] take an integer or its decimal text; [id], the primary
    key, is left out. *)
Definition asignar (c : columna) (d : dato) (l : fila_libro)
  : option fila_libro :=
  match c with
  | Col_id => None
  | Col_titulo =>
      match d with
      | D_texto s =>
          Some {| l_id := l_id l; l_titulo := s; l_anio := l_anio l;
                  l_autor_id := l_autor_id l |}
      | D_entero _ => None
      end
  | Col_anio =>
      match entero_de_dato d with
      | Some z =>
          Some {| l_id := l_id l; l_titulo := l_titulo l; l_anio := z;
                  l_autor_id := l_autor_id l |}
      | None => None
      end
  | Col_autor_id =>
      match entero_de_dato d with
      | Some z =>
          Some {| l_id := l_id l; l_titulo := l_titulo l; l_anio := l_anio l;
                  l_autor_id := z |}
      | None => None
      end
  end.

(** The assignments of a [SET] list on one row: every right-hand side is
    evaluated on the row as it was; of two assignments to one column the
    rightmost stays. *)
Fixpoint asignar_todas (asig : list (columna * expresion))
    (antes l : fila_libro) : option fila_libro :=
  match asig with
  | [] => Some l
  | (c, e) :: asig' =>
      match evaluar e antes with
      | Some d =>
          match asignar c d l with
          | Some l' => asignar_todas asig' antes l'
          | None => None
          end
      | None => None
      end
  end.

(** [WHERE col = atomo] on one row: two integers or two texts compare by
    value; no [WHERE] selects every row. *)
Definition cumple (d : option (columna * expresion)) (l : fila_libro)
  : option bool :=
  match d with
  | None => Some true
  | Some (c, e) =>
      match valor_columna c l, evaluar e l with
      | D_entero x, Some (D_entero y) => Some (x =? y)
      | D_texto x, Some (D_texto y) => Some (x =? y)%string
      | _, _ => None
      end
  end.

Fixpoint actualizar_filas (u : sentencia_update) (ls : list fila_libro)
  : option (list fila_libro) :=
  match ls with
  | [] => Some []
  | l :: ls' =>
      match cumple (donde u) l with
      | Some b =>
          match (if b then asignar_todas (asignaciones u) l l else Some l),
                actualizar_filas u ls' with
          | Some l', Some ls'' => Some (l' :: ls'')
          | _, _ => None
          end
      | None => None
      end
  end.

(** [cursor.execute(sql)] for the texts read as an [UPDATE] of [libros]. *)
Definition cursor_execute (sql : string) (c : conexion)
  : option (outcome sqlite3_Error unit * conexion) :=
  match leer_tokens sql with
  | Some ts =>
      match leer_update ts with
      | Some u =>
          match actualizar_filas u (libros c) with
          | Some ls => Some (Return tt, {| autores := autores c; libros := ls |})
          | None => None
          end
      | None => None
      end
  | None => None
  end.

(** [actualizar_libro], its statements executed as the texts built. *)
Definition actualizar_libro_texto (id_libro : Z)
    (nuevo_titulo : option string) (nuevo_anio : option Z) (c : conexion)
  : option (outcome sqlite3_Error unit * conexion) :=
  match (match nuevo_titulo with
         | Some t =>
             if truthy t then cursor_execute (sql_actualizar_titulo t id_libro) c
             else Some (Return tt, c)
         | None => Some (Return tt, c)
         end) with
  | Some (Return _, c1) =>
      match nuevo_anio with
      | Some a =>
          if truthy a then cursor_execute (sql_actualizar_anio a id_libro) c1
          else Some (Return tt, c1)
      | None => Some (Return tt, c1)
      end
  | r => r
  end.


End Ej3a1.

(** ** 3a/ej3a4.py: MongoDB through PyMongo *)

Module Ej3a4.

(** The value of a [bson.ObjectId]: twelve bytes, read as a number. *)
Definition oid := N.

(** What a book's [autor_id] can hold: [insertar_libros] converts a [str]
    to an ObjectId and stores any other value as it comes. *)
Inductive valor :=
| VOid (o : oid)
| VInt (z : Z)
| VNone.

Definition valor_es_oid (v : valor) (o : oid) : bool :=
  match v with
  | VOid o' => (o' =? o)%N
  | _ => false
  end.

(** Documents of the collection [autores]. *)
Record doc_autor := { au_id : oid; au_nombre : string }.

(** Documents of the collection [libros]. *)
Record doc_libro :=
  { li_id : oid; li_titulo : string; li_anio : Z; li_autor_id : valor }.

(** Commands sent to the server, by collection. *)
Inductive llamada :=
| create_index (coleccion campo : string)
| insert_many (coleccion : string) (n : nat)
| find_one (coleccion : string)
| aggregate (coleccion : string)
| update_one (coleccion : string)
| delete_one (coleccion : string).

(** The database handle [db]: the two collections in natural order,
    whether the unique index on [autores.nombre] exists, the state of the
    driver's ObjectId generator, and the commands sent so far. *)
Record database :=
  { autores : list doc_autor;
    libros : list doc_libro;
    nombre_unique : bool;
    siguiente_oid : oid;
    llamadas : list llamada }.

Inductive error :=
| InvalidId
| TypeError
| BulkWriteError
| DuplicateKeyError.

Definition Mongo := M database error.

(** 64-bit integers, the ones BSON encodes. *)
Definition bson_int (z : Z) : bool :=
  (- 9223372036854775808 <=? z) && (z <=? 9223372036854775807).

(** *** [bson.objectid.ObjectId] *)

Definition hex_digit (c : ascii) : option N :=
  let n := N_of_ascii c in
  if ((48 <=? n) && (n <=? 57))%N then Some (n - 48)%N
  else if ((97 <=? n) && (n <=? 102))%N then Some (n - 87)%N
  else if ((65 <=? n) && (n <=? 70))%N then Some (n - 55)%N
  else None.

Fixpoint hex_value (acc : N) (s : string) : option N :=
  match s with
  | EmptyString => Some acc
  | String c s' =>
      match hex_digit c with
      | Some d => hex_value (16 * acc + d)%N s'
      | None => None
      end
  end.

(** [ObjectId(s)] for a [str]: its value when [s] is 24 hexadecimal
    digits, [None] where the constructor raises [InvalidId], as it does
    for every string that is not 24 characters long.  (Of the other
    24-character strings the constructor accepts those that
    [bytes.fromhex] reads, blanks between the digits included; the
    properties below speak of no such string.) *)
Definition ObjectId_value (s : string) : option oid :=
  if (String.length s =? 24)%nat then hex_value 0%N s else None.

Definition ObjectId (s : string) : Mongo oid :=
  match ObjectId_value s with
  | Some o => ret o
  | None => raise InvalidId
  end.

Definition hex_char (d : N) : ascii :=
  if (d <? 10)%N then ascii_of_N (48 + d) else ascii_of_N (87 + d).

Fixpoint hex_digits (n : nat) (v : N) (acc : string) : string :=
  match n with
  | O => acc
  | S n' => hex_digits n' (v / 16)%N (String (hex_char (v mod 16)%N) acc)
  end.

(** [str(o)] for an ObjectId. *)
Definition str_oid (o : oid) : string := hex_digits 24 o "".

(** *** The driver calls the exercise makes *)

Definition registrar (ll : llamada) : Mongo unit :=
  fun db =>
    (Return tt,
     {| autores := autores db; libros := libros db;
        nombre_unique := nombre_unique db;
        siguiente_oid := siguiente_oid db;
        llamadas := llamadas db ++ [ll] |}).

Definition con_autores (db : database) (l : list doc_autor) : database :=
  {| autores := l; libros := libros db;
     nombre_unique := nombre_unique db;
     siguiente_oid := siguiente_oid db;
     llamadas := llamadas db |}.

Definition con_libros (db : database) (l : list doc_libro) : database :=
  {| autores := autores db; libros := l;
     nombre_unique := nombre_unique db;
     siguiente_oid := siguiente_oid db;
     llamadas := llamadas db |}.

(** The driver gives each document without [_id] a new ObjectId. *)
Definition nuevos_oid (n : nat) : Mongo (list oid) :=
  fun db =>
    (Return (map (fun k => (siguiente_oid db + N.of_nat k)%N) (seq 0 n)),
     {| autores := autores db; libros := libros db;
        nombre_unique := nombre_unique db;
        siguiente_oid := (siguiente_oid db + N.of_nat n)%N;
        llamadas := llamadas db |}).

(** The server writes the documents of an ordered [insert_many] one by
    one and stops at the first that breaks the unique index. *)
Fixpoint escribir_autores (docs : list doc_autor) : Mongo unit :=
  match docs with
  | [] => ret tt
  | d :: docs' =>
      fun db =>
        if nombre_unique db
           && existsb (fun a => (au_nombre a =? au_nombre d)%string) (autores db)
        then (Raise BulkWriteError, db)
        else escribir_autores docs' (con_autores db (autores db ++ [d]))
  end.

(** [db.autores.insert_many(docs)], [docs] holding [{"nombre": n}]. *)
Definition autores_insert_many (docs : list string) : Mongo (list oid) :=
  if negb (truthy docs) then raise TypeError
  else
    ids <- nuevos_oid (List.length docs) ;;
    registrar (insert_many "autores" (List.length docs)) ;;
    escribir_autores
      (map (fun '(o, n) => {| au_id := o; au_nombre := n |}) (combine ids docs)) ;;
    ret ids.

(** [db.libros.insert_many(docs)], [docs] holding
    [{"titulo": t, "anio": a, "autor_id": v}]. *)
Definition libros_insert_many (docs : list (string * Z * valor))
  : Mongo (list oid) :=
  if negb (truthy docs) then raise TypeError
  else
    ids <- nuevos_oid (List.length docs) ;;
    registrar (insert_many "libros" (List.length docs)) ;;
    (fun db =>
       (Return tt,
        con_libros db
          (libros db ++
           map (fun '(o, (t, a, v)) =>
                  {| li_id := o; li_titulo := t; li_anio := a;
                     li_autor_id := v |})
               (combine ids docs)))) ;;
    ret ids.

(** [db.autores.find_one({"nombre": nombre})] *)
Definition autores_find_one (nombre : string) : Mongo (option doc_autor) :=
  registrar (find_one "autores") ;;
  db <- get ;;
  ret (find (fun a => (au_nombre a =? nombre)%string) (autores db)).

(** Order of [{"$sort": {"autor_nombre": 1, "titulo": 1}}] on the
    projected rows [(titulo, anio, autor_nombre)]: strings compare by code
    points. *)
Definition por_autor_titulo (x y : string * Z * string) : bool :=
  let '(tx, _, nx) := x in
  let '(ty, _, ny) := y in
  match String.compare nx ny with
  | Lt => true
  | Eq => String.leb tx ty
  | Gt => false
  end.

(** The pipeline of [consultar_libros]: [$lookup] from [autores] on
    [autor_id = _id], [$unwind] of the matches (a book without a match
    yields no row), [$project], [$sort]. *)
Definition libros_aggregate_lookup : Mongo (list (string * Z * string)) :=
  registrar (aggregate "libros") ;;
  db <- get ;;
  ret (sort_by por_autor_titulo
         (join (fun l a => valor_es_oid (li_autor_id l) (au_id a))
               (fun l a => (li_titulo l, li_anio l, au_nombre a))
               (libros db) (autores db))).

(** The pipeline of [buscar_libros_por_autor]: [$match] on [autor_id],
    [$sort] by [anio], [$project] of [titulo] and [anio]. *)
Definition libros_aggregate_match (autor : oid) : Mongo (list (string * Z)) :=
  registrar (aggregate "libros") ;;
  db <- get ;;
  ret (map (fun l => (li_titulo l, li_anio l))
         (sort_by (fun x y => li_anio x <=? li_anio y)
            (filter (fun l => valor_es_oid (li_autor_id l) autor) (libros db)))).

(** The dict [actualizacion], with the keys it can hold. *)
Record dict_set := { set_titulo : option string; set_anio : option Z }.

#[global] Instance Truthy_dict_set : Truthy dict_set :=
  fun d =>
    match set_titulo d, set_anio d with
    | None, None => false
    | _, _ => true
    end.

(** [{"$set": d}] applied to one book. *)
Definition aplicar_set (d : dict_set) (l : doc_libro) : doc_libro :=
  {| li_id := li_id l;
     li_titulo := match set_titulo d with Some t => t | None => li_titulo l end;
     li_anio := match set_anio d with Some a => a | None => li_anio l end;
     li_autor_id := li_autor_id l |}.

Definition mismo_contenido (x y : doc_libro) : bool :=
  (li_titulo x =? li_titulo y)%string && (li_anio x =? li_anio y).

(** [update_one] changes the first document with that [_id]. *)
Fixpoint update_primero (o : oid) (d : dict_set) (ls : list doc_libro)
  : list doc_libro * N :=
  match ls with
  | [] => ([], 0%N)
  | l :: ls' =>
      if (li_id l =? o)%N
      then (aplicar_set d l :: ls',
            if mismo_contenido (aplicar_set d l) l then 0%N else 1%N)
      else let '(r, n) := update_primero o d ls' in (l :: r, n)
  end.

(** [db.libros.update_one({"_id": o}, {"$set": d})], returning
    [modified_count]. *)
Definition libros_update_one (o : oid) (d : dict_set) : Mongo N :=
  registrar (update_one "libros") ;;
  db <- get ;;
  let '(ls, n) := update_primero o d (libros db) in
  put (con_libros db ls) ;;
  ret n.

Fixpoint delete_primero (o : oid) (ls : list doc_libro)
  : list doc_libro * N :=
  match ls with
  | [] => ([], 0%N)
  | l :: ls' =>
      if (li_id l =? o)%N then (ls', 1%N)
      else let '(r, n) := delete_primero o ls' in (l :: r, n)
  end.

(** [db.libros.delete_one({"_id": o})], returning [deleted_count]. *)
Definition libros_delete_one (o : oid) : Mongo N :=
  registrar (delete_one "libros") ;;
  db <- get ;;
  let '(ls, n) := delete_primero o (libros db) in
  put (con_libros db ls) ;;
  ret n.

Fixpoint nombres_repetidos (l : list doc_autor) : bool :=
  match l with
  | [] => false
  | a :: l' =>
      existsb (fun b => (au_nombre b =? au_nombre a)%string) l'
      || nombres_repetidos l'
  end.

(** [db.autores.create_index("nombre", unique=True)]: the server refuses
    to build the index over two authors of the same name. *)
Definition autores_create_index_unique : Mongo unit :=
  registrar (create_index "autores" "nombre") ;;
  (fun db =>
     if nombres_repetidos (autores db)
     then (Raise DuplicateKeyError, db)
     else (Return tt,
           {| autores := autores db; libros := libros db;
              nombre_unique := true;
              siguiente_oid := siguiente_oid db;
              llamadas := llamadas db |})).

(** *** The functions of the exercise *)

(** [crear_conexion()] on a new server. *)
Definition crear_conexion : database :=
  {| autores := []; libros := []; nombre_unique := false;
     siguiente_oid := 1%N; llamadas := [] |}.

(** The indexes on [libros] are not unique and constrain no document. *)
Definition crear_colecciones : Mongo unit :=
  autores_create_index_unique ;;
  registrar (create_index "libros" "titulo") ;;
  registrar (create_index "libros" "autor_id") ;;
  registrar (create_index "libros" "anio").

Definition insertar_autores (autores : list string) : Mongo (list string) :=
  let docs_autores := autores in
  resultado <- autores_insert_many docs_autores ;;
  ret (map str_oid resultado).

(** The third component of a book tuple: a [str], or a value that is not. *)
Inductive ref_autor :=
| Str (s : string)
| NoStr (v : valor).

Definition insertar_libros (libros : list (string * Z * ref_autor))
  : Mongo (list string) :=
  docs_libros <-
    comprehension
      (fun '(titulo, anio, autor_id) =>
         v <- match autor_id with
              | Str s => o <- ObjectId s ;; ret (VOid o)
              | NoStr v => ret v
              end ;;
         ret (titulo, anio, v))
      libros ;;
  resultado <- libros_insert_many docs_libros ;;
  ret (map str_oid resultado).

(** [f"{libro['titulo']} ({libro['anio']}) - {libro['autor_nombre']}"] *)
Definition linea (libro : string * Z * string) : string :=
  let '(titulo, anio, autor_nombre) := libro in
  (titulo ++ " (" ++ str_int anio ++ ") - " ++ autor_nombre)%string.

(** Returns the lines printed. *)
Definition consultar_libros : Mongo (list string) :=
  resultados <- libros_aggregate_lookup ;;
  ret (map linea resultados).

Definition buscar_libros_por_autor (nombre_autor : string)
  : Mongo (list (string * Z)) :=
  autor <- autores_find_one nombre_autor ;;
  match autor with
  | None => ret []
  | Some autor =>
      libros <- libros_aggregate_match (au_id autor) ;;
      ret (map (fun libro => (fst libro, snd libro)) libros)
  end.

Definition actualizar_libro (id_libro : string)
    (nuevo_titulo : option string) (nuevo_anio : option Z) : Mongo bool :=
  let actualizacion := {| set_titulo := None; set_anio := None |} in
  let actualizacion :=
    match nuevo_titulo with
    | Some t => {| set_titulo := Some t; set_anio := set_anio actualizacion |}
    | None => actualizacion
    end in
  let actualizacion :=
    match nuevo_anio with
    | Some a => {| set_titulo := set_titulo actualizacion; set_anio := Some a |}
    | None => actualizacion
    end in
  if negb (truthy actualizacion) then ret true
  else
    o <- ObjectId id_libro ;;
    modified_count <- libros_update_one o actualizacion ;;
    ret (0 <? modified_count)%N.

Definition eliminar_libro (id_libro : string) : Mongo bool :=
  o <- ObjectId id_libro ;;
  deleted_count <- libros_delete_one o ;;
  ret (0 <? deleted_count)%N.

(** *** [ejemplo_transaccion] *)

(** One new ObjectId, as [insert_one] gives a document without [_id]. *)
Definition nuevo_oid : Mongo oid :=
  fun db =>
    (Return (siguiente_oid db),
     {| autores := autores db; libros := libros db;
        nombre_unique := nombre_unique db;
        siguiente_oid := (siguiente_oid db + 1)%N;
        llamadas := llamadas db |}).

(** [db.autores.insert_one({"nombre": nombre}).inserted_id]: on the wire
    the [insert] command of a one-document [insert_many]; the unique index
    answers a name the collection holds with [DuplicateKeyError]. *)
Definition autores_insert_one (nombre : string) : Mongo oid :=
  o <- nuevo_oid ;;
  registrar (insert_many "autores" 1) ;;
  (fun db =>
     if nombre_unique db
        && existsb (fun a => (au_nombre a =? nombre)%string) (autores db)
     then (Raise DuplicateKeyError, db)
     else (Return o,
           con_autores db (autores db ++ [{| au_id := o; au_nombre := nombre |}]))).

Fixpoint delete_primer_autor (o : oid) (ls : list doc_autor)
  : list doc_autor * N :=
  match ls with
  | [] => ([], 0%N)
  | a :: ls' =>
      if (au_id a =? o)%N then (ls', 1%N)
      else let '(r, n) := delete_primer_autor o ls' in (a :: r, n)
  end.

(** [db.autores.delete_one({"_id": o})], returning [deleted_count]. *)
Definition autores_delete_one (o : oid) : Mongo N :=
  registrar (delete_one "autores") ;;
  db <- get ;;
  let '(ls, n) := delete_primer_autor o (autores db) in
  put (con_autores db ls) ;;
  ret n.

Section Transaccion.

(** Two pieces of the driver that the function reaches only from its
    [except] branch: [db.libros.delete_many({"autor_id": o})] and the text
    [str(e)] of an exception. *)
Variable libros_delete_many : oid -> Mongo N.
Variable str_error : error -> string.

(** [f"Error en la operación: {e}"] *)
Definition mensaje_error (e : error) : string :=
  ("Error en la operaci" ++ String (ascii_of_N 243) "n: " ++ str_error e)%string.

(** Returns the value returned and the lines printed.  The name
    [autor_id] is bound, for the test ['autor_id' in locals()], exactly
    when [insert_one] has returned. *)
Definition ejemplo_transaccion : Mongo (bool * list string) :=
  fun db =>
    match autores_insert_one "Miguel de Cervantes" db with
    | (Raise e, db1) => (Return (false, [mensaje_error e]), db1)
    | (Return autor_id, db1) =>
        let libros :=
          [("Don Quijote de la Mancha", 1605, VOid autor_id);
           ("Novelas ejemplares", 1613, VOid autor_id)] in
        match libros_insert_many libros db1 with
        | (Return _, db2) => (Return (true, []), db2)
        | (Raise e, db2) =>
            (Return (false, [mensaje_error e]),
             snd ((autores_delete_one autor_id ;;
                   libros_delete_many autor_id) db2))
        end
    end.

End Transaccion.

End Ej3a4.

(** ** 3b/ej3b3.py: Flask views with JSON-schema validation *)

Module Ej3b3.

(** A JSON request body: an object of scalar members, as the payloads of
    the API are. *)
Inductive escalar :=
| JNull
| JBool (b : bool)
| JInt (z : Z)
| JStr (s : string).

Definition json := list (string * escalar).

(** Rows of the tables [authors] and [books] behind the session. *)
Record fila_author := { author_id_ : Z; author_name : string }.
Record fila_book :=
  { book_id : Z; book_title : string; book_year : option Z;
    book_author_id : Z }.

Record sesion := { authors : list fila_author; books : list fila_book }.

Inductive error := TypeError.

Definition Flask := M sesion error.

(** What a view returns: [None], or a body with a status code. *)
Definition retorno := option (json * Z).

(** The body of the view is [pass]: it returns [None] for every payload
    and does not touch the session. *)
Definition add_author (data : json) : Flask retorno := ret None.

(** The body of the view is [pass]. *)
Definition add_book (data : json) : Flask retorno := ret None.

(** Flask's [make_response]: a view that returns [None] is a [TypeError]
    ("The view function ... did not return a valid response"). *)
Definition make_response (rv : retorno) : Flask (json * Z) :=
  match rv with
  | Some r => ret r
  | None => raise TypeError
  end.

(** [POST /authors] with a JSON body. *)
Definition POST_authors (data : json) : Flask (json * Z) :=
  rv <- add_author data ;;
  make_response rv.

(** [POST /books] with a JSON body. *)
Definition POST_books (data : json) : Flask (json * Z) :=
  rv <- add_book data ;;
  make_response rv.

(** The status code the client sees: an unhandled exception is a 500
    outside testing mode (in testing mode it reaches the caller). *)
Definition status_code (r : outcome error (json * Z)) : Z :=
  match r with
  | Return (_, status) => status
  | Raise _ => 500
  end.

End Ej3b3.

(** ** Vocabulary of the properties *)

(** Arguments of the SQLite variant inside the modelled domain. *)
Definition opt_sql_text (o : option string) : bool :=
  match o with Some s => Ej3a1.sql_text s | None => true end.

Definition opt_sql_int (o : option Z) : bool :=
  match o with Some z => Ej3a1.sql_int z | None => true end.

Definition tupla_sql (libro : string * Z * Z) : bool :=
  let '(titulo, anio, autor_id) := libro in
  Ej3a1.sql_text titulo && Ej3a1.sql_int anio && Ej3a1.sql_int autor_id.

(** Arguments of the MongoDB variant inside the modelled domain. *)
Definition opt_bson_int (o : option Z) : bool :=
  match o with Some z => Ej3a4.bson_int z | None => true end.

Definition tupla_bson (libro : string * Z * Ej3a4.ref_autor) : bool :=
  let '(_, anio, autor_id) := libro in
  Ej3a4.bson_int anio &&
  match autor_id with
  | Ej3a4.Str s =>
      match Ej3a4.ObjectId_value s with Some _ => true | None => false end
  | Ej3a4.NoStr (Ej3a4.VInt z) => Ej3a4.bson_int z
  | Ej3a4.NoStr _ => true
  end.

(** No row of [libros] has this id. *)
Definition sin_libro (c : Ej3a1.conexion) (id : Z) : bool :=
  negb (existsb (fun l => Ej3a1.l_id l =? id) (Ej3a1.libros c)).


(** Every book's [autor_id] is the id of exactly one author. *)
Definition cada_libro_resuelve (c : Ej3a1.conexion) : bool :=
  forallb
    (fun l =>
       Nat.eqb
         (List.length
            (filter (fun a => Ej3a1.l_autor_id l =? Ej3a1.a_id a)
                    (Ej3a1.autores c))) 1)
    (Ej3a1.libros c).

Definition cada_doc_resuelve (db : Ej3a4.database) : bool :=
  forallb
    (fun l =>
       Nat.eqb
         (List.length
            (filter (fun a => Ej3a4.valor_es_oid (Ej3a4.li_autor_id l) (Ej3a4.au_id a))
                    (Ej3a4.autores db))) 1)
    (Ej3a4.libros db).

(** The row a listing shows for a book: the book's title and year with the
    name of an author whose id is the book's [autor_id]. *)
Definition fila_de_libro (c : Ej3a1.conexion)
    (l : Ej3a1.fila_libro) (fila : string * Z * string) : Prop :=
  exists a, In a (Ej3a1.autores c)
            /\ Ej3a1.a_id a = Ej3a1.l_autor_id l
            /\ fila = (Ej3a1.l_titulo l, Ej3a1.l_anio l, Ej3a1.a_nombre a).

Definition fila_de_doc (db : Ej3a4.database)
    (l : Ej3a4.doc_libro) (fila : string * Z * string) : Prop :=
  exists a, In a (Ej3a4.autores db)
            /\ Ej3a4.li_autor_id l = Ej3a4.VOid (Ej3a4.au_id a)
            /\ fila = (Ej3a4.li_titulo l, Ej3a4.li_anio l, Ej3a4.au_nombre a).

(** The document [insertar_libros] writes for a tuple. *)
Definition doc_de_tupla (libro : string * Z * Ej3a4.ref_autor)
    (d : Ej3a4.doc_libro) : Prop :=
  let '(titulo, anio, autor_id) := libro in
  Ej3a4.li_titulo d = titulo /\ Ej3a4.li_anio d = anio /\
  match autor_id with
  | Ej3a4.Str s =>
      exists o, Ej3a4.ObjectId_value s = Some o
                /\ Ej3a4.li_autor_id d = Ej3a4.VOid o
  | Ej3a4.NoStr v => Ej3a4.li_autor_id d = v
  end.

(** A session on one SQLite connection: the calls made, in order.  A call
    that raises leaves the connection as it was when it raised. *)
Inductive operacion :=
| Insertar_autores (autores : list string)
| Insertar_libros (libros : list (string * Z * Z))
| Actualizar_libro (id_libro : Z) (nuevo_titulo : option string)
                   (nuevo_anio : option Z)
| Eliminar_libro (id_libro : Z).

Definition ejecutar (o : operacion) : Ej3a1.Sql unit :=
  match o with
  | Insertar_autores autores => Ej3a1.insertar_autores autores
  | Insertar_libros libros => Ej3a1.insertar_libros libros
  | Actualizar_libro id t a => Ej3a1.actualizar_libro id t a
  | Eliminar_libro id => Ej3a1.eliminar_libro id
  end.

Definition sesion (ops : list operacion) (c : Ej3a1.conexion) : Ej3a1.conexion :=
  fold_left (fun c o => snd (ejecutar o c)) ops c.

Definition operacion_sql (o : operacion) : bool :=
  match o with
  | Insertar_autores autores => forallb Ej3a1.sql_text autores
  | Insertar_libros libros => forallb tupla_sql libros
  | Actualizar_libro id t a =>
      Ej3a1.sql_int id && opt_sql_text t && opt_sql_int a
  | Eliminar_libro id => Ej3a1.sql_int id
  end.

(** The change the SQLite [actualizar_libro] makes to one row, by the truth
    value of its arguments. *)
Definition ej3a1_cambio (id : Z) (t : option string) (a : option Z)
    (l : Ej3a1.fila_libro) : Ej3a1.fila_libro :=
  let l := if truthy t then
             match t with Some t => Ej3a1.SET_titulo t id l | None => l end
           else l in
  if truthy a then
    match a with Some a => Ej3a1.SET_anio a id l | None => l end
  else l.

(** Order of the listing rows [(titulo, anio, autor_nombre)]: by author
    name, then by title, strings compared by code points. *)
Definition autor_titulo_le (x y : string * Z * string) : Prop :=
  let '(tx, _, nx) := x in
  let '(ty, _, ny) := y in
  String.compare nx ny = Lt
  \/ (nx = ny /\ String.compare tx ty <> Gt).

(** Ascending order of the years of [(titulo, anio)] pairs. *)
Definition anio_le (x y : string * Z) : Prop := snd x <= snd y.


(** *** Vocabulary of the further properties *)

(** The rows a batched insert writes when the numbering stands at [i]:
    the first element gets the id [i + 1]. *)
Fixpoint numerar_autores (i : Z) (autores : list string)
  : list Ej3a1.fila_autor :=
  match autores with
  | [] => []
  | nombre :: resto =>
      {| Ej3a1.a_id := i + 1; Ej3a1.a_nombre := nombre |}
        :: numerar_autores (i + 1) resto
  end.

Fixpoint numerar_libros (i : Z) (libros : list (string * Z * Z))
  : list Ej3a1.fila_libro :=
  match libros with
  | [] => []
  | (titulo, anio, autor_id) :: resto =>
      {| Ej3a1.l_id := i + 1; Ej3a1.l_titulo := titulo;
         Ej3a1.l_anio := anio; Ej3a1.l_autor_id := autor_id |}
        :: numerar_libros (i + 1) resto
  end.

(** The name of the [k]-th author of a batch, counting from 1, as a list:
    empty when [k] is not the number of an author. *)
Definition autor_numero (autores : list string) (k : Z) : list string :=
  if (1 <=? k) && (k <=? Z.of_nat (List.length autores))
  then [nth (Z.to_nat (k - 1)) autores ""]
  else [].

(** The tail of [LIKE] after a [%]: the rest of the pattern matches some
    suffix of the text. *)
Definition like_resto (patron : string) : string -> bool :=
  fix resto (s : string) : bool :=
    Ej3a1.like patron s ||
    match s with
    | EmptyString => false
    | String _ s' => resto s'
    end.



(** The documents an [insert_many] writes when the ObjectId generator
    stands at [s]: the first document gets the id [s]. *)
Fixpoint numerar_docs_autores (s : Ej3a4.oid) (nombres : list string)
  : list Ej3a4.doc_autor :=
  match nombres with
  | [] => []
  | n :: resto =>
      {| Ej3a4.au_id := s; Ej3a4.au_nombre := n |}
        :: numerar_docs_autores (s + 1)%N resto
  end.

Fixpoint numerar_docs_libros (s : Ej3a4.oid)
    (docs : list (string * Z * Ej3a4.valor)) : list Ej3a4.doc_libro :=
  match docs with
  | [] => []
  | (t, a, v) :: resto =>
      {| Ej3a4.li_id := s; Ej3a4.li_titulo := t; Ej3a4.li_anio := a;
         Ej3a4.li_autor_id := v |}
        :: numerar_docs_libros (s + 1)%N resto
  end.

(** The ids a batch of [n] documents gets, as the strings returned. *)
Definition ids_desde (s : Ej3a4.oid) (n : nat) : list string :=
  map (fun k => Ej3a4.str_oid (s + N.of_nat k)%N) (seq 0 n).

(** The value stored as [autor_id] for the third component of a tuple. *)
Definition valor_de_ref (r : Ej3a4.ref_autor) : Ej3a4.valor :=
  match r with
  | Ej3a4.Str s =>
      match Ej3a4.ObjectId_value s with
      | Some o => Ej3a4.VOid o
      | None => Ej3a4.VNone
      end
  | Ej3a4.NoStr v => v
  end.

Definition doc_de_libro (libro : string * Z * Ej3a4.ref_autor)
  : string * Z * Ej3a4.valor :=
  let '(titulo, anio, autor_id) := libro in (titulo, anio, valor_de_ref autor_id).

(** The ObjectId generator has not run out of twelve-byte values, and every
    [_id] in the database was given by it. *)
Definition ids_del_generador (db : Ej3a4.database) : bool :=
  (Ej3a4.siguiente_oid db <=? 2 ^ 96)%N
  && forallb (fun l => (Ej3a4.li_id l <? Ej3a4.siguiente_oid db)%N)
             (Ej3a4.libros db)
  && forallb (fun a => (Ej3a4.au_id a <? Ej3a4.siguiente_oid db)%N)
             (Ej3a4.autores db).

(** *** Vocabulary of the listings and of the search *)

(** The pairs of a book and an author whose id is the book's [autor_id]:
    one pair for each place of such a book in [libros] and of such an
    author in [autores], book by book. *)
Definition libros_con_autor (c : Ej3a1.conexion)
  : list (Ej3a1.fila_libro * Ej3a1.fila_autor) :=
  filter (fun p => Ej3a1.l_autor_id (fst p) =? Ej3a1.a_id (snd p))
         (list_prod (Ej3a1.libros c) (Ej3a1.autores c)).

Definition docs_con_autor (db : Ej3a4.database)
  : list (Ej3a4.doc_libro * Ej3a4.doc_autor) :=
  filter (fun p => match Ej3a4.li_autor_id (fst p) with
                   | Ej3a4.VOid o => (o =? Ej3a4.au_id (snd p))%N
                   | _ => false
                   end)
         (list_prod (Ej3a4.libros db) (Ej3a4.autores db)).

(** Order of the pairs of the MongoDB listing: by the author's name, then
    by the book's title, strings compared by code points. *)
Definition por_nombre_y_titulo (p q : Ej3a4.doc_libro * Ej3a4.doc_autor)
  : Prop :=
  String.compare (Ej3a4.au_nombre (snd p)) (Ej3a4.au_nombre (snd q)) = Lt
  \/ (Ej3a4.au_nombre (snd p) = Ej3a4.au_nombre (snd q)
      /\ String.compare (Ej3a4.li_titulo (fst p)) (Ej3a4.li_titulo (fst q))
         <> Gt).

(** A search argument inside the modelled domain of the SQLite variant:
    no apostrophe or NUL, and at most 25000 characters, so that its UTF-8
    text stays within the 50000 bytes the engine accepts for a [LIKE]
    pattern. *)
Definition patron_sql (s : string) : bool :=
  Ej3a1.sql_text s && (N.of_nat (String.length s) <=? 25000)%N.

(** ** Properties *)

(** *** Lemmas on the SQLite statements *)

Lemma ej3a1_conexion_eta (c : Ej3a1.conexion) :
  {| Ej3a1.autores := Ej3a1.autores c; Ej3a1.libros := Ej3a1.libros c |} = c.
Proof. destruct c; reflexivity. Qed.


Lemma filter_keeps {A} (p : A -> bool) (l : list A) :
  (forall x, In x l -> p x = true) -> filter p l = l.
Proof.
  induction l as [|x l IH]; simpl; intros H; [reflexivity|].
  rewrite H by (left; reflexivity). rewrite IH; [reflexivity|].
  intros y Hy. apply H. right. exact Hy.
Qed.





Lemma ej3a1_actualizar_libro_run id t a c :
  Ej3a1.actualizar_libro id t a c
  = (Return tt,
     {| Ej3a1.autores := Ej3a1.autores c;
        Ej3a1.libros := map (ej3a1_cambio id t a) (Ej3a1.libros c) |}).
Proof.
  unfold Ej3a1.actualizar_libro, ej3a1_cambio, if_truthy, bind,
    Ej3a1.UPDATE_titulo, Ej3a1.UPDATE_anio, ret.
  destruct t as [t|], a as [a|]; cbn;
    repeat match goal with
      | |- context [truthy ?x] => destruct (truthy x)
      end; cbn; rewrite ?map_map, ?map_id, ?ej3a1_conexion_eta; reflexivity.
Qed.


Lemma ej3a1_cambio_other id t a l :
  (Ej3a1.l_id l =? id) = false -> ej3a1_cambio id t a l = l.
Proof.
  intros E. unfold ej3a1_cambio, Ej3a1.SET_titulo, Ej3a1.SET_anio.
  destruct t as [t|], a as [a|]; cbn;
    repeat match goal with
      | |- context [truthy ?x] => destruct (truthy x)
      end; rewrite ?E; try reflexivity.
Qed.

Lemma ej3a1_cambio_id id t a l :
  Ej3a1.l_id (ej3a1_cambio id t a l) = Ej3a1.l_id l.
Proof.
  unfold ej3a1_cambio, Ej3a1.SET_titulo, Ej3a1.SET_anio.
  destruct t as [t|], a as [a|]; cbn;
    repeat match goal with
      | |- context [truthy ?x] => destruct (truthy x)
      end; destruct (Ej3a1.l_id l =? id) eqn:E; cbn; rewrite ?E; reflexivity.
Qed.

(** *** Lemmas on the MongoDB driver calls *)




Lemma delete_primero_missing o ls :
  existsb (fun l => (Ej3a4.li_id l =? o)%N) ls = false ->
  Ej3a4.delete_primero o ls = (ls, 0%N).
Proof.
  induction ls as [|l ls IH]; [reflexivity|].
  cbn. intros H. apply orb_false_iff in H. destruct H as [E H].
  rewrite E, (IH H). reflexivity.
Qed.

(** The collections after the MongoDB [actualizar_libro]. *)
Lemma ej3a4_actualizar_libro_store id t a db :
  let d := {| Ej3a4.set_titulo := t; Ej3a4.set_anio := a |} in
  let db' := snd (Ej3a4.actualizar_libro id t a db) in
  Ej3a4.autores db' = Ej3a4.autores db
  /\ Ej3a4.libros db'
     = match Ej3a4.ObjectId_value id with
       | Some o => if truthy d
                   then fst (Ej3a4.update_primero o d (Ej3a4.libros db))
                   else Ej3a4.libros db
       | None => Ej3a4.libros db
       end.
Proof.
  unfold Ej3a4.actualizar_libro, Ej3a4.ObjectId, Ej3a4.libros_update_one,
    Ej3a4.registrar, bind, ret, raise, get, put.
  destruct (Ej3a4.ObjectId_value id) as [o|];
    destruct t as [t|], a as [a|]; cbn;
    repeat match goal with
      | |- context [Ej3a4.update_primero ?o ?d ?l] =>
          destruct (Ej3a4.update_primero o d l)
      end; cbn; split; reflexivity.
Qed.

(** *** Sorting facts *)

Section SortFacts.
Context {A : Type} (leb : A -> A -> bool).

Lemma insert_sorted_perm x l : Permutation (x :: l) (insert_sorted leb x l).
Proof.
  induction l as [|y l IH]; cbn; [reflexivity|].
  destruct (leb x y); [reflexivity|].
  rewrite perm_swap. apply perm_skip, IH.
Qed.

Lemma sort_by_perm l : Permutation l (sort_by leb l).
Proof.
  induction l as [|x l IH]; cbn; [constructor|].
  rewrite <- insert_sorted_perm. apply perm_skip, IH.
Qed.

Hypothesis leb_total : forall x y, leb x y = true \/ leb y x = true.

Let le (x y : A) : Prop := leb x y = true.

Lemma insert_sorted_HdRel a x l :
  le a x -> HdRel le a l -> HdRel le a (insert_sorted leb x l).
Proof.
  intros Hax Hl. destruct l as [|y l]; cbn.
  - constructor. exact Hax.
  - destruct (leb x y); constructor; [exact Hax|].
    inversion Hl; assumption.
Qed.

Lemma insert_sorted_sorted x l :
  Sorted le l -> Sorted le (insert_sorted leb x l).
Proof.
  induction 1 as [|y l Hs IH Hd]; cbn.
  - repeat constructor.
  - destruct (leb x y) eqn:E.
    + constructor; [constructor; assumption|]. constructor. exact E.
    + constructor; [exact IH|].
      apply insert_sorted_HdRel; [|exact Hd].
      destruct (leb_total x y) as [H|H]; [congruence|exact H].
Qed.

Lemma sort_by_sorted l : Sorted le (sort_by leb l).
Proof.
  induction l as [|x l IH]; cbn; [constructor|].
  apply insert_sorted_sorted, IH.
Qed.
End SortFacts.

Lemma por_autor_titulo_total x y :
  Ej3a4.por_autor_titulo x y = true \/ Ej3a4.por_autor_titulo y x = true.
Proof.
  destruct x as [[tx ax] nx], y as [[ty ay] ny]. cbn.
  rewrite (String.compare_antisym ny nx).
  destruct (String.compare nx ny); cbn; auto using String.leb_total.
Qed.

Lemma anio_leb_total (x y : Ej3a4.doc_libro) :
  (Ej3a4.li_anio x <=? Ej3a4.li_anio y) = true
  \/ (Ej3a4.li_anio y <=? Ej3a4.li_anio x) = true.
Proof.
  destruct (Z.leb_spec (Ej3a4.li_anio x) (Ej3a4.li_anio y)); [left; reflexivity|].
  right. apply Z.leb_le. lia.
Qed.

(** *** The join, book by book *)

Section JoinFacts.
Context {L U R : Type} (on : L -> U -> bool) (fila : L -> U -> R)
        (us : list U).

Lemma join_one_each ls :
  forallb (fun l => Nat.eqb (List.length (filter (on l) us)) 1) ls = true ->
  Forall2 (fun l r => exists u, In u us /\ on l u = true /\ r = fila l u)
          ls (join on fila ls us).
Proof.
  induction ls as [|l ls IH]; cbn; intros H; [constructor|].
  apply andb_true_iff in H. destruct H as [H1 H].
  apply Nat.eqb_eq in H1.
  destruct (filter (on l) us) as [|u [|u' rest]] eqn:F; try discriminate.
  cbn. constructor; [|exact (IH H)].
  assert (Hu : In u (filter (on l) us)) by (rewrite F; left; reflexivity).
  apply filter_In in Hu. exists u. tauto.
Qed.

(** The join is the product of the two tables, filtered. *)
Lemma join_list_prod ls :
  join on fila ls us
  = map (fun p => fila (fst p) (snd p))
        (filter (fun p => on (fst p) (snd p)) (list_prod ls us)).
Proof.
  unfold join. induction ls as [|l ls IH]; cbn [flat_map list_prod];
    [reflexivity|].
  rewrite filter_app, map_app, IH. f_equal.
  clear IH. induction us as [|u us' IHu]; cbn; [reflexivity|].
  destruct (on l u); cbn; rewrite IHu; reflexivity.
Qed.
End JoinFacts.
(** *** Runs of the exercises' own scenarios *)

Example ej3a1_main :
let c := snd (Ej3a1.insertar_libros
                [("Cien", 1967, 1); ("Ficciones", 1944, 3)]
           (snd (Ej3a1.insertar_autores ["Gabo"; "Isabel"; "Jorge Luis Borges"]
                   Ej3a1.crear_tablas))) in
Ej3a1.consultar_libros c =
  ["Cien: Publicado por Gabo en 1967";
   "Ficciones: Publicado por Jorge Luis Borges en 1944"]
/\ Ej3a1.buscar_libros_por_autor c "jorge%" = [("Ficciones", 1944, "Jorge Luis Borges")].
Proof. split; reflexivity. Qed.


Example ej3a4_session :
  let '(ids, db) := Ej3a4.insertar_autores ["Borges"; "Allende"]
                      (snd (Ej3a4.crear_colecciones Ej3a4.crear_conexion)) in
  ids = Return ["000000000000000000000001"; "000000000000000000000002"]
  /\ fst (Ej3a4.consultar_libros
            (snd (Ej3a4.insertar_libros
                    [("Ficciones", 1944, Ej3a4.Str "000000000000000000000001");
                     ("Paula", 1994, Ej3a4.Str "000000000000000000000002");
                     ("El Aleph", 1949, Ej3a4.Str "000000000000000000000001")] db)))
     = Return ["Paula (1994) - Allende"; "El Aleph (1949) - Borges";
               "Ficciones (1944) - Borges"].
Proof. vm_compute. split; reflexivity. Qed.

(** *** Stores used in the counterexamples *)

(** One author and two of his books, the later one inserted first. *)
Lemma gabo_store :
  snd (Ej3a1.insertar_libros [("El amor", 1985, 1); ("Cien", 1967, 1)]
         (snd (Ej3a1.insertar_autores ["Gabo"] Ej3a1.crear_tablas)))
  = {| Ej3a1.autores := [{| Ej3a1.a_id := 1; Ej3a1.a_nombre := "Gabo" |}];
       Ej3a1.libros :=
         [{| Ej3a1.l_id := 1; Ej3a1.l_titulo := "El amor";
             Ej3a1.l_anio := 1985; Ej3a1.l_autor_id := 1 |};
          {| Ej3a1.l_id := 2; Ej3a1.l_titulo := "Cien";
             Ej3a1.l_anio := 1967; Ej3a1.l_autor_id := 1 |}] |}.
Proof. reflexivity. Qed.

(** *** Book creation and the author reference *)

(** C1, counterexample: with no author in the store, a book tuple whose
    author id is 999 (SQLite) or a well-formed ObjectId string (MongoDB) is
    inserted and the call returns normally. *)
Lemma C1_counterexample_orphan_book_persisted :
  (let r := Ej3a4.insertar_libros
              [("Test Book", 2000, Ej3a4.Str "0000000000000000000003e7")]
              Ej3a4.crear_conexion in
   Ej3a4.autores Ej3a4.crear_conexion = []
   /\ fst r = Return ["000000000000000000000001"]
   /\ Ej3a4.libros (snd r)
      = [{| Ej3a4.li_id := 1%N; Ej3a4.li_titulo := "Test Book";
            Ej3a4.li_anio := 2000;
            Ej3a4.li_autor_id := Ej3a4.VOid 999%N |}])
  /\
  (let r := Ej3a1.insertar_libros [("Test Book", 2000, 999)] Ej3a1.crear_tablas in
   Ej3a1.autores Ej3a1.crear_tablas = []
   /\ fst r = Return tt
   /\ Ej3a1.libros (snd r)
      = [{| Ej3a1.l_id := 1; Ej3a1.l_titulo := "Test Book";
            Ej3a1.l_anio := 2000; Ej3a1.l_autor_id := 999 |}]).
Proof. vm_compute. repeat split; reflexivity. Qed.

(** The view behind [POST /books] is the same kind of stub: whatever the
    author id in the body, the request ends in [TypeError]. *)
Lemma ej3b3_add_book_stub (s : Ej3b3.sesion) (data : Ej3b3.json) :
  Ej3b3.POST_books data s = (Raise Ej3b3.TypeError, s).
Proof. reflexivity. Qed.

(** *** Schema validation of author creation *)

(** C2, the code at the failing input: [add_author] is an unimplemented
    stub, so [POST /authors] with the body
    [{"name": "Ernest Hemingway", "age": 61}] ends in Flask's [TypeError]
    for a view that returned [None] (status 500), not in the 400 response
    that the docstring of the view and [test_add_author_invalid_extra_field]
    require; the session is left as it was. *)
Theorem C2_add_author_extra_field_not_400 :
  forall s : Ej3b3.sesion,
    let r := Ej3b3.POST_authors
               [("name", Ej3b3.JStr "Ernest Hemingway"); ("age", Ej3b3.JInt 61)]
               s in
    fst r = Raise Ej3b3.TypeError
    /\ Ej3b3.status_code (fst r) <> 400
    /\ snd r = s.
Proof.
  intros s r. subst r. cbn. repeat split. discriminate.
Qed.

(** *** Partial update *)

(** C3, the code at the failing input: the SQLite [actualizar_libro] tests
    the truth value of its arguments, not [is not None] as its own comment
    says, so a supplied empty title or a supplied year 0 is dropped like an
    omitted one: the call leaves every store as it was, and the book
    inserted with year 1967 keeps 1967 after [nuevo_anio=0]. *)
Theorem C3_actualizar_libro_falsy_dropped :
  (forall (c : Ej3a1.conexion) (id_libro : Z),
      Ej3a1.actualizar_libro id_libro (Some "") (Some 0) c = (Return tt, c))
  /\
  (let c := snd (Ej3a1.insertar_libros [("Cien", 1967, 1)]
                   (snd (Ej3a1.insertar_autores ["Gabo"] Ej3a1.crear_tablas))) in
   map Ej3a1.l_anio (Ej3a1.libros c) = [1967]
   /\ map Ej3a1.l_anio
        (Ej3a1.libros (snd (Ej3a1.actualizar_libro 1 None (Some 0) c)))
      = [1967]).
Proof.
  split.
  - intros c id_libro. reflexivity.
  - split; reflexivity.
Qed.

(** The MongoDB sibling does what the comment says: a supplied 0 is
    written. *)
Lemma ej3a4_actualizar_libro_writes_zero :
  let db := snd (Ej3a4.insertar_libros [("Cien", 1967, Ej3a4.NoStr Ej3a4.VNone)]
                   Ej3a4.crear_conexion) in
  let r := Ej3a4.actualizar_libro "000000000000000000000001" None (Some 0) db in
  fst r = Return true /\ map Ej3a4.li_anio (Ej3a4.libros (snd r)) = [0].
Proof. vm_compute. split; reflexivity. Qed.

(** *** Update and delete of a missing id *)


(** *** Search by author name *)


(** *** Listing books with their authors *)

(** C6, counterexample: in the SQLite variant the listing follows the table,
    "Zola" before "Allende", and the book whose author id 999 matches no
    author is not listed. *)
Lemma C6_counterexample_table_order_and_orphans :
  let c := snd (Ej3a1.insertar_libros
                  [("Germinal", 1885, 1); ("Paula", 1994, 2); ("Anon", 1900, 999)]
                  (snd (Ej3a1.insertar_autores ["Zola"; "Allende"]
                          Ej3a1.crear_tablas))) in
  List.length (Ej3a1.libros c) = 3%nat
  /\ Ej3a1.consultar_libros c
     = ["Germinal: Publicado por Zola en 1885";
        "Paula: Publicado por Allende en 1994"].
Proof. split; reflexivity. Qed.

(** *** Identifiers *)

(** C8, counterexample: in one SQLite session the id 1 is assigned to the
    book "A", and after that book is deleted the next batch assigns id 1 to
    the book "B". *)
Lemma C8_counterexample_id_reused_after_delete :
  let c1 := snd (Ej3a1.insertar_libros [("A", 2000, 1)] Ej3a1.crear_tablas) in
  let c2 := snd (Ej3a1.eliminar_libro 1 c1) in
  let c3 := snd (Ej3a1.insertar_libros [("B", 2001, 1)] c2) in
  map (fun l => (Ej3a1.l_id l, Ej3a1.l_titulo l)) (Ej3a1.libros c1) = [(1, "A")]
  /\ Ej3a1.libros c2 = []
  /\ map (fun l => (Ej3a1.l_id l, Ej3a1.l_titulo l)) (Ej3a1.libros c3) = [(1, "B")].
Proof. repeat split; reflexivity. Qed.

(** *** Update without fields, MongoDB *)

(** C10: in the MongoDB variant [actualizar_libro] with [nuevo_titulo] and
    [nuevo_anio] both [None] returns [True] for every database and every id
    string, well-formed or not, and leaves the database handle as it was: no
    command is sent to the server, so the book is never looked up. *)
Theorem C10_actualizar_libro_no_fields_returns_true :
  forall (db : Ej3a4.database) (id_libro : string),
    Ej3a4.actualizar_libro id_libro None None db = (Return true, db).
Proof. intros db id_libro. reflexivity. Qed.

(** *** Idempotence of the partial update *)

(** C9: a title that holds an apostrophe.
    [actualizar_libro(conexion, 1, nuevo_titulo="x', anio = anio + 1 --")]
    builds a text whose [WHERE] lies inside a comment and whose [SET] list
    has a second assignment: each call gives every book the title [x] and
    adds 1 to the year of every book, so the second application does not
    leave the store as the first one left it. *)
Theorem C9_actualizar_libro_apostrophe_title_not_idempotent :
  let c := snd (Ej3a1.insertar_libros [("Cien", 1967, 1); ("Paula", 1994, 2)]
                  Ej3a1.crear_tablas) in
  let nuevo_titulo := "x', anio = anio + 1 --" in
  Ej3a1.sql_actualizar_titulo nuevo_titulo 1
  = "UPDATE libros SET titulo = 'x', anio = anio + 1 --' WHERE id = 1"
  /\ exists c1 c2,
       Ej3a1.actualizar_libro_texto 1 (Some nuevo_titulo) None c
       = Some (Return tt, c1)
       /\ Ej3a1.actualizar_libro_texto 1 (Some nuevo_titulo) None c1
          = Some (Return tt, c2)
       /\ map (fun l => (Ej3a1.l_id l, Ej3a1.l_titulo l, Ej3a1.l_anio l))
              (Ej3a1.libros c)
          = [(1, "Cien", 1967); (2, "Paula", 1994)]
       /\ map (fun l => (Ej3a1.l_id l, Ej3a1.l_titulo l, Ej3a1.l_anio l))
              (Ej3a1.libros c1)
          = [(1, "x", 1968); (2, "x", 1995)]
       /\ map (fun l => (Ej3a1.l_id l, Ej3a1.l_titulo l, Ej3a1.l_anio l))
              (Ej3a1.libros c2)
          = [(1, "x", 1969); (2, "x", 1996)]
       /\ c2 <> c1.
Proof.
  split; [reflexivity|].
  eexists. eexists. split; [reflexivity|]. split; [reflexivity|].
  repeat split. discriminate.
Qed.



(** *** Omitted fields are kept *)

(** An update that supplies only the year leaves the id, the title and the
    author id of every row as they were (first half of the year-only
    scenario), in both variants. *)
Lemma ej3a1_year_only_keeps_title c id a :
  map (fun l => (Ej3a1.l_id l, Ej3a1.l_titulo l, Ej3a1.l_autor_id l))
      (Ej3a1.libros (snd (Ej3a1.actualizar_libro id None (Some a) c)))
  = map (fun l => (Ej3a1.l_id l, Ej3a1.l_titulo l, Ej3a1.l_autor_id l))
        (Ej3a1.libros c).
Proof.
  rewrite ej3a1_actualizar_libro_run. cbn [snd Ej3a1.libros].
  rewrite map_map. apply map_ext. intros l.
  unfold ej3a1_cambio, Ej3a1.SET_anio. cbn.
  destruct (truthy a); [|reflexivity].
  destruct (Ej3a1.l_id l =? id); reflexivity.
Qed.

Lemma update_primero_year_only o a ls :
  map (fun l => (Ej3a4.li_id l, Ej3a4.li_titulo l, Ej3a4.li_autor_id l))
      (fst (Ej3a4.update_primero o
              {| Ej3a4.set_titulo := None; Ej3a4.set_anio := Some a |} ls))
  = map (fun l => (Ej3a4.li_id l, Ej3a4.li_titulo l, Ej3a4.li_autor_id l)) ls.
Proof.
  induction ls as [|l ls IH]; [reflexivity|].
  cbn [Ej3a4.update_primero].
  destruct (Ej3a4.li_id l =? o)%N; [reflexivity|].
  destruct (Ej3a4.update_primero o _ ls) as [r n]. cbn in *.
  rewrite IH. reflexivity.
Qed.

Lemma ej3a4_year_only_keeps_title db id a :
  map (fun l => (Ej3a4.li_id l, Ej3a4.li_titulo l, Ej3a4.li_autor_id l))
      (Ej3a4.libros (snd (Ej3a4.actualizar_libro id None (Some a) db)))
  = map (fun l => (Ej3a4.li_id l, Ej3a4.li_titulo l, Ej3a4.li_autor_id l))
        (Ej3a4.libros db).
Proof.
  destruct (ej3a4_actualizar_libro_store id None (Some a) db) as [_ H].
  cbv zeta in H. rewrite H.
  destruct (Ej3a4.ObjectId_value id) as [o|]; [|reflexivity].
  cbn. apply update_primero_year_only.
Qed.

(** *** One author name per book *)

Lemma valor_es_oid_true v o :
  Ej3a4.valor_es_oid v o = true -> v = Ej3a4.VOid o.
Proof.
  destruct v; cbn; try discriminate.
  intros H. apply N.eqb_eq in H. congruence.
Qed.

Lemma ej3a1_consultar_libros_filas_join c :
  Ej3a1.consultar_libros_filas c
  = join (fun l a => Ej3a1.l_autor_id l =? Ej3a1.a_id a)
         (fun l a => (Ej3a1.l_titulo l, Ej3a1.l_anio l, Ej3a1.a_nombre a))
         (Ej3a1.libros c) (Ej3a1.autores c).
Proof.
  unfold Ej3a1.consultar_libros_filas, Ej3a1.SELECT_join, join.
  apply flat_map_ext. intros l. f_equal.
  apply filter_ext. intros a. apply andb_true_r.
Qed.

Lemma ej3a4_consultar_libros_run db :
  fst (Ej3a4.consultar_libros db)
  = Return (map Ej3a4.linea
              (sort_by Ej3a4.por_autor_titulo
                 (join (fun l a => Ej3a4.valor_es_oid (Ej3a4.li_autor_id l)
                                                       (Ej3a4.au_id a))
                       (fun l a => (Ej3a4.li_titulo l, Ej3a4.li_anio l,
                                    Ej3a4.au_nombre a))
                       (Ej3a4.libros db) (Ej3a4.autores db)))).
Proof. reflexivity. Qed.

(** C7: when every book's author id is the id of exactly one author, the
    listing has exactly one line per book, made of the book's title and
    year and the name of the author whose id is the book's author id: in
    both variants the printed rows are a reordering of a list that matches
    the books one for one, so no book is repeated and none is missing. *)
Theorem C7_listing_one_author_name_per_book :
  forall (c : Ej3a1.conexion) (db : Ej3a4.database),
    cada_libro_resuelve c = true ->
    cada_doc_resuelve db = true ->
    (exists filas impresas,
        Forall2 (fila_de_libro c) (Ej3a1.libros c) filas
        /\ Permutation filas impresas
        /\ Ej3a1.consultar_libros c
           = map (fun fila : string * Z * string =>
                    let '(titulo, anio, nombre) := fila in
                    (titulo ++ ": Publicado por " ++ nombre ++ " en "
                       ++ str_int anio)%string)
                 impresas)
    /\
    (exists filas impresas,
        Forall2 (fila_de_doc db) (Ej3a4.libros db) filas
        /\ Permutation filas impresas
        /\ fst (Ej3a4.consultar_libros db)
           = Return
               (map (fun fila : string * Z * string =>
                       let '(titulo, anio, nombre) := fila in
                       (titulo ++ " (" ++ str_int anio ++ ") - "
                          ++ nombre)%string)
                    impresas)).
Proof.
  intros c db Hc Hdb. split.
  - exists (Ej3a1.consultar_libros_filas c), (Ej3a1.consultar_libros_filas c).
    split; [|split; reflexivity].
    rewrite ej3a1_consultar_libros_filas_join.
    pose proof (join_one_each _
                  (fun l a => (Ej3a1.l_titulo l, Ej3a1.l_anio l, Ej3a1.a_nombre a))
                  _ _ Hc) as H.
    revert H. apply Forall2_impl.
    intros l r [a [Ha [Hid ->]]]. exists a.
    apply Z.eqb_eq in Hid. auto.
  - eexists. eexists. split; [|split].
    + pose proof (join_one_each _
                    (fun l a => (Ej3a4.li_titulo l, Ej3a4.li_anio l,
                                 Ej3a4.au_nombre a))
                    _ _ Hdb) as H.
      revert H. apply Forall2_impl.
      intros l r [a [Ha [Hid ->]]]. exists a.
      apply valor_es_oid_true in Hid. auto.
    + apply sort_by_perm.
    + apply ej3a4_consultar_libros_run.
Qed.

Lemma C7_witness_two_authors :
  let c := snd (Ej3a1.insertar_libros
                  [("Germinal", 1885, 1); ("Paula", 1994, 2); ("Nana", 1880, 1)]
                  (snd (Ej3a1.insertar_autores ["Zola"; "Allende"]
                          Ej3a1.crear_tablas))) in
  let db := snd (Ej3a4.insertar_libros
                   [("Germinal", 1885, Ej3a4.Str "000000000000000000000001");
                    ("Paula", 1994, Ej3a4.Str "000000000000000000000002");
                    ("Nana", 1880, Ej3a4.Str "000000000000000000000001")]
                   (snd (Ej3a4.insertar_autores ["Zola"; "Allende"]
                           Ej3a4.crear_conexion))) in
  (cada_libro_resuelve c = true /\ cada_doc_resuelve db = true
   /\ Ej3a1.consultar_libros c
      = ["Germinal: Publicado por Zola en 1885";
         "Paula: Publicado por Allende en 1994";
         "Nana: Publicado por Zola en 1880"]
   /\ fst (Ej3a4.consultar_libros db)
      = Return ["Paula (1994) - Allende"; "Germinal (1885) - Zola";
                "Nana (1880) - Zola"])
  /\
  ((exists filas impresas,
       Forall2 (fila_de_libro c) (Ej3a1.libros c) filas
       /\ Permutation filas impresas
       /\ Ej3a1.consultar_libros c
          = map (fun fila : string * Z * string =>
                   let '(titulo, anio, nombre) := fila in
                   (titulo ++ ": Publicado por " ++ nombre ++ " en "
                      ++ str_int anio)%string)
                impresas)
   /\
   (exists filas impresas,
       Forall2 (fila_de_doc db) (Ej3a4.libros db) filas
       /\ Permutation filas impresas
       /\ fst (Ej3a4.consultar_libros db)
          = Return
              (map (fun fila : string * Z * string =>
                      let '(titulo, anio, nombre) := fila in
                      (titulo ++ " (" ++ str_int anio ++ ") - "
                         ++ nombre)%string)
                   impresas))).
Proof.
  intros c db. split.
  - repeat split; reflexivity.
  - apply (C7_listing_one_author_name_per_book c db); reflexivity.
Defined.

(** *** Update and delete of a missing id, as the code has them *)




Lemma ObjectId_value_length s :
  String.length s <> 24%nat -> Ej3a4.ObjectId_value s = None.
Proof.
  intros H. unfold Ej3a4.ObjectId_value.
  destruct (Nat.eqb_spec (String.length s) 24); [contradiction|reflexivity].
Qed.




(** *** Book creation in the MongoDB variant, as the code has it *)

(** The document built for a tuple by the list comprehension of
    [insertar_libros]. *)
Lemma ej3a4_docs_libros db (f : string * Z * Ej3a4.ref_autor ->
                                 Ej3a4.Mongo (string * Z * Ej3a4.valor)) libros :
  (forall titulo anio autor_id db,
      tupla_bson (titulo, anio, autor_id) = true ->
      exists v, f (titulo, anio, autor_id) db = (Return (titulo, anio, v), db)
                /\ match autor_id with
                   | Ej3a4.Str s => exists o, Ej3a4.ObjectId_value s = Some o
                                              /\ v = Ej3a4.VOid o
                   | Ej3a4.NoStr v0 => v = v0
                   end) ->
  forallb tupla_bson libros = true ->
  exists docs,
    comprehension f libros db = (Return docs, db)
    /\ Forall2 (fun libro doc =>
                  forall o, doc_de_tupla libro
                    {| Ej3a4.li_id := o; Ej3a4.li_titulo := fst (fst doc);
                       Ej3a4.li_anio := snd (fst doc);
                       Ej3a4.li_autor_id := snd doc |})
               libros docs.
Proof.
  intros Hf. induction libros as [|[[t a] r] libros IH]; cbn [forallb]; intros H.
  - exists []. split; [reflexivity|constructor].
  - apply andb_true_iff in H. destruct H as [H1 H2].
    destruct (IH H2) as [docs [Hrun Hdocs]].
    destruct (Hf t a r db H1) as [v [Hv Hr]].
    exists ((t, a, v) :: docs). split.
    + cbn [comprehension]. unfold bind at 1. rewrite Hv.
      unfold bind at 1. rewrite Hrun. reflexivity.
    + constructor; [|exact Hdocs].
      intros o. cbn. destruct r; auto.
Qed.

Lemma combine_new_ids (ids : list Ej3a4.oid) (docs : list (string * Z * Ej3a4.valor)) :
  List.length ids = List.length docs ->
  map Ej3a4.li_id
    (map (fun '(o, (t, a, v)) =>
            {| Ej3a4.li_id := o; Ej3a4.li_titulo := t; Ej3a4.li_anio := a;
               Ej3a4.li_autor_id := v |}) (combine ids docs)) = ids.
Proof.
  revert docs. induction ids as [|o ids IH]; intros [|[[t a] v] docs];
    cbn; intros H; try discriminate; [reflexivity|].
  f_equal. apply IH. congruence.
Qed.

Lemma combine_new_docs libros (ids : list Ej3a4.oid)
      (docs : list (string * Z * Ej3a4.valor)) :
  Forall2 (fun libro doc =>
             forall o, doc_de_tupla libro
               {| Ej3a4.li_id := o; Ej3a4.li_titulo := fst (fst doc);
                  Ej3a4.li_anio := snd (fst doc);
                  Ej3a4.li_autor_id := snd doc |})
          libros docs ->
  List.length ids = List.length docs ->
  Forall2 doc_de_tupla libros
    (map (fun '(o, (t, a, v)) =>
            {| Ej3a4.li_id := o; Ej3a4.li_titulo := t; Ej3a4.li_anio := a;
               Ej3a4.li_autor_id := v |}) (combine ids docs)).
Proof.
  intros H. revert ids.
  induction H as [|libro [[t a] v] libros docs Hd _ IH]; intros [|o ids];
    cbn; intros Hlen; try discriminate; constructor.
  - apply (Hd o).
  - apply IH. congruence.
Qed.

Lemma ej3a4_insertar_libros_run db libros :
  forallb tupla_bson libros = true ->
  exists docs,
    Forall2 (fun libro doc =>
               forall o, doc_de_tupla libro
                 {| Ej3a4.li_id := o; Ej3a4.li_titulo := fst (fst doc);
                    Ej3a4.li_anio := snd (fst doc);
                    Ej3a4.li_autor_id := snd doc |})
            libros docs
    /\ Ej3a4.insertar_libros libros db
       = (resultado <- Ej3a4.libros_insert_many docs ;;
          ret (map Ej3a4.str_oid resultado)) db.
Proof.
  intros Hok. unfold Ej3a4.insertar_libros.
  match goal with
  | |- context [comprehension ?f libros] =>
      destruct (ej3a4_docs_libros db f libros) as [docs [Hrun Hdocs]]
  end.
  - intros t a r db' H. cbn in H. apply andb_true_iff in H.
    destruct H as [_ H]. destruct r as [s|v].
    + unfold Ej3a4.ObjectId, bind, ret.
      destruct (Ej3a4.ObjectId_value s) as [o|]; [|discriminate].
      eexists. split; [reflexivity|]. exists o. auto.
    + eexists. split; [reflexivity|reflexivity].
  - exact Hok.
  - exists docs. split; [exact Hdocs|].
    unfold bind at 1. rewrite Hrun. reflexivity.
Qed.

Lemma ej3a4_libros_insert_many_run docs db :
  docs <> [] ->
  let ids := map (fun k => (Ej3a4.siguiente_oid db + N.of_nat k)%N)
                 (seq 0 (List.length docs)) in
  let r := Ej3a4.libros_insert_many docs db in
  fst r = Return ids
  /\ Ej3a4.autores (snd r) = Ej3a4.autores db
  /\ Ej3a4.libros (snd r)
     = Ej3a4.libros db ++
       map (fun '(o, (t, a, v)) =>
              {| Ej3a4.li_id := o; Ej3a4.li_titulo := t; Ej3a4.li_anio := a;
                 Ej3a4.li_autor_id := v |}) (combine ids docs).
Proof.
  intros Hne. destruct docs as [|d docs]; [contradiction Hne; reflexivity|].
  repeat split.
Qed.

(** C1, as the code has it: the MongoDB [insertar_libros] consults no
    author.  For every database and every non-empty batch of tuples whose
    author ids given as strings are well-formed ObjectId strings, the call
    returns the ids of the new documents and the collection [libros] grows
    by one document per tuple, holding the tuple's title, year and author
    id, whatever the collection [autores] holds; [autores] is untouched. *)
Theorem C1_insertar_libros_writes_without_author_lookup :
  forall (db : Ej3a4.database) (libros : list (string * Z * Ej3a4.ref_autor)),
    libros <> [] ->
    forallb tupla_bson libros = true ->
    let r := Ej3a4.insertar_libros libros db in
    exists nuevos,
      fst r = Return (map (fun d => Ej3a4.str_oid (Ej3a4.li_id d)) nuevos)
      /\ Ej3a4.libros (snd r) = Ej3a4.libros db ++ nuevos
      /\ Forall2 doc_de_tupla libros nuevos
      /\ Ej3a4.autores (snd r) = Ej3a4.autores db.
Proof.
  intros db libros Hne Hok r.
  destruct (ej3a4_insertar_libros_run db libros Hok) as [docs [Hdocs Hrun]].
  assert (Hd : docs <> []).
  { destruct Hdocs; [contradiction Hne; reflexivity|discriminate]. }
  destruct (ej3a4_libros_insert_many_run docs db Hd) as [Hids [Ha Hl]].
  set (ids := map (fun k => (Ej3a4.siguiente_oid db + N.of_nat k)%N)
                  (seq 0 (List.length docs))) in *.
  assert (Hlen : List.length ids = List.length docs).
  { unfold ids. rewrite length_map, length_seq. reflexivity. }
  subst r. rewrite Hrun. unfold bind, ret.
  destruct (Ej3a4.libros_insert_many docs db) as [res db'].
  cbn [fst snd] in *. subst res.
  exists (map (fun '(o, (t, a, v)) =>
                 {| Ej3a4.li_id := o; Ej3a4.li_titulo := t;
                    Ej3a4.li_anio := a; Ej3a4.li_autor_id := v |})
              (combine ids docs)).
  split; [|split; [exact Hl|split; [|exact Ha]]].
  - f_equal. rewrite <- (combine_new_ids ids docs Hlen) at 1.
    rewrite map_map. reflexivity.
  - apply combine_new_docs; assumption.
Qed.

Lemma C1_witness_unknown_author :
  let db := snd (Ej3a4.insertar_autores ["Gabo"] Ej3a4.crear_conexion) in
  let libros := [("Test Book", 2000, Ej3a4.Str "0000000000000000000003e7")] in
  (libros <> [] /\ forallb tupla_bson libros = true)
  /\
  (let r := Ej3a4.insertar_libros libros db in
   exists nuevos,
     fst r = Return (map (fun d => Ej3a4.str_oid (Ej3a4.li_id d)) nuevos)
     /\ Ej3a4.libros (snd r) = Ej3a4.libros db ++ nuevos
     /\ Forall2 doc_de_tupla libros nuevos
     /\ Ej3a4.autores (snd r) = Ej3a4.autores db).
Proof.
  intros db libros. split.
  - split; [discriminate|reflexivity].
  - apply (C1_insertar_libros_writes_without_author_lookup db libros);
      [discriminate|reflexivity].
Defined.

(** *** The listing, as the code has it *)

Lemma por_autor_titulo_le x y :
  Ej3a4.por_autor_titulo x y = true -> autor_titulo_le x y.
Proof.
  destruct x as [[tx ax] nx], y as [[ty ay] ny]. cbn.
  destruct (String.compare nx ny) eqn:E; [|auto|discriminate].
  intros H. right. split; [apply String.compare_eq_iff, E|].
  unfold String.leb in H. intros G. rewrite G in H. discriminate.
Qed.

Lemma Sorted_impl {A} (R1 R2 : A -> A -> Prop) l :
  (forall x y, R1 x y -> R2 x y) -> Sorted R1 l -> Sorted R2 l.
Proof.
  intros HR. induction 1 as [|x l Hs IH Hd]; constructor; [exact IH|].
  destruct Hd; constructor; auto.
Qed.

Lemma Sorted_map {A B} (f : A -> B) (R : B -> B -> Prop) l :
  Sorted (fun x y => R (f x) (f y)) l -> Sorted R (map f l).
Proof.
  induction 1 as [|x l Hs IH Hd]; cbn; constructor; [exact IH|].
  destruct Hd; cbn; constructor; assumption.
Qed.

Lemma insert_sorted_map {A B} (f : A -> B) (leb : B -> B -> bool) x l :
  insert_sorted leb (f x) (map f l)
  = map f (insert_sorted (fun a b => leb (f a) (f b)) x l).
Proof.
  induction l as [|y l IH]; cbn; [reflexivity|].
  destruct (leb (f x) (f y)); cbn; [reflexivity|]. rewrite IH. reflexivity.
Qed.

Lemma sort_by_map {A B} (f : A -> B) (leb : B -> B -> bool) l :
  sort_by leb (map f l) = map f (sort_by (fun a b => leb (f a) (f b)) l).
Proof.
  induction l as [|x l IH]; [reflexivity|]. cbn [map].
  change (sort_by leb (f x :: map f l))
    with (insert_sorted leb (f x) (sort_by leb (map f l))).
  rewrite IH. apply insert_sorted_map.
Qed.

(** The rows the SQLite listing fetches, pair by pair. *)
Lemma ej3a1_consultar_libros_pares c :
  Ej3a1.consultar_libros c
  = map (fun p => Ej3a1.linea (Ej3a1.l_titulo (fst p), Ej3a1.l_anio (fst p),
                               Ej3a1.a_nombre (snd p)))
        (libros_con_autor c).
Proof.
  unfold Ej3a1.consultar_libros. rewrite ej3a1_consultar_libros_filas_join.
  rewrite join_list_prod, map_map. reflexivity.
Qed.

(** The rows the MongoDB listing prints, pair by pair, in the order of
    the [$sort] stage. *)
Lemma ej3a4_consultar_libros_pares db :
  fst (Ej3a4.consultar_libros db)
  = Return
      (map (fun p => Ej3a4.linea (Ej3a4.li_titulo (fst p), Ej3a4.li_anio (fst p),
                                  Ej3a4.au_nombre (snd p)))
           (sort_by
              (fun p q =>
                 Ej3a4.por_autor_titulo
                   (Ej3a4.li_titulo (fst p), Ej3a4.li_anio (fst p),
                    Ej3a4.au_nombre (snd p))
                   (Ej3a4.li_titulo (fst q), Ej3a4.li_anio (fst q),
                    Ej3a4.au_nombre (snd q)))
              (docs_con_autor db))).
Proof.
  rewrite ej3a4_consultar_libros_run, join_list_prod, sort_by_map, map_map.
  reflexivity.
Qed.

Lemma por_autor_titulo_pares (p q : Ej3a4.doc_libro * Ej3a4.doc_autor) :
  Ej3a4.por_autor_titulo
    (Ej3a4.li_titulo (fst p), Ej3a4.li_anio (fst p), Ej3a4.au_nombre (snd p))
    (Ej3a4.li_titulo (fst q), Ej3a4.li_anio (fst q), Ej3a4.au_nombre (snd q))
  = true ->
  por_nombre_y_titulo p q.
Proof.
  intros H. apply por_autor_titulo_le in H. exact H.
Qed.

(** C6, as the code has it: [consultar_libros] prints one line for each
    pair of a book and an author whose id is the book's author id -- the
    book's title and year and that author's name, in the format of the
    variant -- so a book whose author id matches no author gets no line.
    The MongoDB variant prints these lines ordered by author name, then by
    title; the SQLite variant imposes no order on them. *)
Theorem C6_listing_rows_and_order :
  forall (c : Ej3a1.conexion) (db : Ej3a4.database),
    (exists impresas,
        Permutation (libros_con_autor c) impresas
        /\ Ej3a1.consultar_libros c
           = map (fun p =>
                    (Ej3a1.l_titulo (fst p) ++ ": Publicado por "
                       ++ Ej3a1.a_nombre (snd p) ++ " en "
                       ++ str_int (Ej3a1.l_anio (fst p)))%string)
                 impresas)
    /\
    (exists impresas,
        Permutation (docs_con_autor db) impresas
        /\ Sorted por_nombre_y_titulo impresas
        /\ fst (Ej3a4.consultar_libros db)
           = Return
               (map (fun p =>
                       (Ej3a4.li_titulo (fst p) ++ " ("
                          ++ str_int (Ej3a4.li_anio (fst p)) ++ ") - "
                          ++ Ej3a4.au_nombre (snd p))%string)
                    impresas)).
Proof.
  intros c db. split.
  - exists (libros_con_autor c). split; [apply Permutation_refl|].
    apply ej3a1_consultar_libros_pares.
  - eexists. split; [apply sort_by_perm|]. split.
    + eapply Sorted_impl; [apply por_autor_titulo_pares|].
      apply sort_by_sorted. intros p q. apply por_autor_titulo_total.
    + apply ej3a4_consultar_libros_pares.
Qed.

(** *** Search by author name, as the code has it *)

Lemma filter_none {U} (p : U -> bool) us :
  (forall u, In u us -> p u = false) -> filter p us = [].
Proof.
  induction us as [|u us IH]; cbn; intros H; [reflexivity|].
  rewrite H by (left; reflexivity). apply IH.
  intros u' Hu'. apply H. right. exact Hu'.
Qed.







(** *** Identifiers within a session, as the code has them *)

Lemma for_enumerate_invariant {St Exn A} (P : St -> Prop)
      (body : Z -> A -> M St Exn unit) :
  (forall i x s, P s -> P (snd (body i x s))) ->
  forall l i s, P s -> P (snd (for_enumerate i l body s)).
Proof.
  intros Hb. induction l as [|x l IH]; intros i s Hs; cbn; [exact Hs|].
  unfold bind. specialize (Hb i x s Hs).
  destruct (body i x s) as [[[]|e] s']; cbn in *; [apply IH|]; exact Hb.
Qed.

Lemma NoDup_snoc {A} (l : list A) x : NoDup l -> ~ In x l -> NoDup (l ++ [x]).
Proof.
  intros Hl Hx. apply (Permutation_NoDup (Permutation_cons_append l x)).
  constructor; assumption.
Qed.

Lemma existsb_id_false {A} (f : A -> Z) (l : list A) id :
  existsb (fun x => f x =? id) l = false -> ~ In id (map f l).
Proof.
  intros H Hin. apply in_map_iff in Hin. destruct Hin as [x [Hx Hl]].
  assert (existsb (fun x => f x =? id) l = true).
  { apply existsb_exists. exists x. split; [exact Hl|]. apply Z.eqb_eq, Hx. }
  congruence.
Qed.

Lemma existsb_id_true {A} (f : A -> Z) (l : list A) id :
  In id (map f l) -> existsb (fun x => f x =? id) l = true.
Proof.
  intros Hin. apply in_map_iff in Hin. destruct Hin as [x [Hx Hl]].
  apply existsb_exists. exists x. split; [exact Hl|]. apply Z.eqb_eq, Hx.
Qed.

Lemma NoDup_map_filter {A B} (f : A -> B) (p : A -> bool) l :
  NoDup (map f l) -> NoDup (map f (filter p l)).
Proof.
  induction l as [|x l IH]; cbn; intros H; [constructor|].
  inversion H as [|y l' Hx Hl]; subst.
  destruct (p x); cbn; [|apply IH, Hl].
  constructor; [|apply IH, Hl].
  intros Hin. apply Hx. apply in_map_iff in Hin.
  destruct Hin as [z [Hz Hzl]]. apply filter_In in Hzl.
  apply in_map_iff. exists z. tauto.
Qed.

(** Pairwise distinct ids in both tables. *)
Lemma ids_distintos_ejecutar o c :
  NoDup (map Ej3a1.a_id (Ej3a1.autores c))
  /\ NoDup (map Ej3a1.l_id (Ej3a1.libros c)) ->
  NoDup (map Ej3a1.a_id (Ej3a1.autores (snd (ejecutar o c))))
  /\ NoDup (map Ej3a1.l_id (Ej3a1.libros (snd (ejecutar o c)))).
Proof.
  destruct o as [autores|libros|id t a|id]; cbn [ejecutar].
  - unfold Ej3a1.insertar_autores. revert c.
    apply for_enumerate_invariant with
      (P := fun c => NoDup (map Ej3a1.a_id (Ej3a1.autores c))
                     /\ NoDup (map Ej3a1.l_id (Ej3a1.libros c))).
    intros i x s [Ha Hl]. unfold Ej3a1.INSERT_autores.
    destruct (existsb _ (Ej3a1.autores s)) eqn:E; cbn; [auto|].
    split; [|exact Hl]. rewrite map_app. cbn.
    apply NoDup_snoc; [exact Ha|]. apply existsb_id_false, E.
  - unfold Ej3a1.insertar_libros. revert c.
    apply for_enumerate_invariant with
      (P := fun c => NoDup (map Ej3a1.a_id (Ej3a1.autores c))
                     /\ NoDup (map Ej3a1.l_id (Ej3a1.libros c))).
    intros i [[t a] r] s [Ha Hl]. unfold Ej3a1.INSERT_libros.
    destruct (existsb _ (Ej3a1.libros s)) eqn:E; cbn; [auto|].
    split; [exact Ha|]. rewrite map_app. cbn.
    apply NoDup_snoc; [exact Hl|]. apply existsb_id_false, E.
  - intros [Ha Hl]. rewrite ej3a1_actualizar_libro_run. cbn.
    split; [exact Ha|]. rewrite map_map.
    erewrite map_ext; [exact Hl|]. intros l. apply ej3a1_cambio_id.
  - intros [Ha Hl]. cbn. split; [exact Ha|]. apply NoDup_map_filter, Hl.
Qed.

Lemma ids_distintos_sesion ops c :
  NoDup (map Ej3a1.a_id (Ej3a1.autores c))
  /\ NoDup (map Ej3a1.l_id (Ej3a1.libros c)) ->
  NoDup (map Ej3a1.a_id (Ej3a1.autores (sesion ops c)))
  /\ NoDup (map Ej3a1.l_id (Ej3a1.libros (sesion ops c))).
Proof.
  revert c. induction ops as [|o ops IH]; intros c H; cbn; [exact H|].
  apply IH, ids_distintos_ejecutar, H.
Qed.

(** A batch on a table whose ids are all at most [i] gives its rows the
    ids [i + 1], [i + 2], ... in order. *)
Lemma ej3a1_INSERT_libros_numbering (libros : list (string * Z * Z)) :
  forall i c,
    (forall l, In l (Ej3a1.libros c) -> Ej3a1.l_id l <= i) ->
    let r := for_enumerate i libros
               (fun i libro =>
                  let '(titulo, anio, autor_id) := libro in
                  Ej3a1.INSERT_libros (i + 1) titulo anio autor_id) c in
    fst r = Return tt
    /\ Ej3a1.autores (snd r) = Ej3a1.autores c
    /\ map Ej3a1.l_id (Ej3a1.libros (snd r))
       = map Ej3a1.l_id (Ej3a1.libros c)
         ++ map (fun k => i + 1 + Z.of_nat k) (seq 0 (List.length libros)).
Proof.
  induction libros as [|[[t a] r] libros IH]; intros i c Hle; cbn.
  - rewrite app_nil_r. auto.
  - assert (E : existsb (fun l => Ej3a1.l_id l =? i + 1) (Ej3a1.libros c) = false).
    { destruct (existsb _ _) eqn:E; [|reflexivity].
      apply existsb_exists in E. destruct E as [l [Hl E]].
      apply Z.eqb_eq in E. specialize (Hle l Hl). lia. }
    assert (HI : Ej3a1.INSERT_libros (i + 1) t a r c
                 = (Return tt,
                    {| Ej3a1.autores := Ej3a1.autores c;
                       Ej3a1.libros := Ej3a1.libros c ++
                         [{| Ej3a1.l_id := i + 1; Ej3a1.l_titulo := t;
                             Ej3a1.l_anio := a; Ej3a1.l_autor_id := r |}] |})).
    { unfold Ej3a1.INSERT_libros. rewrite E. reflexivity. }
    unfold bind. rewrite HI.
    match goal with
    | |- context [for_enumerate (i + 1) libros ?b ?s] =>
        destruct (IH (i + 1) s) as [H1 [H2 H3]]
    end.
    { cbn. intros l Hl. apply in_app_or in Hl. destruct Hl as [Hl|[<-|[]]].
      - specialize (Hle l Hl). lia.
      - cbn. lia. }
    cbv zeta in *. split; [exact H1|]. split; [exact H2|].
    rewrite H3. cbn. rewrite map_app, <- app_assoc. cbn. f_equal. f_equal.
    + lia.
    + rewrite <- seq_shift, map_map. apply map_ext. intros k. lia.
Qed.

Lemma ej3a1_insertar_libros_fresh_table (libros : list (string * Z * Z)) c :
  Ej3a1.libros c = [] ->
  let r := Ej3a1.insertar_libros libros c in
  fst r = Return tt
  /\ map Ej3a1.l_id (Ej3a1.libros (snd r))
     = map (fun k => 1 + Z.of_nat k) (seq 0 (List.length libros)).
Proof.
  intros Hc. destruct (ej3a1_INSERT_libros_numbering libros 0 c) as [H1 [_ H3]].
  - rewrite Hc. intros l [].
  - rewrite Hc in H3. split; [exact H1|exact H3].
Qed.

(** C8, as the code has it, for calls whose names and titles hold no
    apostrophe or NUL and whose integers are 64-bit: at every point of a
    session on one connection the ids held by [autores] are pairwise
    distinct and so are the ids held by [libros]; a batched insert numbers
    its rows from 1, so on a table that holds id 1 it raises
    [IntegrityError] at its first row and writes nothing.  (An id whose
    row was deleted is free to be assigned again.) *)
Theorem C8_ids_distinct_within_each_table :
  forall (ops : list operacion)
         (autor : string) (mas_autores : list string)
         (libro : string * Z * Z) (mas_libros : list (string * Z * Z)),
    forallb operacion_sql ops = true ->
    forallb Ej3a1.sql_text (autor :: mas_autores) = true ->
    forallb tupla_sql (libro :: mas_libros) = true ->
    let c := sesion ops Ej3a1.crear_tablas in
    NoDup (map Ej3a1.a_id (Ej3a1.autores c))
    /\ NoDup (map Ej3a1.l_id (Ej3a1.libros c))
    /\ (In 1 (map Ej3a1.a_id (Ej3a1.autores c)) ->
        Ej3a1.insertar_autores (autor :: mas_autores) c
        = (Raise Ej3a1.IntegrityError, c))
    /\ (In 1 (map Ej3a1.l_id (Ej3a1.libros c)) ->
        Ej3a1.insertar_libros (libro :: mas_libros) c
        = (Raise Ej3a1.IntegrityError, c)).
Proof.
  intros ops autor mas_a [[t a] r] mas_l _ _ _ c.
  destruct (ids_distintos_sesion ops Ej3a1.crear_tablas) as [Ha Hl].
  { split; constructor. }
  split; [exact Ha|]. split; [exact Hl|]. split; intros H.
  - unfold Ej3a1.insertar_autores. cbn [for_enumerate]. unfold bind.
    unfold Ej3a1.INSERT_autores at 1. cbn.
    rewrite (existsb_id_true Ej3a1.a_id _ 1 H). reflexivity.
  - unfold Ej3a1.insertar_libros. cbn [for_enumerate]. unfold bind.
    unfold Ej3a1.INSERT_libros at 1. cbn.
    rewrite (existsb_id_true Ej3a1.l_id _ 1 H). reflexivity.
Qed.

Lemma C8_witness_second_batch :
  let ops := [Insertar_autores ["Gabo"; "Isabel"];
              Insertar_libros [("Cien", 1967, 1); ("Paula", 1994, 2)];
              Eliminar_libro 2;
              Actualizar_libro 1 (Some "Cien (Ed.)") None] in
  let c := sesion ops Ej3a1.crear_tablas in
  (forallb operacion_sql ops = true
   /\ In 1 (map Ej3a1.a_id (Ej3a1.autores c))
   /\ In 1 (map Ej3a1.l_id (Ej3a1.libros c)))
  /\
  (NoDup (map Ej3a1.a_id (Ej3a1.autores c))
   /\ NoDup (map Ej3a1.l_id (Ej3a1.libros c))
   /\ Ej3a1.insertar_autores ["Borges"] c = (Raise Ej3a1.IntegrityError, c)
   /\ Ej3a1.insertar_libros [("Ficciones", 1944, 1)] c
      = (Raise Ej3a1.IntegrityError, c)).
Proof.
  intros ops c.
  assert (Ha : In 1 (map Ej3a1.a_id (Ej3a1.autores c))) by (left; reflexivity).
  assert (Hl : In 1 (map Ej3a1.l_id (Ej3a1.libros c))) by (left; reflexivity).
  split.
  - split; [reflexivity|]. split; assumption.
  - destruct (C8_ids_distinct_within_each_table
                ops "Borges" [] ("Ficciones", 1944, 1) []
                eq_refl eq_refl eq_refl) as [H1 [H2 [H3 H4]]].
    split; [exact H1|]. split; [exact H2|].
    split; [exact (H3 Ha)|exact (H4 Hl)].
Defined.

(** ** Further properties of the SQLite exercise *)

(** *** Batched inserts, row by row *)

Lemma ej3a1_insertar_autores_desde (autores : list string) :
  forall i c,
    let r := for_enumerate i autores
               (fun i autor => Ej3a1.INSERT_autores (i + 1) autor) c in
    exists k,
      (k <= List.length autores)%nat
      /\ (forall j, (j < k)%nat ->
                    ~ In (i + 1 + Z.of_nat j) (map Ej3a1.a_id (Ej3a1.autores c)))
      /\ Ej3a1.libros (snd r) = Ej3a1.libros c
      /\ Ej3a1.autores (snd r)
         = Ej3a1.autores c ++ numerar_autores i (firstn k autores)
      /\ ((k = List.length autores /\ fst r = Return tt)
          \/ ((k < List.length autores)%nat
              /\ fst r = Raise Ej3a1.IntegrityError
              /\ In (i + 1 + Z.of_nat k)
                    (map Ej3a1.a_id (Ej3a1.autores c)))).
Proof.
  induction autores as [|n autores IH]; intros i c; cbn.
  - exists 0%nat. cbn. rewrite app_nil_r.
    split; [lia|]. split; [intros j Hj; lia|].
    split; [reflexivity|]. split; [reflexivity|].
    left. split; reflexivity.
  - unfold bind.
    destruct (existsb (fun a => Ej3a1.a_id a =? i + 1) (Ej3a1.autores c)) eqn:E.
    + assert (HI : Ej3a1.INSERT_autores (i + 1) n c
                   = (Raise Ej3a1.IntegrityError, c)).
      { unfold Ej3a1.INSERT_autores. rewrite E. reflexivity. }
      rewrite HI. cbn. exists 0%nat. cbn. rewrite app_nil_r.
      split; [lia|]. split; [intros j Hj; lia|].
      repeat split. right. repeat split; [lia|].
      rewrite Z.add_0_r. apply existsb_exists in E.
      destruct E as [a [Ha E]]. apply Z.eqb_eq in E.
      apply in_map_iff. exists a. auto.
    + assert (HI : Ej3a1.INSERT_autores (i + 1) n c
                   = (Return tt,
                      {| Ej3a1.autores := Ej3a1.autores c ++
                           [{| Ej3a1.a_id := i + 1; Ej3a1.a_nombre := n |}];
                         Ej3a1.libros := Ej3a1.libros c |})).
      { unfold Ej3a1.INSERT_autores. rewrite E. reflexivity. }
      rewrite HI.
      match goal with
      | |- context [for_enumerate (i + 1) autores ?b ?s] =>
          destruct (IH (i + 1) s) as [k [Hk [Hlibre [Hl [Ha Hr]]]]]
      end.
      cbv zeta in *. cbn [Ej3a1.autores Ej3a1.libros] in *.
      rewrite map_app in Hlibre, Hr. cbn [map Ej3a1.a_id] in Hlibre, Hr.
      exists (S k). cbn [firstn numerar_autores].
      split; [lia|]. split; [|split; [exact Hl|split]].
      * intros [|j] Hj Hin.
        -- rewrite Z.add_0_r in Hin.
           assert (Ht : existsb (fun a => Ej3a1.a_id a =? i + 1)
                                (Ej3a1.autores c) = true).
           { apply in_map_iff in Hin. destruct Hin as [a [Hid Ha']].
             apply existsb_exists. exists a. split; [exact Ha'|].
             apply Z.eqb_eq. exact Hid. }
           rewrite Ht in E. discriminate.
        -- apply (Hlibre j); [lia|]. apply in_or_app. left.
           replace (i + 1 + 1 + Z.of_nat j) with (i + 1 + Z.of_nat (S j)) by lia.
           exact Hin.
      * rewrite Ha, <- app_assoc. reflexivity.
      * destruct Hr as [[-> Hr]|[Hlt [Hr Hin]]].
        -- left. auto.
        -- right. split; [lia|]. split; [exact Hr|].
           apply in_app_or in Hin. destruct Hin as [Hin|[Hin|[]]].
           ++ replace (i + 1 + Z.of_nat (S k)) with (i + 1 + 1 + Z.of_nat k)
                by lia.
              exact Hin.
           ++ lia.
Qed.

Lemma ej3a1_insertar_libros_desde (libros : list (string * Z * Z)) :
  forall i c,
    let r := for_enumerate i libros
               (fun i libro =>
                  let '(titulo, anio, autor_id) := libro in
                  Ej3a1.INSERT_libros (i + 1) titulo anio autor_id) c in
    exists k,
      (k <= List.length libros)%nat
      /\ (forall j, (j < k)%nat ->
                    ~ In (i + 1 + Z.of_nat j) (map Ej3a1.l_id (Ej3a1.libros c)))
      /\ Ej3a1.autores (snd r) = Ej3a1.autores c
      /\ Ej3a1.libros (snd r)
         = Ej3a1.libros c ++ numerar_libros i (firstn k libros)
      /\ ((k = List.length libros /\ fst r = Return tt)
          \/ ((k < List.length libros)%nat
              /\ fst r = Raise Ej3a1.IntegrityError
              /\ In (i + 1 + Z.of_nat k)
                    (map Ej3a1.l_id (Ej3a1.libros c)))).
Proof.
  induction libros as [|[[t a] au] libros IH]; intros i c; cbn.
  - exists 0%nat. cbn. rewrite app_nil_r.
    split; [lia|]. split; [intros j Hj; lia|].
    split; [reflexivity|]. split; [reflexivity|].
    left. split; reflexivity.
  - unfold bind.
    destruct (existsb (fun l => Ej3a1.l_id l =? i + 1) (Ej3a1.libros c)) eqn:E.
    + assert (HI : Ej3a1.INSERT_libros (i + 1) t a au c
                   = (Raise Ej3a1.IntegrityError, c)).
      { unfold Ej3a1.INSERT_libros. rewrite E. reflexivity. }
      rewrite HI. cbn. exists 0%nat. cbn. rewrite app_nil_r.
      split; [lia|]. split; [intros j Hj; lia|].
      repeat split. right. repeat split; [lia|].
      rewrite Z.add_0_r. apply existsb_exists in E.
      destruct E as [l [Hl E]]. apply Z.eqb_eq in E.
      apply in_map_iff. exists l. auto.
    + assert (HI : Ej3a1.INSERT_libros (i + 1) t a au c
                   = (Return tt,
                      {| Ej3a1.autores := Ej3a1.autores c;
                         Ej3a1.libros := Ej3a1.libros c ++
                           [{| Ej3a1.l_id := i + 1; Ej3a1.l_titulo := t;
                               Ej3a1.l_anio := a; Ej3a1.l_autor_id := au |}] |})).
      { unfold Ej3a1.INSERT_libros. rewrite E. reflexivity. }
      rewrite HI.
      match goal with
      | |- context [for_enumerate (i + 1) libros ?b ?s] =>
          destruct (IH (i + 1) s) as [k [Hk [Hlibre [Ha [Hl Hr]]]]]
      end.
      cbv zeta in *. cbn [Ej3a1.autores Ej3a1.libros] in *.
      rewrite map_app in Hlibre, Hr. cbn [map Ej3a1.l_id] in Hlibre, Hr.
      exists (S k). cbn [firstn numerar_libros].
      split; [lia|]. split; [|split; [exact Ha|split]].
      * intros [|j] Hj Hin.
        -- rewrite Z.add_0_r in Hin.
           assert (Ht : existsb (fun l => Ej3a1.l_id l =? i + 1)
                                (Ej3a1.libros c) = true).
           { apply in_map_iff in Hin. destruct Hin as [l [Hid Hl']].
             apply existsb_exists. exists l. split; [exact Hl'|].
             apply Z.eqb_eq. exact Hid. }
           rewrite Ht in E. discriminate.
        -- apply (Hlibre j); [lia|]. apply in_or_app. left.
           replace (i + 1 + 1 + Z.of_nat j) with (i + 1 + Z.of_nat (S j)) by lia.
           exact Hin.
      * rewrite Hl, <- app_assoc. reflexivity.
      * destruct Hr as [[-> Hr]|[Hlt [Hr Hin]]].
        -- left. auto.
        -- right. split; [lia|]. split; [exact Hr|].
           apply in_app_or in Hin. destruct Hin as [Hin|[Hin|[]]].
           ++ replace (i + 1 + Z.of_nat (S k)) with (i + 1 + 1 + Z.of_nat k)
                by lia.
              exact Hin.
           ++ lia.
Qed.

(** X1: for names without apostrophe or NUL, the SQLite
    [insertar_autores] writes the names in order, numbered from 1, after
    the rows the table holds, and never touches [libros].  It stops with
    [IntegrityError] at the first name whose number is an id the table
    held before the call, the names before it staying written; when no
    name's number is such an id it writes them all and returns. *)
Theorem X1_insertar_autores_all_or_prefix :
  forall (autores : list string) (c : Ej3a1.conexion),
    forallb Ej3a1.sql_text autores = true ->
    let r := Ej3a1.insertar_autores autores c in
    exists k,
      (k <= List.length autores)%nat
      /\ (forall j, (j < k)%nat ->
                    ~ In (Z.of_nat j + 1) (map Ej3a1.a_id (Ej3a1.autores c)))
      /\ Ej3a1.libros (snd r) = Ej3a1.libros c
      /\ Ej3a1.autores (snd r)
         = Ej3a1.autores c ++ numerar_autores 0 (firstn k autores)
      /\ ((k = List.length autores /\ fst r = Return tt)
          \/ ((k < List.length autores)%nat
              /\ fst r = Raise Ej3a1.IntegrityError
              /\ In (Z.of_nat k + 1) (map Ej3a1.a_id (Ej3a1.autores c)))).
Proof.
  intros autores c _ r.
  destruct (ej3a1_insertar_autores_desde autores 0 c)
    as [k [Hk [Hlibre [Hl [Ha Hr]]]]].
  exists k. split; [exact Hk|]. split; [|split; [exact Hl|split; [exact Ha|]]].
  - intros j Hj. replace (Z.of_nat j + 1) with (0 + 1 + Z.of_nat j) by lia.
    exact (Hlibre j Hj).
  - replace (Z.of_nat k + 1) with (0 + 1 + Z.of_nat k) by lia. exact Hr.
Qed.

Lemma X1_witness_second_name_taken :
  let c := {| Ej3a1.autores := [{| Ej3a1.a_id := 2; Ej3a1.a_nombre := "Gabo" |}];
              Ej3a1.libros := [] |} in
  let autores := ["Isabel"; "Borges"; "Rulfo"] in
  (forallb Ej3a1.sql_text autores = true
   /\ Ej3a1.insertar_autores autores c
      = (Raise Ej3a1.IntegrityError,
         {| Ej3a1.autores := [{| Ej3a1.a_id := 2; Ej3a1.a_nombre := "Gabo" |};
                              {| Ej3a1.a_id := 1; Ej3a1.a_nombre := "Isabel" |}];
            Ej3a1.libros := [] |}))
  /\
  (let r := Ej3a1.insertar_autores autores c in
   exists k,
     (k <= List.length autores)%nat
     /\ (forall j, (j < k)%nat ->
                   ~ In (Z.of_nat j + 1) (map Ej3a1.a_id (Ej3a1.autores c)))
     /\ Ej3a1.libros (snd r) = Ej3a1.libros c
     /\ Ej3a1.autores (snd r)
        = Ej3a1.autores c ++ numerar_autores 0 (firstn k autores)
     /\ ((k = List.length autores /\ fst r = Return tt)
         \/ ((k < List.length autores)%nat
             /\ fst r = Raise Ej3a1.IntegrityError
             /\ In (Z.of_nat k + 1) (map Ej3a1.a_id (Ej3a1.autores c))))).
Proof.
  intros c autores. split.
  - split; reflexivity.
  - apply (X1_insertar_autores_all_or_prefix autores c). reflexivity.
Defined.

(** X2: for titles without apostrophe or NUL and 64-bit years and author
    ids, the SQLite [insertar_libros] writes the tuples in order, numbered
    from 1, after the rows the table holds, and never touches [autores].
    It stops with [IntegrityError] at the first tuple whose number is an
    id the table held before the call, the tuples before it staying
    written; when no tuple's number is such an id it writes them all and
    returns. *)
Theorem X2_insertar_libros_all_or_prefix :
  forall (libros : list (string * Z * Z)) (c : Ej3a1.conexion),
    forallb tupla_sql libros = true ->
    let r := Ej3a1.insertar_libros libros c in
    exists k,
      (k <= List.length libros)%nat
      /\ (forall j, (j < k)%nat ->
                    ~ In (Z.of_nat j + 1) (map Ej3a1.l_id (Ej3a1.libros c)))
      /\ Ej3a1.autores (snd r) = Ej3a1.autores c
      /\ Ej3a1.libros (snd r)
         = Ej3a1.libros c ++ numerar_libros 0 (firstn k libros)
      /\ ((k = List.length libros /\ fst r = Return tt)
          \/ ((k < List.length libros)%nat
              /\ fst r = Raise Ej3a1.IntegrityError
              /\ In (Z.of_nat k + 1) (map Ej3a1.l_id (Ej3a1.libros c)))).
Proof.
  intros libros c _ r.
  destruct (ej3a1_insertar_libros_desde libros 0 c)
    as [k [Hk [Hlibre [Ha [Hl Hr]]]]].
  exists k. split; [exact Hk|]. split; [|split; [exact Ha|split; [exact Hl|]]].
  - intros j Hj. replace (Z.of_nat j + 1) with (0 + 1 + Z.of_nat j) by lia.
    exact (Hlibre j Hj).
  - replace (Z.of_nat k + 1) with (0 + 1 + Z.of_nat k) by lia. exact Hr.
Qed.

Lemma X2_witness_third_id_taken :
  let c := {| Ej3a1.autores := [];
              Ej3a1.libros := [{| Ej3a1.l_id := 3; Ej3a1.l_titulo := "Paula";
                                  Ej3a1.l_anio := 1994; Ej3a1.l_autor_id := 2 |}] |} in
  let libros := [("Cien", 1967, 1); ("El amor", 1985, 1); ("Ficciones", 1944, 3)] in
  (forallb tupla_sql libros = true
   /\ fst (Ej3a1.insertar_libros libros c) = Raise Ej3a1.IntegrityError
   /\ map Ej3a1.l_titulo (Ej3a1.libros (snd (Ej3a1.insertar_libros libros c)))
      = ["Paula"; "Cien"; "El amor"])
  /\
  (let r := Ej3a1.insertar_libros libros c in
   exists k,
     (k <= List.length libros)%nat
     /\ (forall j, (j < k)%nat ->
                   ~ In (Z.of_nat j + 1) (map Ej3a1.l_id (Ej3a1.libros c)))
     /\ Ej3a1.autores (snd r) = Ej3a1.autores c
     /\ Ej3a1.libros (snd r)
        = Ej3a1.libros c ++ numerar_libros 0 (firstn k libros)
     /\ ((k = List.length libros /\ fst r = Return tt)
         \/ ((k < List.length libros)%nat
             /\ fst r = Raise Ej3a1.IntegrityError
             /\ In (Z.of_nat k + 1) (map Ej3a1.l_id (Ej3a1.libros c))))).
Proof.
  intros c libros. split.
  - repeat split; reflexivity.
  - apply (X2_insertar_libros_all_or_prefix libros c). reflexivity.
Defined.

(** *** A store filled from scratch *)

Lemma ej3a1_insertar_autores_fresh autores c :
  Ej3a1.autores c = [] ->
  Ej3a1.insertar_autores autores c
  = (Return tt, {| Ej3a1.autores := numerar_autores 0 autores;
                   Ej3a1.libros := Ej3a1.libros c |}).
Proof.
  intros Hc.
  destruct (ej3a1_insertar_autores_desde autores 0 c)
    as [k [Hk [_ [Hl [Ha Hr]]]]].
  fold (Ej3a1.insertar_autores autores) in *. cbv zeta in *.
  rewrite Hc in Ha, Hr. cbn [app map] in Ha, Hr.
  destruct (Ej3a1.insertar_autores autores c) as [o c']. cbn [fst snd] in *.
  destruct Hr as [[-> ->]|[Hlt [_ []]]].
  rewrite firstn_all in Ha. destruct c'. cbn in *. subst. reflexivity.
Qed.

Lemma ej3a1_insertar_libros_fresh libros c :
  Ej3a1.libros c = [] ->
  Ej3a1.insertar_libros libros c
  = (Return tt, {| Ej3a1.autores := Ej3a1.autores c;
                   Ej3a1.libros := numerar_libros 0 libros |}).
Proof.
  intros Hc.
  destruct (ej3a1_insertar_libros_desde libros 0 c)
    as [k [Hk [_ [Ha [Hl Hr]]]]].
  fold (Ej3a1.insertar_libros libros) in *. cbv zeta in *.
  rewrite Hc in Hl, Hr. cbn [app map] in Hl, Hr.
  destruct (Ej3a1.insertar_libros libros c) as [o c']. cbn [fst snd] in *.
  destruct Hr as [[-> ->]|[Hlt [_ []]]].
  rewrite firstn_all in Hl. destruct c'. cbn in *. subst. reflexivity.
Qed.

Lemma autor_numero_filter autores :
  forall i k,
    map Ej3a1.a_nombre
        (filter (fun a => (k =? Ej3a1.a_id a) && true) (numerar_autores i autores))
    = autor_numero autores (k - i).
Proof.
  induction autores as [|n autores IH]; intros i k.
  - cbn. unfold autor_numero. cbn.
    destruct ((1 <=? k - i) && (k - i <=? 0)) eqn:E; [|reflexivity].
    apply andb_true_iff in E. destruct E as [E1 E2].
    apply Z.leb_le in E1. apply Z.leb_le in E2. lia.
  - cbn [numerar_autores filter Ej3a1.a_id]. rewrite andb_true_r.
    destruct (Z.eqb_spec k (i + 1)) as [->|Hk].
    + cbn [map Ej3a1.a_nombre]. rewrite IH.
      replace (i + 1 - i) with 1 by lia.
      replace (i + 1 - (i + 1)) with 0 by lia.
      unfold autor_numero. cbn [List.length].
      replace (1 <=? 0) with false by reflexivity. cbn [andb].
      replace (1 <=? 1) with true by reflexivity.
      replace (1 <=? Z.of_nat (S (List.length autores))) with true
        by (symmetry; apply Z.leb_le; lia).
      reflexivity.
    + rewrite IH. unfold autor_numero. cbn [List.length].
      destruct (Z.leb_spec 1 (k - (i + 1))) as [H1|H1];
        destruct (Z.leb_spec (k - (i + 1)) (Z.of_nat (List.length autores)))
          as [H2|H2];
        destruct (Z.leb_spec 1 (k - i)) as [H3|H3];
        destruct (Z.leb_spec (k - i) (Z.of_nat (S (List.length autores))))
          as [H4|H4]; cbn [andb]; try lia; try reflexivity.
      replace (Z.to_nat (k - i - 1)) with (S (Z.to_nat (k - (i + 1) - 1)))
        by lia.
      reflexivity.
Qed.

Lemma join_numerar_libros autores libros :
  forall i,
    join (fun l a => (Ej3a1.l_autor_id l =? Ej3a1.a_id a) && true)
         (fun l a => (Ej3a1.l_titulo l, Ej3a1.l_anio l, Ej3a1.a_nombre a))
         (numerar_libros i libros) (numerar_autores 0 autores)
    = flat_map (fun '(t, a, k) => map (fun n => (t, a, n)) (autor_numero autores k))
               libros.
Proof.
  induction libros as [|[[t a] k] libros IH]; intros i; [reflexivity|].
  unfold join in *. cbn [numerar_libros flat_map]. rewrite IH. f_equal.
  cbn [Ej3a1.l_titulo Ej3a1.l_anio Ej3a1.l_autor_id].
  replace (autor_numero autores k) with (autor_numero autores (k - 0))
    by (f_equal; lia).
  rewrite <- autor_numero_filter, map_map. reflexivity.
Qed.

(** X3: on a connection whose tables are empty, for names and titles
    without apostrophe or NUL and 64-bit years and author ids,
    [insertar_autores] followed by [insertar_libros] both succeed, the rows
    are the batches numbered from 1, and [consultar_libros] then prints the
    books in the order they were given, each with the name of the author
    whose position in the authors' batch is the book's author id; a book
    whose author id is not such a position is not printed. *)
Theorem X3_fresh_store_listing :
  forall (autores : list string) (libros : list (string * Z * Z)),
    forallb Ej3a1.sql_text autores = true ->
    forallb tupla_sql libros = true ->
    let r1 := Ej3a1.insertar_autores autores Ej3a1.crear_tablas in
    let r2 := Ej3a1.insertar_libros libros (snd r1) in
    fst r1 = Return tt /\ fst r2 = Return tt
    /\ Ej3a1.autores (snd r2) = numerar_autores 0 autores
    /\ Ej3a1.libros (snd r2) = numerar_libros 0 libros
    /\ Ej3a1.consultar_libros (snd r2)
       = flat_map (fun '(t, a, k) =>
                     map (fun n => (t ++ ": Publicado por " ++ n ++ " en "
                                      ++ str_int a)%string)
                         (autor_numero autores k))
                  libros.
Proof.
  intros autores libros _ _ r1 r2. subst r1 r2.
  rewrite (ej3a1_insertar_autores_fresh autores Ej3a1.crear_tablas eq_refl).
  cbn [snd fst].
  rewrite ej3a1_insertar_libros_fresh by reflexivity. cbn [snd fst].
  repeat split.
  unfold Ej3a1.consultar_libros, Ej3a1.consultar_libros_filas, Ej3a1.SELECT_join.
  cbn [Ej3a1.autores Ej3a1.libros Ej3a1.crear_tablas].
  rewrite join_numerar_libros.
  rewrite flat_map_concat_map, concat_map, map_map, <- flat_map_concat_map.
  apply flat_map_ext. intros [[t a] k]. rewrite map_map. reflexivity.
Qed.

Lemma X3_witness_borges :
  let autores := ["Gabo"; "Jorge Luis Borges"] in
  let libros := [("Ficciones", 1944, 2); ("Anon", 1900, 7); ("Cien", 1967, 1)] in
  (forallb Ej3a1.sql_text autores = true /\ forallb tupla_sql libros = true
   /\ Ej3a1.consultar_libros
        (snd (Ej3a1.insertar_libros libros
                (snd (Ej3a1.insertar_autores autores Ej3a1.crear_tablas))))
      = ["Ficciones: Publicado por Jorge Luis Borges en 1944";
         "Cien: Publicado por Gabo en 1967"])
  /\
  (let r1 := Ej3a1.insertar_autores autores Ej3a1.crear_tablas in
   let r2 := Ej3a1.insertar_libros libros (snd r1) in
   fst r1 = Return tt /\ fst r2 = Return tt
   /\ Ej3a1.autores (snd r2) = numerar_autores 0 autores
   /\ Ej3a1.libros (snd r2) = numerar_libros 0 libros
   /\ Ej3a1.consultar_libros (snd r2)
      = flat_map (fun '(t, a, k) =>
                    map (fun n => (t ++ ": Publicado por " ++ n ++ " en "
                                     ++ str_int a)%string)
                        (autor_numero autores k))
                 libros).
Proof.
  intros autores libros. split.
  - repeat split; reflexivity.
  - apply (X3_fresh_store_listing autores libros); reflexivity.
Defined.

(** *** Delete and update of a book that exists *)

(** X4: the SQLite [eliminar_libro] removes the rows of [libros] with that
    id and nothing else: every other row stays, no author is removed, and a
    second call finds nothing to delete. *)
Theorem X4_eliminar_libro_removes_only_that_book :
  forall (c : Ej3a1.conexion) (id_libro : Z),
    Ej3a1.sql_int id_libro = true ->
    let r := Ej3a1.eliminar_libro id_libro c in
    fst r = Return tt
    /\ Ej3a1.autores (snd r) = Ej3a1.autores c
    /\ (forall l, In l (Ej3a1.libros (snd r))
                  <-> In l (Ej3a1.libros c) /\ Ej3a1.l_id l <> id_libro)
    /\ (exists quitados,
           Permutation (Ej3a1.libros c) (quitados ++ Ej3a1.libros (snd r))
           /\ Forall (fun l => Ej3a1.l_id l = id_libro) quitados)
    /\ sin_libro (snd r) id_libro = true
    /\ Ej3a1.eliminar_libro id_libro (snd r) = (Return tt, snd r).
Proof.
  intros c id _ r. subst r. unfold Ej3a1.eliminar_libro, Ej3a1.DELETE_libros.
  cbn [fst snd Ej3a1.autores Ej3a1.libros].
  assert (Hin : forall l, In l (filter (fun l => negb (Ej3a1.l_id l =? id))
                                       (Ej3a1.libros c))
                          <-> In l (Ej3a1.libros c) /\ Ej3a1.l_id l <> id).
  { intros l. rewrite filter_In, negb_true_iff, Z.eqb_neq. reflexivity. }
  split; [reflexivity|]. split; [reflexivity|]. split; [exact Hin|].
  split; [|split].
  - exists (filter (fun l => Ej3a1.l_id l =? id) (Ej3a1.libros c)). split.
    + clear Hin. induction (Ej3a1.libros c) as [|l ls IH];
        cbn [filter]; [constructor|].
      destruct (Ej3a1.l_id l =? id); cbn [negb app].
      * apply perm_skip, IH.
      * apply Permutation_cons_app, IH.
    + apply Forall_forall. intros l Hl. apply filter_In in Hl.
      apply Z.eqb_eq. tauto.
  - unfold sin_libro. cbn [Ej3a1.libros]. apply negb_true_iff.
    destruct (existsb _ _) eqn:E; [|reflexivity].
    apply existsb_exists in E. destruct E as [l [Hl E]].
    apply Hin in Hl. apply Z.eqb_eq in E. tauto.
  - f_equal. f_equal. apply filter_keeps. intros l Hl.
    apply filter_In in Hl. tauto.
Qed.

Lemma X4_witness_delete_el_aleph :
  let c := snd (Ej3a1.insertar_libros
                  [("Ficciones", 1944, 1); ("El Aleph", 1949, 1)]
                  (snd (Ej3a1.insertar_autores ["Borges"] Ej3a1.crear_tablas))) in
  (Ej3a1.sql_int 2 = true
   /\ Ej3a1.consultar_libros (snd (Ej3a1.eliminar_libro 2 c))
      = ["Ficciones: Publicado por Borges en 1944"])
  /\
  (let r := Ej3a1.eliminar_libro 2 c in
   fst r = Return tt
   /\ Ej3a1.autores (snd r) = Ej3a1.autores c
   /\ (forall l, In l (Ej3a1.libros (snd r))
                 <-> In l (Ej3a1.libros c) /\ Ej3a1.l_id l <> 2)
   /\ (exists quitados,
          Permutation (Ej3a1.libros c) (quitados ++ Ej3a1.libros (snd r))
          /\ Forall (fun l => Ej3a1.l_id l = 2) quitados)
   /\ sin_libro (snd r) 2 = true
   /\ Ej3a1.eliminar_libro 2 (snd r) = (Return tt, snd r)).
Proof.
  intros c. split.
  - split; reflexivity.
  - apply (X4_eliminar_libro_removes_only_that_book c 2). reflexivity.
Defined.

Lemma Forall2_map_self {A} (R : A -> A -> Prop) (f : A -> A) (l : list A) :
  (forall x, R x (f x)) -> Forall2 R l (map f l).
Proof. intros H. induction l; cbn; constructor; auto. Qed.

(** X5: for 64-bit integers and a new title without apostrophe or NUL, the
    SQLite [actualizar_libro] returns [None] and rewrites the rows of
    [libros] in place.  A row with another id is left as it is; a row with
    that id keeps its id and author id, takes the new title when one is
    given and is not empty, and takes the new year when one is given and
    is not 0.  No author is touched. *)
Theorem X5_actualizar_libro_rows :
  forall (c : Ej3a1.conexion) (id_libro : Z)
         (nuevo_titulo : option string) (nuevo_anio : option Z),
    Ej3a1.sql_int id_libro = true ->
    opt_sql_text nuevo_titulo = true ->
    opt_sql_int nuevo_anio = true ->
    let r := Ej3a1.actualizar_libro id_libro nuevo_titulo nuevo_anio c in
    fst r = Return tt
    /\ Ej3a1.autores (snd r) = Ej3a1.autores c
    /\ Forall2
         (fun l l' =>
            if Ej3a1.l_id l =? id_libro
            then Ej3a1.l_id l' = Ej3a1.l_id l
                 /\ Ej3a1.l_autor_id l' = Ej3a1.l_autor_id l
                 /\ Ej3a1.l_titulo l'
                    = match nuevo_titulo with
                      | Some t => if (t =? "")%string then Ej3a1.l_titulo l else t
                      | None => Ej3a1.l_titulo l
                      end
                 /\ Ej3a1.l_anio l'
                    = match nuevo_anio with
                      | Some a => if a =? 0 then Ej3a1.l_anio l else a
                      | None => Ej3a1.l_anio l
                      end
            else l' = l)
         (Ej3a1.libros c) (Ej3a1.libros (snd r)).
Proof.
  intros c id t a _ _ _ r. subst r. rewrite ej3a1_actualizar_libro_run.
  cbn [fst snd Ej3a1.autores Ej3a1.libros].
  split; [reflexivity|]. split; [reflexivity|].
  apply Forall2_map_self. intros l.
  destruct (Ej3a1.l_id l =? id) eqn:E.
  - unfold ej3a1_cambio, Ej3a1.SET_titulo, Ej3a1.SET_anio.
    destruct t as [t|], a as [a|]; cbn;
      unfold truthy, Truthy_str, Truthy_int;
      repeat match goal with
        | |- context [(?x =? "")%string] => destruct (x =? "")%string
        | |- context [?x =? 0] => destruct (x =? 0)
        end; cbn; rewrite ?E; cbn; rewrite ?E; cbn; auto.
  - apply ej3a1_cambio_other, E.
Qed.

Lemma X5_witness_new_title :
  let c := snd (Ej3a1.insertar_libros [("Cien", 1967, 1); ("Paula", 1994, 2)]
                  Ej3a1.crear_tablas) in
  (Ej3a1.sql_int 1 = true
   /\ Ej3a1.libros (snd (Ej3a1.actualizar_libro 1 (Some "Cien (Ed.)") (Some 0) c))
      = [{| Ej3a1.l_id := 1; Ej3a1.l_titulo := "Cien (Ed.)";
            Ej3a1.l_anio := 1967; Ej3a1.l_autor_id := 1 |};
         {| Ej3a1.l_id := 2; Ej3a1.l_titulo := "Paula";
            Ej3a1.l_anio := 1994; Ej3a1.l_autor_id := 2 |}])
  /\
  (let r := Ej3a1.actualizar_libro 1 (Some "Cien (Ed.)") (Some 0) c in
   fst r = Return tt
   /\ Ej3a1.autores (snd r) = Ej3a1.autores c
   /\ Forall2
        (fun l l' =>
           if Ej3a1.l_id l =? 1
           then Ej3a1.l_id l' = Ej3a1.l_id l
                /\ Ej3a1.l_autor_id l' = Ej3a1.l_autor_id l
                /\ Ej3a1.l_titulo l' = "Cien (Ed.)"
                /\ Ej3a1.l_anio l' = Ej3a1.l_anio l
           else l' = l)
        (Ej3a1.libros c) (Ej3a1.libros (snd r))).
Proof.
  intros c. split.
  - split; reflexivity.
  - apply (X5_actualizar_libro_rows c 1 (Some "Cien (Ed.)") (Some 0));
      reflexivity.
Defined.

(** *** The search pattern *)

Lemma like_cons p patron s :
  Ej3a1.like (String p patron) s
  = if Ascii.eqb p "%"%char then like_resto patron s
    else match s with
         | EmptyString => false
         | String x s' =>
             (Ascii.eqb p "_"%char
              || Ascii.eqb (Ej3a1.ascii_lower p) (Ej3a1.ascii_lower x))
             && Ej3a1.like patron s'
         end.
Proof. reflexivity. Qed.

Lemma like_resto_eq patron s :
  like_resto patron s
  = Ej3a1.like patron s
    || match s with
       | EmptyString => false
       | String _ s' => like_resto patron s'
       end.
Proof. destruct s; reflexivity. Qed.

Lemma like_resto_suffix patron s x :
  like_resto patron s = true -> like_resto patron (String x s) = true.
Proof.
  intros H. rewrite (like_resto_eq patron (String x s)), H. apply orb_true_r.
Qed.

Lemma like_refl s : Ej3a1.like s s = true.
Proof.
  induction s as [|x s IH]; [reflexivity|].
  rewrite like_cons. destruct (Ascii.eqb x "%"%char).
  - apply like_resto_suffix. rewrite like_resto_eq, IH. reflexivity.
  - rewrite IH, Ascii.eqb_refl, orb_true_r. reflexivity.
Qed.

Lemma like_percent s : Ej3a1.like "%" s = true.
Proof.
  rewrite like_cons. cbn [Ascii.eqb Bool.eqb].
  induction s as [|x s IH]; [reflexivity|].
  apply like_resto_suffix, IH.
Qed.


Lemma in_SELECT_join donde c fila :
  In fila (Ej3a1.SELECT_join donde c)
  <-> exists l a, In l (Ej3a1.libros c) /\ In a (Ej3a1.autores c)
                  /\ Ej3a1.l_autor_id l = Ej3a1.a_id a
                  /\ donde (Ej3a1.a_nombre a) = true
                  /\ fila = (Ej3a1.l_titulo l, Ej3a1.l_anio l, Ej3a1.a_nombre a).
Proof.
  unfold Ej3a1.SELECT_join, join. rewrite in_flat_map. split.
  - intros [l [Hl H]]. apply in_map_iff in H. destruct H as [a [<- Ha]].
    apply filter_In in Ha. destruct Ha as [Ha Hon].
    apply andb_true_iff in Hon. destruct Hon as [Hid Hd].
    apply Z.eqb_eq in Hid. exists l, a. auto.
  - intros [l [a [Hl [Ha [Hid [Hd ->]]]]]]. exists l. split; [exact Hl|].
    apply in_map_iff. exists a. split; [reflexivity|].
    apply filter_In. split; [exact Ha|].
    apply andb_true_iff. split; [apply Z.eqb_eq, Hid|exact Hd].
Qed.

(** X6: in the SQLite variant, searching by the exact name of an author,
    a name without apostrophe or NUL and of at most 25000 characters,
    finds every book of that author, also when the name holds the
    wildcards [%] or [_]. *)
Theorem X6_buscar_by_exact_name_finds_the_books :
  forall (c : Ej3a1.conexion) (a : Ej3a1.fila_autor) (l : Ej3a1.fila_libro),
    patron_sql (Ej3a1.a_nombre a) = true ->
    In a (Ej3a1.autores c) ->
    In l (Ej3a1.libros c) ->
    Ej3a1.l_autor_id l = Ej3a1.a_id a ->
    In (Ej3a1.l_titulo l, Ej3a1.l_anio l, Ej3a1.a_nombre a)
       (Ej3a1.buscar_libros_por_autor c (Ej3a1.a_nombre a)).
Proof.
  intros c a l _ Ha Hl Hid. unfold Ej3a1.buscar_libros_por_autor.
  apply in_SELECT_join. exists l, a. repeat split; auto. apply like_refl.
Qed.

Lemma X6_witness_name_with_percent :
  let a := {| Ej3a1.a_id := 1; Ej3a1.a_nombre := "100% Gabo_" |} in
  let l := {| Ej3a1.l_id := 1; Ej3a1.l_titulo := "Cien";
              Ej3a1.l_anio := 1967; Ej3a1.l_autor_id := 1 |} in
  let c := {| Ej3a1.autores := [a]; Ej3a1.libros := [l] |} in
  (patron_sql (Ej3a1.a_nombre a) = true
   /\ snd (Ej3a1.insertar_libros [("Cien", 1967, 1)]
             (snd (Ej3a1.insertar_autores ["100% Gabo_"] Ej3a1.crear_tablas))) = c)
  /\ In ("Cien", 1967, "100% Gabo_")
        (Ej3a1.buscar_libros_por_autor c "100% Gabo_").
Proof.
  intros a l c. split.
  - split; reflexivity.
  - apply (X6_buscar_by_exact_name_finds_the_books c a l);
      [reflexivity|left; reflexivity|left; reflexivity|reflexivity].
Defined.

(** X7: in the SQLite variant the argument of the search is a pattern: the
    pattern [%] returns the rows of every book that has an author, the same
    rows [consultar_libros] fetches. *)
Theorem X7_buscar_percent_is_the_whole_listing :
  forall c : Ej3a1.conexion,
    Ej3a1.buscar_libros_por_autor c "%" = Ej3a1.consultar_libros_filas c.
Proof.
  intros c. unfold Ej3a1.buscar_libros_por_autor, Ej3a1.consultar_libros_filas,
    Ej3a1.SELECT_join, join.
  apply flat_map_ext. intros l. f_equal. apply filter_ext. intros a.
  rewrite like_percent. reflexivity.
Qed.



(** ** Further properties of the MongoDB exercise *)

(** *** Ids as strings *)

Lemma hex_digit_char d :
  (d < 16)%N -> Ej3a4.hex_digit (Ej3a4.hex_char d) = Some d.
Proof.
  intros H.
  assert (Hall : forallb (fun d => match Ej3a4.hex_digit (Ej3a4.hex_char d) with
                                   | Some d' => (d' =? d)%N
                                   | None => false
                                   end)
                         (map N.of_nat (seq 0 16)) = true) by reflexivity.
  rewrite forallb_forall in Hall.
  specialize (Hall d).
  destruct (Ej3a4.hex_digit (Ej3a4.hex_char d)) as [d'|].
  - f_equal. apply N.eqb_eq, Hall. apply in_map_iff.
    exists (N.to_nat d). split; [apply N2Nat.id|]. apply in_seq. lia.
  - assert (false = true); [|discriminate]. apply Hall. apply in_map_iff.
    exists (N.to_nat d). split; [apply N2Nat.id|]. apply in_seq. lia.
Qed.

Lemma hex_value_digits n :
  forall v acc s,
    Ej3a4.hex_value acc (Ej3a4.hex_digits n v s)
    = Ej3a4.hex_value (acc * 16 ^ N.of_nat n + v mod 16 ^ N.of_nat n)%N s.
Proof.
  induction n as [|n IH]; intros v acc s.
  - cbn [Ej3a4.hex_digits N.of_nat]. rewrite N.pow_0_r, N.mod_1_r.
    f_equal. lia.
  - cbn [Ej3a4.hex_digits]. rewrite IH. cbn [Ej3a4.hex_value].
    rewrite hex_digit_char by (apply N.mod_lt; discriminate).
    f_equal. rewrite Nat2N.inj_succ, N.pow_succ_r'.
    rewrite (N.Div0.mod_mul_r v 16 (16 ^ N.of_nat n)). lia.
Qed.

Lemma hex_digits_length n :
  forall v s, String.length (Ej3a4.hex_digits n v s) = (n + String.length s)%nat.
Proof.
  induction n as [|n IH]; intros v s; cbn [Ej3a4.hex_digits]; [reflexivity|].
  rewrite IH. cbn [String.length]. lia.
Qed.

Lemma ObjectId_str_oid o :
  (o < 2 ^ 96)%N -> Ej3a4.ObjectId_value (Ej3a4.str_oid o) = Some o.
Proof.
  intros H. unfold Ej3a4.ObjectId_value, Ej3a4.str_oid.
  rewrite hex_digits_length. cbn [String.length Nat.add Nat.eqb].
  rewrite hex_value_digits. cbn [Ej3a4.hex_value]. f_equal.
  change (16 ^ N.of_nat 24)%N with (2 ^ 96)%N.
  rewrite N.mod_small by exact H. lia.
Qed.

(** *** What a batch writes *)

Lemma numerar_docs_libros_combine docs :
  forall s,
    map (fun '(o, (t, a, v)) =>
           {| Ej3a4.li_id := o; Ej3a4.li_titulo := t; Ej3a4.li_anio := a;
              Ej3a4.li_autor_id := v |})
        (combine (map (fun k => (s + N.of_nat k)%N) (seq 0 (List.length docs)))
                 docs)
    = numerar_docs_libros s docs.
Proof.
  induction docs as [|[[t a] v] docs IH]; intros s; [reflexivity|].
  cbn [List.length seq map combine numerar_docs_libros]. f_equal.
  - f_equal. lia.
  - rewrite <- IH, <- seq_shift, map_map. do 2 f_equal.
    apply map_ext. intros k. lia.
Qed.

Lemma numerar_docs_autores_combine nombres :
  forall s,
    map (fun '(o, n) => {| Ej3a4.au_id := o; Ej3a4.au_nombre := n |})
        (combine (map (fun k => (s + N.of_nat k)%N)
                      (seq 0 (List.length nombres))) nombres)
    = numerar_docs_autores s nombres.
Proof.
  induction nombres as [|n nombres IH]; intros s; [reflexivity|].
  cbn [List.length seq map combine numerar_docs_autores]. f_equal.
  - f_equal. lia.
  - rewrite <- IH, <- seq_shift, map_map. do 2 f_equal.
    apply map_ext. intros k. lia.
Qed.

Lemma ej3a4_comprehension_docs db
      (f : string * Z * Ej3a4.ref_autor -> Ej3a4.Mongo (string * Z * Ej3a4.valor))
      libros :
  (forall libro db, tupla_bson libro = true ->
                    f libro db = (Return (doc_de_libro libro), db)) ->
  forallb tupla_bson libros = true ->
  comprehension f libros db = (Return (map doc_de_libro libros), db).
Proof.
  intros Hf. induction libros as [|libro libros IH]; cbn [forallb]; intros H;
    [reflexivity|].
  apply andb_true_iff in H. destruct H as [H1 H2].
  cbn [comprehension map]. unfold bind at 1. rewrite (Hf libro db H1).
  unfold bind at 1. rewrite (IH H2). reflexivity.
Qed.

Lemma ej3a4_libros_insert_many_exact docs db :
  docs <> [] ->
  Ej3a4.libros_insert_many docs db
  = (Return (map (fun k => (Ej3a4.siguiente_oid db + N.of_nat k)%N)
                 (seq 0 (List.length docs))),
     {| Ej3a4.autores := Ej3a4.autores db;
        Ej3a4.libros :=
          Ej3a4.libros db
          ++ map (fun '(o, (t, a, v)) =>
                    {| Ej3a4.li_id := o; Ej3a4.li_titulo := t;
                       Ej3a4.li_anio := a; Ej3a4.li_autor_id := v |})
                 (combine (map (fun k => (Ej3a4.siguiente_oid db + N.of_nat k)%N)
                               (seq 0 (List.length docs))) docs);
        Ej3a4.nombre_unique := Ej3a4.nombre_unique db;
        Ej3a4.siguiente_oid :=
          (Ej3a4.siguiente_oid db + N.of_nat (List.length docs))%N;
        Ej3a4.llamadas :=
          Ej3a4.llamadas db ++ [Ej3a4.insert_many "libros" (List.length docs)] |}).
Proof.
  intros Hne. destruct docs as [|d docs]; [contradiction Hne; reflexivity|].
  reflexivity.
Qed.

Lemma ej3a4_insertar_libros_exact db libros :
  libros <> [] ->
  forallb tupla_bson libros = true ->
  Ej3a4.insertar_libros libros db
  = (Return (ids_desde (Ej3a4.siguiente_oid db) (List.length libros)),
     {| Ej3a4.autores := Ej3a4.autores db;
        Ej3a4.libros := Ej3a4.libros db
                        ++ numerar_docs_libros (Ej3a4.siguiente_oid db)
                                               (map doc_de_libro libros);
        Ej3a4.nombre_unique := Ej3a4.nombre_unique db;
        Ej3a4.siguiente_oid :=
          (Ej3a4.siguiente_oid db + N.of_nat (List.length libros))%N;
        Ej3a4.llamadas :=
          Ej3a4.llamadas db
          ++ [Ej3a4.insert_many "libros" (List.length libros)] |}).
Proof.
  intros Hne Hok. unfold Ej3a4.insertar_libros.
  match goal with
  | |- context [comprehension ?f libros] =>
      assert (Hrun : comprehension f libros db
                     = (Return (map doc_de_libro libros), db))
  end.
  { apply ej3a4_comprehension_docs; [|exact Hok].
    intros [[t a] r] db' H. cbn in H. apply andb_true_iff in H.
    destruct H as [_ H]. destruct r as [s|v]; [|reflexivity].
    unfold Ej3a4.ObjectId, bind, ret, doc_de_libro, valor_de_ref.
    destruct (Ej3a4.ObjectId_value s); [reflexivity|discriminate]. }
  unfold bind at 1. rewrite Hrun.
  assert (Hd : map doc_de_libro libros <> []).
  { destruct libros; [contradiction Hne; reflexivity|discriminate]. }
  unfold bind, ret. rewrite (ej3a4_libros_insert_many_exact _ db Hd).
  rewrite numerar_docs_libros_combine, !length_map.
  unfold ids_desde. rewrite map_map. reflexivity.
Qed.

Lemma delete_primero_app o l1 l2 :
  existsb (fun l => (Ej3a4.li_id l =? o)%N) l1 = false ->
  Ej3a4.delete_primero o (l1 ++ l2)
  = (l1 ++ fst (Ej3a4.delete_primero o l2), snd (Ej3a4.delete_primero o l2)).
Proof.
  induction l1 as [|l l1 IH]; cbn [app existsb Ej3a4.delete_primero]; intros H.
  - destruct (Ej3a4.delete_primero o l2); reflexivity.
  - apply orb_false_iff in H. destruct H as [E H]. rewrite E, (IH H).
    reflexivity.
Qed.

Lemma update_primero_app o d l1 l2 :
  existsb (fun l => (Ej3a4.li_id l =? o)%N) l1 = false ->
  Ej3a4.update_primero o d (l1 ++ l2)
  = (l1 ++ fst (Ej3a4.update_primero o d l2),
     snd (Ej3a4.update_primero o d l2)).
Proof.
  induction l1 as [|l l1 IH]; cbn [app existsb Ej3a4.update_primero]; intros H.
  - destruct (Ej3a4.update_primero o d l2); reflexivity.
  - apply orb_false_iff in H. destruct H as [E H]. rewrite E, (IH H).
    reflexivity.
Qed.

(** The store after the MongoDB [eliminar_libro], for a well-formed id. *)
Lemma ej3a4_eliminar_libro_run db id o :
  Ej3a4.ObjectId_value id = Some o ->
  Ej3a4.eliminar_libro id db
  = (Return (0 <? snd (Ej3a4.delete_primero o (Ej3a4.libros db)))%N,
     {| Ej3a4.autores := Ej3a4.autores db;
        Ej3a4.libros := fst (Ej3a4.delete_primero o (Ej3a4.libros db));
        Ej3a4.nombre_unique := Ej3a4.nombre_unique db;
        Ej3a4.siguiente_oid := Ej3a4.siguiente_oid db;
        Ej3a4.llamadas := Ej3a4.llamadas db ++ [Ej3a4.delete_one "libros"] |}).
Proof.
  intros Ho.
  unfold Ej3a4.eliminar_libro, Ej3a4.ObjectId, Ej3a4.libros_delete_one,
    Ej3a4.registrar, Ej3a4.con_libros, bind, ret, raise, get, put.
  rewrite Ho. cbn.
  destruct (Ej3a4.delete_primero o (Ej3a4.libros db)); reflexivity.
Qed.

(** X9: in the MongoDB variant [eliminar_libro] with the id of a stored
    book returns [True] and removes that book, the first document with that
    [_id], leaving every other book and every author in place; the book is
    then gone, so the same call again returns [False]. *)
Theorem X9_eliminar_libro_removes_the_book :
  forall (db : Ej3a4.database) (id_libro : string) (o : Ej3a4.oid)
         (antes despues : list Ej3a4.doc_libro) (d : Ej3a4.doc_libro),
    Ej3a4.ObjectId_value id_libro = Some o ->
    Ej3a4.libros db = antes ++ d :: despues ->
    Ej3a4.li_id d = o ->
    existsb (fun l => (Ej3a4.li_id l =? o)%N) (antes ++ despues) = false ->
    let r := Ej3a4.eliminar_libro id_libro db in
    fst r = Return true
    /\ Ej3a4.autores (snd r) = Ej3a4.autores db
    /\ Ej3a4.libros (snd r) = antes ++ despues
    /\ fst (Ej3a4.eliminar_libro id_libro (snd r)) = Return false.
Proof.
  intros db id o antes despues d Ho Hl Hd Hno r. subst r.
  rewrite (ej3a4_eliminar_libro_run db id o Ho). cbn [fst snd].
  assert (Ha : existsb (fun l => (Ej3a4.li_id l =? o)%N) antes = false).
  { rewrite existsb_app in Hno. apply orb_false_iff in Hno. tauto. }
  rewrite Hl, (delete_primero_app o antes (d :: despues) Ha).
  cbn [Ej3a4.delete_primero]. rewrite Hd, N.eqb_refl. cbn [fst snd].
  repeat split.
  rewrite (ej3a4_eliminar_libro_run _ id o Ho). cbn [fst Ej3a4.libros].
  rewrite (delete_primero_missing o _ Hno). reflexivity.
Qed.

Lemma X9_witness_delete_second_book :
  let db := snd (Ej3a4.insertar_libros
                   [("Ficciones", 1944, Ej3a4.NoStr Ej3a4.VNone);
                    ("El Aleph", 1949, Ej3a4.NoStr Ej3a4.VNone);
                    ("Paula", 1994, Ej3a4.NoStr Ej3a4.VNone)]
                   Ej3a4.crear_conexion) in
  let id_libro := "000000000000000000000002" in
  let antes := [{| Ej3a4.li_id := 1%N; Ej3a4.li_titulo := "Ficciones";
                   Ej3a4.li_anio := 1944; Ej3a4.li_autor_id := Ej3a4.VNone |}] in
  let d := {| Ej3a4.li_id := 2%N; Ej3a4.li_titulo := "El Aleph";
              Ej3a4.li_anio := 1949; Ej3a4.li_autor_id := Ej3a4.VNone |} in
  let despues := [{| Ej3a4.li_id := 3%N; Ej3a4.li_titulo := "Paula";
                     Ej3a4.li_anio := 1994; Ej3a4.li_autor_id := Ej3a4.VNone |}] in
  (Ej3a4.ObjectId_value id_libro = Some 2%N
   /\ Ej3a4.libros db = antes ++ d :: despues
   /\ existsb (fun l => (Ej3a4.li_id l =? 2)%N) (antes ++ despues) = false)
  /\
  (let r := Ej3a4.eliminar_libro id_libro db in
   fst r = Return true
   /\ Ej3a4.autores (snd r) = Ej3a4.autores db
   /\ Ej3a4.libros (snd r) = antes ++ despues
   /\ fst (Ej3a4.eliminar_libro id_libro (snd r)) = Return false).
Proof.
  intros db id_libro antes d despues. split.
  - repeat split; reflexivity.
  - apply (X9_eliminar_libro_removes_the_book
             db id_libro 2%N antes despues d); reflexivity.
Defined.

(** *** Returned ids address the documents written *)

Lemma numerar_docs_libros_app a b :
  forall s,
    numerar_docs_libros s (a ++ b)
    = numerar_docs_libros s a
      ++ numerar_docs_libros (s + N.of_nat (List.length a))%N b.
Proof.
  induction a as [|[[t y] v] a IH]; intros s; cbn [app numerar_docs_libros List.length].
  - f_equal. lia.
  - rewrite IH. do 3 f_equal. lia.
Qed.

Lemma numerar_docs_libros_length docs :
  forall s, List.length (numerar_docs_libros s docs) = List.length docs.
Proof.
  induction docs as [|[[t y] v] docs IH]; intros s; cbn; [reflexivity|].
  rewrite IH. reflexivity.
Qed.

Lemma numerar_docs_libros_range docs :
  forall s d, In d (numerar_docs_libros s docs) ->
              (s <= Ej3a4.li_id d < s + N.of_nat (List.length docs))%N.
Proof.
  induction docs as [|[[t y] v] docs IH]; intros s d;
    cbn [numerar_docs_libros In]; [intros []|].
  rewrite length_cons. intros [<-|H]; [cbn; lia|]. apply IH in H. lia.
Qed.

Lemma numerar_docs_libros_ids docs :
  forall s,
    Forall2 (fun id d => id = Ej3a4.str_oid (Ej3a4.li_id d))
            (ids_desde s (List.length docs)) (numerar_docs_libros s docs).
Proof.
  unfold ids_desde.
  induction docs as [|[[t y] v] docs IH]; intros s; [constructor|].
  cbn [List.length seq map numerar_docs_libros]. constructor.
  - cbn [Ej3a4.li_id]. f_equal. lia.
  - rewrite <- seq_shift, map_map.
    replace (map (fun k => Ej3a4.str_oid (s + N.of_nat (S k))%N)
                 (seq 0 (List.length docs)))
      with (map (fun k => Ej3a4.str_oid (s + 1 + N.of_nat k)%N)
                (seq 0 (List.length docs)));
      [apply IH|].
    apply map_ext. intros k. f_equal. lia.
Qed.

(** X10: in the MongoDB variant, [insertar_libros] on a non-empty batch
    inside the domain appends one document per tuple, in order, with
    consecutive new ids, and returns the ids as strings; each returned
    string, given back to [ObjectId], is the [_id] of the document written
    for the tuple at the same position. *)
Theorem X10_insertar_libros_ids_round_trip :
  forall (db : Ej3a4.database) (libros : list (string * Z * Ej3a4.ref_autor)),
    libros <> [] ->
    forallb tupla_bson libros = true ->
    (Ej3a4.siguiente_oid db + N.of_nat (List.length libros) <= 2 ^ 96)%N ->
    let r := Ej3a4.insertar_libros libros db in
    let nuevos := numerar_docs_libros (Ej3a4.siguiente_oid db)
                                      (map doc_de_libro libros) in
    Ej3a4.autores (snd r) = Ej3a4.autores db
    /\ Ej3a4.libros (snd r) = Ej3a4.libros db ++ nuevos
    /\ exists ids,
         fst r = Return ids
         /\ Forall2 (fun id d => Ej3a4.ObjectId_value id = Some (Ej3a4.li_id d))
                    ids nuevos.
Proof.
  intros db libros Hne Hok Hmax r nuevos. subst r.
  rewrite (ej3a4_insertar_libros_exact db libros Hne Hok). cbn [fst snd].
  split; [reflexivity|]. split; [reflexivity|].
  eexists. split; [reflexivity|].
  pose proof (numerar_docs_libros_ids (map doc_de_libro libros)
                                      (Ej3a4.siguiente_oid db)) as H.
  rewrite length_map in H.
  assert (Hr : forall d, In d nuevos -> (Ej3a4.li_id d < 2 ^ 96)%N).
  { intros d Hd. apply numerar_docs_libros_range in Hd.
    rewrite length_map in Hd. lia. }
  fold nuevos in H. clearbody nuevos.
  induction H as [|id d ids ds Hid _ IH]; constructor.
  - subst id. apply ObjectId_str_oid, Hr. left. reflexivity.
  - apply IH. intros d' Hd'. apply Hr. right. exact Hd'.
Qed.

Lemma X10_witness_two_books :
  let db := snd (Ej3a4.insertar_autores ["Borges"] Ej3a4.crear_conexion) in
  let libros := [("Ficciones", 1944, Ej3a4.Str "000000000000000000000001");
                 ("Anon", 1900, Ej3a4.NoStr (Ej3a4.VInt 7))] in
  (libros <> [] /\ forallb tupla_bson libros = true
   /\ (Ej3a4.siguiente_oid db + N.of_nat (List.length libros) <= 2 ^ 96)%N
   /\ fst (Ej3a4.insertar_libros libros db)
      = Return ["000000000000000000000002"; "000000000000000000000003"])
  /\
  (let r := Ej3a4.insertar_libros libros db in
   let nuevos := numerar_docs_libros (Ej3a4.siguiente_oid db)
                                     (map doc_de_libro libros) in
   Ej3a4.autores (snd r) = Ej3a4.autores db
   /\ Ej3a4.libros (snd r) = Ej3a4.libros db ++ nuevos
   /\ exists ids,
        fst r = Return ids
        /\ Forall2 (fun id d => Ej3a4.ObjectId_value id = Some (Ej3a4.li_id d))
                   ids nuevos).
Proof.
  intros db libros. split.
  - split; [discriminate|]. split; [reflexivity|].
    split; [vm_compute; discriminate|reflexivity].
  - apply (X10_insertar_libros_ids_round_trip db libros);
      [discriminate|reflexivity|vm_compute; discriminate].
Defined.

Lemma ej3a4_eliminar_libro_first db id o antes despues d :
  Ej3a4.ObjectId_value id = Some o ->
  Ej3a4.libros db = antes ++ d :: despues ->
  Ej3a4.li_id d = o ->
  existsb (fun l => (Ej3a4.li_id l =? o)%N) antes = false ->
  let r := Ej3a4.eliminar_libro id db in
  fst r = Return true
  /\ Ej3a4.autores (snd r) = Ej3a4.autores db
  /\ Ej3a4.libros (snd r) = antes ++ despues.
Proof.
  intros Ho Hl Hd Ha r. subst r.
  rewrite (ej3a4_eliminar_libro_run db id o Ho). cbn [fst snd].
  rewrite Hl, (delete_primero_app o antes (d :: despues) Ha).
  cbn [Ej3a4.delete_primero]. rewrite Hd, N.eqb_refl. cbn [fst snd].
  repeat split.
Qed.

Lemma ids_del_generador_libros db l :
  ids_del_generador db = true -> In l (Ej3a4.libros db) ->
  (Ej3a4.li_id l < Ej3a4.siguiente_oid db)%N.
Proof.
  unfold ids_del_generador. intros H Hl.
  apply andb_true_iff in H. destruct H as [H _].
  apply andb_true_iff in H. destruct H as [_ H].
  rewrite forallb_forall in H. apply N.ltb_lt, H, Hl.
Qed.

(** X11: in the MongoDB variant, deleting a book by an id that
    [insertar_libros] has just returned gives [True] and removes exactly
    the document written for the tuple at that position of the batch: the
    books stored before and the other documents of the batch stay, the
    authors are untouched. *)
Theorem X11_insert_then_delete_by_returned_id :
  forall (db : Ej3a4.database) (libros : list (string * Z * Ej3a4.ref_autor))
         (ids : list string) (k : nat) (id_libro : string),
    libros <> [] ->
    forallb tupla_bson libros = true ->
    ids_del_generador db = true ->
    (Ej3a4.siguiente_oid db + N.of_nat (List.length libros) <= 2 ^ 96)%N ->
    fst (Ej3a4.insertar_libros libros db) = Return ids ->
    nth_error ids k = Some id_libro ->
    let db1 := snd (Ej3a4.insertar_libros libros db) in
    let r := Ej3a4.eliminar_libro id_libro db1 in
    exists antes d despues,
      Ej3a4.libros db1 = Ej3a4.libros db ++ antes ++ d :: despues
      /\ List.length antes = k
      /\ nth_error (map doc_de_libro libros) k
         = Some (Ej3a4.li_titulo d, Ej3a4.li_anio d, Ej3a4.li_autor_id d)
      /\ fst r = Return true
      /\ Ej3a4.autores (snd r) = Ej3a4.autores db
      /\ Ej3a4.libros (snd r) = Ej3a4.libros db ++ antes ++ despues.
Proof.
  intros db libros ids k id Hne Hok Hgen Hmax Hids Hk db1 r. subst db1 r.
  rewrite (ej3a4_insertar_libros_exact db libros Hne Hok) in *.
  cbn [fst snd Ej3a4.libros] in *. injection Hids as <-.
  set (s := Ej3a4.siguiente_oid db) in *.
  set (docs := map doc_de_libro libros) in *.
  assert (Hlen : List.length docs = List.length libros)
    by (unfold docs; apply length_map).
  unfold ids_desde in Hk. rewrite nth_error_map in Hk.
  destruct (nth_error (seq 0 (List.length libros)) k) as [j|] eqn:Hj;
    [|discriminate].
  injection Hk as <-.
  assert (Hkn : (k < List.length libros)%nat).
  { assert (H : (k < List.length (seq 0 (List.length libros)))%nat)
      by (apply nth_error_Some; congruence).
    rewrite length_seq in H. exact H. }
  assert (j = k).
  { rewrite nth_error_nth' with (d := 0%nat) in Hj
      by (rewrite length_seq; exact Hkn).
    rewrite seq_nth in Hj by exact Hkn. injection Hj as <-. reflexivity. }
  subst j.
  destruct (nth_error docs k) as [[[t y] v]|] eqn:Hd.
  2:{ apply nth_error_None in Hd. lia. }
  destruct (nth_error_split docs k Hd) as [a [b [Hdocs Ha]]].
  rewrite Hdocs, numerar_docs_libros_app.
  cbn [numerar_docs_libros]. rewrite Ha.
  set (d := {| Ej3a4.li_id := (s + N.of_nat k)%N; Ej3a4.li_titulo := t;
               Ej3a4.li_anio := y; Ej3a4.li_autor_id := v |}).
  exists (numerar_docs_libros s a), d,
         (numerar_docs_libros (s + N.of_nat k + 1)%N b).
  split; [reflexivity|]. split.
  { rewrite numerar_docs_libros_length. exact Ha. }
  split; [reflexivity|].
  assert (Ho : Ej3a4.ObjectId_value (Ej3a4.str_oid (s + N.of_nat k)%N)
               = Some (s + N.of_nat k)%N).
  { apply ObjectId_str_oid. lia. }
  match goal with
  | |- context [Ej3a4.eliminar_libro _ ?db1] =>
      pose proof (ej3a4_eliminar_libro_first
                    db1 _ _ (Ej3a4.libros db ++ numerar_docs_libros s a)
                    (numerar_docs_libros (s + N.of_nat k + 1)%N b) d Ho) as H
  end.
  cbn [Ej3a4.libros Ej3a4.autores] in H. rewrite <- !app_assoc in H.
  apply H; [reflexivity|reflexivity|].
  rewrite existsb_app. apply orb_false_iff. split.
  - destruct (existsb _ (Ej3a4.libros db)) eqn:E; [|reflexivity].
    apply existsb_exists in E. destruct E as [l [Hl E]].
    apply N.eqb_eq in E. pose proof (ids_del_generador_libros db l Hgen Hl).
    fold s in H0. lia.
  - destruct (existsb _ (numerar_docs_libros s a)) eqn:E; [|reflexivity].
    apply existsb_exists in E. destruct E as [l [Hl E]].
    apply N.eqb_eq in E. apply numerar_docs_libros_range in Hl. lia.
Qed.

Lemma X11_witness_delete_second_of_batch :
  let db := snd (Ej3a4.insertar_libros [("Paula", 1994, Ej3a4.NoStr Ej3a4.VNone)]
                   Ej3a4.crear_conexion) in
  let libros := [("Ficciones", 1944, Ej3a4.NoStr Ej3a4.VNone);
                 ("El Aleph", 1949, Ej3a4.NoStr Ej3a4.VNone)] in
  let ids := ["000000000000000000000002"; "000000000000000000000003"] in
  let id_libro := "000000000000000000000003" in
  (libros <> [] /\ forallb tupla_bson libros = true
   /\ ids_del_generador db = true
   /\ (Ej3a4.siguiente_oid db + N.of_nat (List.length libros) <= 2 ^ 96)%N
   /\ fst (Ej3a4.insertar_libros libros db) = Return ids
   /\ nth_error ids 1 = Some id_libro
   /\ map Ej3a4.li_titulo
        (Ej3a4.libros
           (snd (Ej3a4.eliminar_libro id_libro
                   (snd (Ej3a4.insertar_libros libros db)))))
      = ["Paula"; "Ficciones"])
  /\
  (let db1 := snd (Ej3a4.insertar_libros libros db) in
   let r := Ej3a4.eliminar_libro id_libro db1 in
   exists antes d despues,
     Ej3a4.libros db1 = Ej3a4.libros db ++ antes ++ d :: despues
     /\ List.length antes = 1%nat
     /\ nth_error (map doc_de_libro libros) 1
        = Some (Ej3a4.li_titulo d, Ej3a4.li_anio d, Ej3a4.li_autor_id d)
     /\ fst r = Return true
     /\ Ej3a4.autores (snd r) = Ej3a4.autores db
     /\ Ej3a4.libros (snd r) = Ej3a4.libros db ++ antes ++ despues).
Proof.
  intros db libros ids id_libro. split.
  - split; [discriminate|]. split; [reflexivity|]. split; [reflexivity|].
    split; [vm_compute; discriminate|]. repeat split; reflexivity.
  - apply (X11_insert_then_delete_by_returned_id db libros ids 1 id_libro);
      [discriminate|reflexivity|reflexivity|vm_compute; discriminate
      |reflexivity|reflexivity].
Defined.

(** *** Update of a book that exists *)

Lemma ej3a4_actualizar_libro_run db id o t a :
  Ej3a4.ObjectId_value id = Some o ->
  t <> None \/ a <> None ->
  let d := {| Ej3a4.set_titulo := t; Ej3a4.set_anio := a |} in
  Ej3a4.actualizar_libro id t a db
  = (Return (0 <? snd (Ej3a4.update_primero o d (Ej3a4.libros db)))%N,
     {| Ej3a4.autores := Ej3a4.autores db;
        Ej3a4.libros := fst (Ej3a4.update_primero o d (Ej3a4.libros db));
        Ej3a4.nombre_unique := Ej3a4.nombre_unique db;
        Ej3a4.siguiente_oid := Ej3a4.siguiente_oid db;
        Ej3a4.llamadas := Ej3a4.llamadas db ++ [Ej3a4.update_one "libros"] |}).
Proof.
  intros Ho Hta.
  unfold Ej3a4.actualizar_libro, Ej3a4.ObjectId, Ej3a4.libros_update_one,
    Ej3a4.registrar, Ej3a4.con_libros, bind, ret, raise, get, put.
  destruct t as [t|], a as [a|]; cbn; rewrite ?Ho; cbn;
    try (destruct Hta as [H|H]; contradiction H; reflexivity);
    match goal with
    | |- context [Ej3a4.update_primero ?o ?d ?l] =>
        destruct (Ej3a4.update_primero o d l)
    end; reflexivity.
Qed.

(** X12: in the MongoDB variant, [actualizar_libro] with at least one field
    and the id of a stored book writes the supplied fields into that book,
    the first document with that [_id], and leaves its id, its author id,
    every other book and every author as they were.  It returns [True]
    when a supplied value differs from the stored one and [False] when the
    supplied values are the stored ones, although the book exists. *)
Theorem X12_actualizar_libro_existing_book :
  forall (db : Ej3a4.database) (id_libro : string) (o : Ej3a4.oid)
         (antes despues : list Ej3a4.doc_libro) (d : Ej3a4.doc_libro)
         (nuevo_titulo : option string) (nuevo_anio : option Z),
    Ej3a4.ObjectId_value id_libro = Some o ->
    Ej3a4.libros db = antes ++ d :: despues ->
    Ej3a4.li_id d = o ->
    existsb (fun l => (Ej3a4.li_id l =? o)%N) antes = false ->
    nuevo_titulo <> None \/ nuevo_anio <> None ->
    opt_bson_int nuevo_anio = true ->
    let titulo := match nuevo_titulo with
                  | Some t => t
                  | None => Ej3a4.li_titulo d
                  end in
    let anio := match nuevo_anio with
                | Some a => a
                | None => Ej3a4.li_anio d
                end in
    let r := Ej3a4.actualizar_libro id_libro nuevo_titulo nuevo_anio db in
    Ej3a4.autores (snd r) = Ej3a4.autores db
    /\ Ej3a4.libros (snd r)
       = antes ++ {| Ej3a4.li_id := o; Ej3a4.li_titulo := titulo;
                     Ej3a4.li_anio := anio;
                     Ej3a4.li_autor_id := Ej3a4.li_autor_id d |} :: despues
    /\ (titulo = Ej3a4.li_titulo d /\ anio = Ej3a4.li_anio d ->
        fst r = Return false)
    /\ (titulo <> Ej3a4.li_titulo d \/ anio <> Ej3a4.li_anio d ->
        fst r = Return true).
Proof.
  intros db id o antes despues d t a Ho Hl Hd Ha Hta _ titulo anio r.
  subst r. rewrite (ej3a4_actualizar_libro_run db id o t a Ho Hta).
  cbv zeta. cbn [fst snd Ej3a4.autores Ej3a4.libros].
  rewrite Hl, (update_primero_app o _ antes (d :: despues) Ha).
  cbn [Ej3a4.update_primero]. rewrite Hd, N.eqb_refl. cbn [fst snd].
  assert (Hset : Ej3a4.aplicar_set {| Ej3a4.set_titulo := t; Ej3a4.set_anio := a |} d
                 = {| Ej3a4.li_id := o; Ej3a4.li_titulo := titulo;
                      Ej3a4.li_anio := anio;
                      Ej3a4.li_autor_id := Ej3a4.li_autor_id d |}).
  { unfold Ej3a4.aplicar_set. cbn. rewrite Hd. reflexivity. }
  rewrite Hset. split; [reflexivity|]. split; [reflexivity|].
  unfold Ej3a4.mismo_contenido. cbn [Ej3a4.li_titulo Ej3a4.li_anio].
  split.
  - intros [-> ->]. rewrite String.eqb_refl, Z.eqb_refl. reflexivity.
  - intros [H|H].
    + apply String.eqb_neq in H. rewrite H. reflexivity.
    + apply Z.eqb_neq in H. rewrite H, andb_false_r. reflexivity.
Qed.

Lemma X12_witness_same_year_again :
  let db := snd (Ej3a4.insertar_libros
                   [("Paula", 1994, Ej3a4.NoStr Ej3a4.VNone);
                    ("Cien", 1967, Ej3a4.NoStr Ej3a4.VNone)]
                   Ej3a4.crear_conexion) in
  let id_libro := "000000000000000000000002" in
  let antes := [{| Ej3a4.li_id := 1%N; Ej3a4.li_titulo := "Paula";
                   Ej3a4.li_anio := 1994; Ej3a4.li_autor_id := Ej3a4.VNone |}] in
  let d := {| Ej3a4.li_id := 2%N; Ej3a4.li_titulo := "Cien";
              Ej3a4.li_anio := 1967; Ej3a4.li_autor_id := Ej3a4.VNone |} in
  (Ej3a4.ObjectId_value id_libro = Some 2%N
   /\ Ej3a4.libros db = antes ++ [d]
   /\ fst (Ej3a4.actualizar_libro id_libro None (Some 1967) db) = Return false
   /\ fst (Ej3a4.actualizar_libro id_libro None (Some 2020) db) = Return true)
  /\
  (let r := Ej3a4.actualizar_libro id_libro None (Some 1967) db in
   Ej3a4.autores (snd r) = Ej3a4.autores db
   /\ Ej3a4.libros (snd r)
      = antes ++ [{| Ej3a4.li_id := 2%N; Ej3a4.li_titulo := "Cien";
                     Ej3a4.li_anio := 1967;
                     Ej3a4.li_autor_id := Ej3a4.VNone |}]
   /\ ("Cien" = "Cien" /\ 1967 = 1967 -> fst r = Return false)
   /\ ("Cien" <> "Cien" \/ 1967 <> 1967 -> fst r = Return true)).
Proof.
  intros db id_libro antes d. split.
  - repeat split; reflexivity.
  - apply (X12_actualizar_libro_existing_book
             db id_libro 2%N antes [] d None (Some 1967));
      try reflexivity.
    right. discriminate.
Defined.

(** *** Authors and the unique index on their names *)

Lemma escribir_autores_run docs :
  forall db,
    let r := Ej3a4.escribir_autores docs db in
    exists k,
      (k <= List.length docs)%nat
      /\ (Ej3a4.nombre_unique db = true ->
          forall j d, (j < k)%nat -> nth_error docs j = Some d ->
                      ~ In (Ej3a4.au_nombre d)
                           (map Ej3a4.au_nombre
                                (Ej3a4.autores db ++ firstn j docs)))
      /\ snd r = Ej3a4.con_autores db (Ej3a4.autores db ++ firstn k docs)
      /\ ((k = List.length docs /\ fst r = Return tt)
          \/ ((k < List.length docs)%nat
              /\ fst r = Raise Ej3a4.BulkWriteError
              /\ Ej3a4.nombre_unique db = true
              /\ exists d a, nth_error docs k = Some d
                             /\ In a (Ej3a4.autores (snd r))
                             /\ Ej3a4.au_nombre a = Ej3a4.au_nombre d)).
Proof.
  induction docs as [|d docs IH]; intros db; cbn [Ej3a4.escribir_autores].
  - exists 0%nat. cbn. rewrite app_nil_r. split; [lia|].
    split; [intros _ j d' Hj; lia|].
    split; [destruct db; reflexivity|]. left. split; reflexivity.
  - cbv zeta.
    destruct (Ej3a4.nombre_unique db
              && existsb (fun a => (Ej3a4.au_nombre a =? Ej3a4.au_nombre d)%string)
                         (Ej3a4.autores db)) eqn:E.
    + exists 0%nat. cbn [firstn fst snd List.length]. rewrite app_nil_r.
      split; [lia|]. split; [intros _ j d' Hj; lia|].
      split; [destruct db; reflexivity|]. right.
      apply andb_true_iff in E. destruct E as [Eu Ee].
      split; [lia|]. split; [reflexivity|]. split; [exact Eu|].
      apply existsb_exists in Ee. destruct Ee as [a [Ha Ee]].
      apply String.eqb_eq in Ee. exists d, a. auto.
    + destruct (IH (Ej3a4.con_autores db (Ej3a4.autores db ++ [d])))
        as [k [Hk [Hlibre [Hs Hr]]]].
      cbv zeta in *. exists (S k). cbn [firstn List.length].
      split; [lia|]. split; [|split].
      * intros Hu [|j] d' Hj Hd'; cbn [nth_error firstn] in *.
        -- injection Hd' as <-. rewrite app_nil_r. intros Hin.
           rewrite Hu in E. cbn [andb] in E.
           assert (Ht : existsb
                          (fun a => (Ej3a4.au_nombre a =? Ej3a4.au_nombre d)%string)
                          (Ej3a4.autores db) = true).
           { apply in_map_iff in Hin. destruct Hin as [a [Hn Ha]].
             apply existsb_exists. exists a. split; [exact Ha|].
             apply String.eqb_eq. exact Hn. }
           rewrite Ht in E. discriminate.
        -- assert (Hj' : (j < k)%nat) by lia.
           pose proof (Hlibre Hu j d' Hj' Hd') as H.
           cbn [Ej3a4.con_autores Ej3a4.autores] in H.
           rewrite <- app_assoc in H. exact H.
      * rewrite Hs. unfold Ej3a4.con_autores. cbn. rewrite <- app_assoc.
        reflexivity.
      * destruct Hr as [[-> Hr]|[Hlt [Hr [Hu Hex]]]]; [left; auto|].
        right. split; [lia|]. split; [exact Hr|]. split; [exact Hu|].
        exact Hex.
Qed.

Lemma numerar_docs_autores_length nombres :
  forall s, List.length (numerar_docs_autores s nombres) = List.length nombres.
Proof.
  induction nombres as [|n nombres IH]; intros s; cbn; [reflexivity|].
  rewrite IH. reflexivity.
Qed.

Lemma numerar_docs_autores_firstn nombres :
  forall s k,
    firstn k (numerar_docs_autores s nombres)
    = numerar_docs_autores s (firstn k nombres).
Proof.
  induction nombres as [|n nombres IH]; intros s [|k]; cbn; try reflexivity.
  rewrite IH. reflexivity.
Qed.

Lemma numerar_docs_autores_nth nombres :
  forall s k d,
    nth_error (numerar_docs_autores s nombres) k = Some d ->
    nth_error nombres k = Some (Ej3a4.au_nombre d).
Proof.
  induction nombres as [|n nombres IH]; intros s [|k] d; cbn; try discriminate.
  - intros [= <-]. reflexivity.
  - apply IH.
Qed.

Lemma ej3a4_insertar_autores_run db nombres :
  nombres <> [] ->
  Ej3a4.insertar_autores nombres db
  = (let r := Ej3a4.escribir_autores
                (numerar_docs_autores (Ej3a4.siguiente_oid db) nombres)
                {| Ej3a4.autores := Ej3a4.autores db;
                   Ej3a4.libros := Ej3a4.libros db;
                   Ej3a4.nombre_unique := Ej3a4.nombre_unique db;
                   Ej3a4.siguiente_oid :=
                     (Ej3a4.siguiente_oid db + N.of_nat (List.length nombres))%N;
                   Ej3a4.llamadas :=
                     Ej3a4.llamadas db
                     ++ [Ej3a4.insert_many "autores" (List.length nombres)] |} in
     match fst r with
     | Return _ =>
         (Return (ids_desde (Ej3a4.siguiente_oid db) (List.length nombres)),
          snd r)
     | Raise e => (Raise e, snd r)
     end).
Proof.
  intros Hne. destruct nombres as [|n nombres]; [contradiction Hne; reflexivity|].
  unfold Ej3a4.insertar_autores, Ej3a4.autores_insert_many, Ej3a4.nuevos_oid,
    Ej3a4.registrar, bind, ret.
  cbn [truthy Truthy_list negb fst snd Ej3a4.autores Ej3a4.libros
       Ej3a4.nombre_unique Ej3a4.siguiente_oid Ej3a4.llamadas].
  rewrite numerar_docs_autores_combine.
  cbv zeta.
  destruct (Ej3a4.escribir_autores _ _) as [[[]|e] db']; cbn [fst snd];
    [|reflexivity].
  unfold ids_desde. rewrite map_map. reflexivity.
Qed.

Lemma numerar_docs_autores_nombres s nombres :
  map Ej3a4.au_nombre (numerar_docs_autores s nombres) = nombres.
Proof.
  revert s. induction nombres as [|n nombres IH]; intros s; cbn;
    [reflexivity|].
  rewrite IH. reflexivity.
Qed.

(** X13: the MongoDB [insertar_autores] raises [TypeError] on an empty
    batch without touching the database.  On a non-empty batch it writes
    the names in order, with new ids, after the authors stored, and never
    touches [libros].  Without the unique index on [nombre] it writes
    them all and returns their ids.  With the index it stops with
    [BulkWriteError] at the first name that the collection, with the
    names just written, already holds, the names before it staying
    written; when there is no such name it writes them all and returns
    their ids. *)
Theorem X13_insertar_autores_all_or_prefix :
  forall (db : Ej3a4.database) (nombres : list string),
    (nombres = [] ->
     Ej3a4.insertar_autores nombres db = (Raise Ej3a4.TypeError, db))
    /\
    (nombres <> [] ->
     let r := Ej3a4.insertar_autores nombres db in
     exists k,
       (k <= List.length nombres)%nat
       /\ (Ej3a4.nombre_unique db = true ->
           forall j n, (j < k)%nat -> nth_error nombres j = Some n ->
                       ~ In n (map Ej3a4.au_nombre (Ej3a4.autores db)
                               ++ firstn j nombres))
       /\ Ej3a4.libros (snd r) = Ej3a4.libros db
       /\ Ej3a4.autores (snd r)
          = Ej3a4.autores db
            ++ numerar_docs_autores (Ej3a4.siguiente_oid db) (firstn k nombres)
       /\ ((k = List.length nombres
            /\ fst r = Return (ids_desde (Ej3a4.siguiente_oid db)
                                         (List.length nombres)))
           \/ ((k < List.length nombres)%nat
               /\ fst r = Raise Ej3a4.BulkWriteError
               /\ Ej3a4.nombre_unique db = true
               /\ exists n, nth_error nombres k = Some n
                            /\ In n (map Ej3a4.au_nombre (Ej3a4.autores db)
                                     ++ firstn k nombres)))).
Proof.
  intros db nombres. split.
  - intros ->. reflexivity.
  - intros Hne r. subst r. rewrite (ej3a4_insertar_autores_run db nombres Hne).
    cbv zeta.
    match goal with
    | |- context [Ej3a4.escribir_autores ?docs ?db0] =>
        destruct (escribir_autores_run docs db0) as [k [Hk [Hlibre [Hs Hr]]]]
    end.
    cbv zeta in *.
    rewrite (numerar_docs_autores_length _ _) in *.
    cbn [Ej3a4.nombre_unique Ej3a4.autores] in Hlibre.
    exists k. split; [exact Hk|]. split.
    { intros Hu j n Hj Hn Hin.
      destruct (nth_error (numerar_docs_autores (Ej3a4.siguiente_oid db) nombres) j)
        as [d|] eqn:Hd.
      - pose proof (numerar_docs_autores_nth _ _ _ _ Hd) as Hn'.
        rewrite Hn in Hn'. injection Hn' as ->.
        apply (Hlibre Hu j d Hj Hd).
        rewrite map_app, numerar_docs_autores_firstn, numerar_docs_autores_nombres.
        exact Hin.
      - apply nth_error_None in Hd. rewrite numerar_docs_autores_length in Hd.
        assert (Hlt : (j < List.length nombres)%nat)
          by (apply nth_error_Some; rewrite Hn; discriminate).
        lia. }
    destruct Hr as [[-> Hr]|[Hlt [Hr [Hu [d [a [Hd [Ha Hn]]]]]]]]; rewrite Hr;
      cbn [fst snd]; rewrite Hs; cbn [Ej3a4.con_autores Ej3a4.libros Ej3a4.autores];
      rewrite numerar_docs_autores_firstn.
    + split; [reflexivity|]. split; [reflexivity|]. left. auto.
    + split; [reflexivity|]. split; [reflexivity|]. right.
      split; [exact Hlt|]. split; [reflexivity|]. split; [exact Hu|].
      exists (Ej3a4.au_nombre d). split.
      * eapply numerar_docs_autores_nth, Hd.
      * rewrite Hs in Ha. cbn [Ej3a4.con_autores Ej3a4.autores] in Ha.
        rewrite numerar_docs_autores_firstn in Ha.
        rewrite <- Hn. apply in_or_app. apply in_app_or in Ha.
        destruct Ha as [Ha|Ha]; [left; apply in_map; exact Ha|right].
        rewrite <- (numerar_docs_autores_nombres (Ej3a4.siguiente_oid db)
                      (firstn k nombres)).
        apply in_map. exact Ha.
Qed.

Lemma X13_witness_name_repeated_in_batch :
  let db := snd (Ej3a4.crear_colecciones Ej3a4.crear_conexion) in
  let nombres := ["Borges"; "Allende"; "Borges"; "Rulfo"] in
  (nombres <> []
   /\ fst (Ej3a4.insertar_autores nombres db) = Raise Ej3a4.BulkWriteError
   /\ map Ej3a4.au_nombre (Ej3a4.autores (snd (Ej3a4.insertar_autores nombres db)))
      = ["Borges"; "Allende"])
  /\
  (let r := Ej3a4.insertar_autores nombres db in
   exists k,
     (k <= List.length nombres)%nat
     /\ (Ej3a4.nombre_unique db = true ->
         forall j n, (j < k)%nat -> nth_error nombres j = Some n ->
                     ~ In n (map Ej3a4.au_nombre (Ej3a4.autores db)
                             ++ firstn j nombres))
     /\ Ej3a4.libros (snd r) = Ej3a4.libros db
     /\ Ej3a4.autores (snd r)
        = Ej3a4.autores db
          ++ numerar_docs_autores (Ej3a4.siguiente_oid db) (firstn k nombres)
     /\ ((k = List.length nombres
          /\ fst r = Return (ids_desde (Ej3a4.siguiente_oid db)
                                       (List.length nombres)))
         \/ ((k < List.length nombres)%nat
             /\ fst r = Raise Ej3a4.BulkWriteError
             /\ Ej3a4.nombre_unique db = true
             /\ exists n, nth_error nombres k = Some n
                          /\ In n (map Ej3a4.au_nombre (Ej3a4.autores db)
                                   ++ firstn k nombres)))).
Proof.
  intros db nombres. split.
  - split; [discriminate|]. split; reflexivity.
  - apply (proj2 (X13_insertar_autores_all_or_prefix db nombres)).
    discriminate.
Defined.

Lemma nombres_repetidos_NoDup l :
  Ej3a4.nombres_repetidos l = false -> NoDup (map Ej3a4.au_nombre l).
Proof.
  induction l as [|a l IH]; cbn; intros H; [constructor|].
  apply orb_false_iff in H. destruct H as [Ha Hl].
  constructor; [|apply IH, Hl].
  intros Hin. apply in_map_iff in Hin. destruct Hin as [b [Hb Hin]].
  assert (existsb (fun b => (Ej3a4.au_nombre b =? Ej3a4.au_nombre a)%string) l
          = true); [|congruence].
  apply existsb_exists. exists b. split; [exact Hin|].
  apply String.eqb_eq, Hb.
Qed.

Lemma escribir_autores_nombres docs :
  forall db,
    Ej3a4.nombre_unique db = true ->
    NoDup (map Ej3a4.au_nombre (Ej3a4.autores db)) ->
    let db' := snd (Ej3a4.escribir_autores docs db) in
    Ej3a4.nombre_unique db' = true
    /\ NoDup (map Ej3a4.au_nombre (Ej3a4.autores db')).
Proof.
  induction docs as [|d docs IH]; intros db Hu Hn; cbn [Ej3a4.escribir_autores].
  - cbn. auto.
  - cbv zeta. rewrite Hu. cbn [andb].
    destruct (existsb _ (Ej3a4.autores db)) eqn:E; [cbn; auto|].
    apply IH; [exact Hu|]. cbn [Ej3a4.con_autores Ej3a4.autores].
    rewrite map_app. cbn [map]. apply NoDup_snoc; [exact Hn|].
    intros Hin. apply in_map_iff in Hin. destruct Hin as [a [Ha Hin]].
    assert (existsb (fun a => (Ej3a4.au_nombre a =? Ej3a4.au_nombre d)%string)
                    (Ej3a4.autores db) = true); [|congruence].
    apply existsb_exists. exists a. split; [exact Hin|].
    apply String.eqb_eq, Ha.
Qed.

Lemma ej3a4_insertar_autores_nombres db nombres :
  Ej3a4.nombre_unique db = true ->
  NoDup (map Ej3a4.au_nombre (Ej3a4.autores db)) ->
  let db' := snd (Ej3a4.insertar_autores nombres db) in
  Ej3a4.nombre_unique db' = true
  /\ NoDup (map Ej3a4.au_nombre (Ej3a4.autores db')).
Proof.
  intros Hu Hn. destruct nombres as [|n nombres]; [cbn; auto|].
  rewrite ej3a4_insertar_autores_run by discriminate. cbv zeta.
  match goal with
  | |- context [Ej3a4.escribir_autores ?docs ?db0] =>
      pose proof (escribir_autores_nombres docs db0 Hu Hn) as H;
      destruct (Ej3a4.escribir_autores docs db0) as [[[]|e] db']
  end; exact H.
Qed.

(** X14: the MongoDB [crear_colecciones] never changes a document, and it
    raises [DuplicateKeyError] when two stored authors share a name.  When
    it has returned, the names of the stored authors are pairwise distinct
    and stay so through any number of [insertar_autores] calls, whether
    they return or raise. *)
Theorem X14_crear_colecciones_keeps_names_distinct :
  forall (db : Ej3a4.database) (lotes : list (list string)),
    let r := Ej3a4.crear_colecciones db in
    Ej3a4.autores (snd r) = Ej3a4.autores db
    /\ Ej3a4.libros (snd r) = Ej3a4.libros db
    /\ (~ NoDup (map Ej3a4.au_nombre (Ej3a4.autores db)) ->
        fst r = Raise Ej3a4.DuplicateKeyError)
    /\ (fst r = Return tt ->
        NoDup (map Ej3a4.au_nombre (Ej3a4.autores db))
        /\ let db' := fold_left
                        (fun db lote => snd (Ej3a4.insertar_autores lote db))
                        lotes (snd r) in
           NoDup (map Ej3a4.au_nombre (Ej3a4.autores db'))).
Proof.
  intros db lotes r. subst r.
  unfold Ej3a4.crear_colecciones, Ej3a4.autores_create_index_unique,
    Ej3a4.registrar, bind, ret.
  cbn [fst snd Ej3a4.autores Ej3a4.libros Ej3a4.nombre_unique
       Ej3a4.siguiente_oid Ej3a4.llamadas].
  destruct (Ej3a4.nombres_repetidos (Ej3a4.autores db)) eqn:E;
    cbn [fst snd Ej3a4.autores Ej3a4.libros].
  - split; [reflexivity|]. split; [reflexivity|]. split; [reflexivity|].
    discriminate.
  - split; [reflexivity|]. split; [reflexivity|].
    pose proof (nombres_repetidos_NoDup _ E) as Hn.
    split; [intros H; contradiction|].
    intros _. split; [exact Hn|].
    match goal with
    | |- context [fold_left _ lotes ?db0] =>
        assert (H : Ej3a4.nombre_unique db0 = true
                    /\ NoDup (map Ej3a4.au_nombre (Ej3a4.autores db0)))
          by (split; [reflexivity|exact Hn]);
        generalize dependent db0
    end.
    induction lotes as [|lote lotes IH]; intros db0 [Hu Hd]; cbn [fold_left];
      [exact Hd|].
    apply IH. apply ej3a4_insertar_autores_nombres; assumption.
Qed.

Lemma X14_witness_after_index :
  let db := snd (Ej3a4.insertar_autores ["Borges"; "Allende"] Ej3a4.crear_conexion) in
  let lotes := [["Rulfo"; "Borges"]; ["Allende"]; ["Paz"]] in
  (fst (Ej3a4.crear_colecciones db) = Return tt
   /\ fst (Ej3a4.crear_colecciones
             (snd (Ej3a4.insertar_autores ["Borges"] db)))
      = Raise Ej3a4.DuplicateKeyError)
  /\
  (let db' := fold_left (fun db lote => snd (Ej3a4.insertar_autores lote db))
                        lotes (snd (Ej3a4.crear_colecciones db)) in
   map Ej3a4.au_nombre (Ej3a4.autores db') = ["Borges"; "Allende"; "Rulfo"; "Paz"]
   /\ NoDup (map Ej3a4.au_nombre (Ej3a4.autores db'))).
Proof.
  intros db lotes. split; [split; reflexivity|]. split; [reflexivity|].
  apply (proj2 (proj2 (proj2
           (X14_crear_colecciones_keeps_names_distinct db lotes)))).
  reflexivity.
Defined.

(** *** Ids that are not ObjectIds *)

Lemma ej3a4_comprehension_invalid db
      (f : string * Z * Ej3a4.ref_autor -> Ej3a4.Mongo (string * Z * Ej3a4.valor))
      libros malo :
  (forall libro db, (exists doc, f libro db = (Return doc, db))
                    \/ f libro db = (Raise Ej3a4.InvalidId, db)) ->
  (forall db, f malo db = (Raise Ej3a4.InvalidId, db)) ->
  In malo libros ->
  comprehension f libros db = (Raise Ej3a4.InvalidId, db).
Proof.
  intros Hf Hm. induction libros as [|libro libros IH]; [intros []|].
  intros Hin. cbn [comprehension]. unfold bind at 1.
  destruct (Hf libro db) as [[doc Hd]|Hd]; rewrite Hd; [|reflexivity].
  unfold bind at 1. destruct Hin as [->|Hin].
  - rewrite Hm in Hd. discriminate.
  - rewrite (IH Hin). reflexivity.
Qed.

(** X15: in the MongoDB variant an id string whose length is not 24 is
    refused with [InvalidId] before any command is sent: [eliminar_libro],
    [actualizar_libro] with a field to set, and [insertar_libros] on a
    batch where some tuple carries such a string as author id all raise and
    leave the database handle as it was, so a batch with one bad author id
    writes none of its books. *)
Theorem X15_malformed_id_raises_before_any_write :
  forall (db : Ej3a4.database) (id : string),
    String.length id <> 24%nat ->
    Ej3a4.eliminar_libro id db = (Raise Ej3a4.InvalidId, db)
    /\ (forall nuevo_titulo nuevo_anio,
           nuevo_titulo <> None \/ nuevo_anio <> None ->
           Ej3a4.actualizar_libro id nuevo_titulo nuevo_anio db
           = (Raise Ej3a4.InvalidId, db))
    /\ (forall libros titulo anio,
           In (titulo, anio, Ej3a4.Str id) libros ->
           Ej3a4.insertar_libros libros db = (Raise Ej3a4.InvalidId, db)).
Proof.
  intros db id Hlen. pose proof (ObjectId_value_length id Hlen) as Hid.
  split; [|split].
  - unfold Ej3a4.eliminar_libro, Ej3a4.ObjectId, bind, raise. rewrite Hid.
    reflexivity.
  - intros t a Hta.
    unfold Ej3a4.actualizar_libro, Ej3a4.ObjectId, bind, raise.
    destruct t as [t|], a as [a|]; cbn; rewrite ?Hid; try reflexivity.
    destruct Hta as [H|H]; contradiction H; reflexivity.
  - intros libros t a Hin. unfold Ej3a4.insertar_libros.
    unfold bind at 1.
    match goal with
    | |- context [comprehension ?f libros] =>
        rewrite (ej3a4_comprehension_invalid db f libros (t, a, Ej3a4.Str id))
    end; [reflexivity| | |exact Hin].
    + intros [[t' a'] r] db'. destruct r as [s|v].
      * unfold Ej3a4.ObjectId, bind, ret, raise.
        destruct (Ej3a4.ObjectId_value s); [left; eexists; reflexivity|].
        right. reflexivity.
      * left. eexists. reflexivity.
    + intros db'. unfold Ej3a4.ObjectId, bind, raise. rewrite Hid. reflexivity.
Qed.

Lemma X15_witness_short_id :
  let db := snd (Ej3a4.insertar_libros [("Paula", 1994, Ej3a4.NoStr Ej3a4.VNone)]
                   Ej3a4.crear_conexion) in
  let libros := [("Cien", 1967, Ej3a4.NoStr Ej3a4.VNone);
                 ("Ficciones", 1944, Ej3a4.Str "1")] in
  String.length "1" <> 24%nat
  /\ Ej3a4.eliminar_libro "1" db = (Raise Ej3a4.InvalidId, db)
  /\ Ej3a4.actualizar_libro "1" (Some "Otro") None db = (Raise Ej3a4.InvalidId, db)
  /\ Ej3a4.insertar_libros libros db = (Raise Ej3a4.InvalidId, db).
Proof.
  intros db libros.
  assert (H : String.length "1" <> 24%nat) by discriminate.
  destruct (X15_malformed_id_raises_before_any_write db "1" H) as [H1 [H2 H3]].
  split; [exact H|]. split; [exact H1|]. split.
  - apply H2. left. discriminate.
  - apply (H3 libros "Ficciones" 1944). right. left. reflexivity.
Defined.

(** *** [ejemplo_transaccion] *)

Section TransaccionFacts.
Variable libros_delete_many : Ej3a4.oid -> Ej3a4.Mongo N.
Variable str_error : Ej3a4.error -> string.

Lemma ej3a4_ejemplo_transaccion_new_author db :
  Ej3a4.nombre_unique db
  && existsb (fun a => (Ej3a4.au_nombre a =? "Miguel de Cervantes")%string)
             (Ej3a4.autores db) = false ->
  let s := Ej3a4.siguiente_oid db in
  let r := Ej3a4.ejemplo_transaccion libros_delete_many str_error db in
  fst r = Return (true, [])
  /\ Ej3a4.nombre_unique (snd r) = Ej3a4.nombre_unique db
  /\ Ej3a4.autores (snd r)
     = Ej3a4.autores db
       ++ [{| Ej3a4.au_id := s; Ej3a4.au_nombre := "Miguel de Cervantes" |}]
  /\ Ej3a4.libros (snd r)
     = Ej3a4.libros db
       ++ [{| Ej3a4.li_id := (s + 1)%N;
              Ej3a4.li_titulo := "Don Quijote de la Mancha";
              Ej3a4.li_anio := 1605; Ej3a4.li_autor_id := Ej3a4.VOid s |};
           {| Ej3a4.li_id := (s + 2)%N;
              Ej3a4.li_titulo := "Novelas ejemplares";
              Ej3a4.li_anio := 1613; Ej3a4.li_autor_id := Ej3a4.VOid s |}].
Proof.
  intros E s r. subst r.
  unfold Ej3a4.ejemplo_transaccion, Ej3a4.autores_insert_one, Ej3a4.nuevo_oid,
    Ej3a4.registrar, bind.
  cbn [fst snd Ej3a4.autores Ej3a4.libros Ej3a4.nombre_unique
       Ej3a4.siguiente_oid Ej3a4.llamadas].
  rewrite E. cbn. repeat split. subst s.
  rewrite N.add_0_r. replace (Ej3a4.siguiente_oid db + 1 + 1)%N
    with (Ej3a4.siguiente_oid db + 2)%N by lia.
  reflexivity.
Qed.

Lemma ej3a4_ejemplo_transaccion_name_taken db :
  Ej3a4.nombre_unique db = true ->
  In "Miguel de Cervantes" (map Ej3a4.au_nombre (Ej3a4.autores db)) ->
  let r := Ej3a4.ejemplo_transaccion libros_delete_many str_error db in
  fst r = Return (false, [Ej3a4.mensaje_error str_error Ej3a4.DuplicateKeyError])
  /\ Ej3a4.nombre_unique (snd r) = Ej3a4.nombre_unique db
  /\ Ej3a4.autores (snd r) = Ej3a4.autores db
  /\ Ej3a4.libros (snd r) = Ej3a4.libros db.
Proof.
  intros Hu Hin r. subst r.
  assert (E : existsb (fun a => (Ej3a4.au_nombre a =? "Miguel de Cervantes")%string)
                      (Ej3a4.autores db) = true).
  { apply in_map_iff in Hin. destruct Hin as [a [Ha Hin]].
    apply existsb_exists. exists a. split; [exact Hin|].
    apply String.eqb_eq, Ha. }
  unfold Ej3a4.ejemplo_transaccion, Ej3a4.autores_insert_one, Ej3a4.nuevo_oid,
    Ej3a4.registrar, bind.
  cbn [fst snd Ej3a4.autores Ej3a4.libros Ej3a4.nombre_unique
       Ej3a4.siguiente_oid Ej3a4.llamadas].
  rewrite Hu, E. cbn. repeat split.
Qed.
End TransaccionFacts.

(** X16: in the MongoDB variant, when the unique index on [nombre] does not
    exist or no author is named "Miguel de Cervantes", [ejemplo_transaccion]
    returns [True] and prints nothing; it appends one author of that name
    and the two books "Don Quijote de la Mancha" (1605) and "Novelas
    ejemplares" (1613), both holding the new author's id as [autor_id], and
    leaves every document stored before in place. *)
Theorem X16_ejemplo_transaccion_adds_author_and_two_books :
  forall (libros_delete_many : Ej3a4.oid -> Ej3a4.Mongo N)
         (str_error : Ej3a4.error -> string) (db : Ej3a4.database),
    Ej3a4.nombre_unique db
    && existsb (fun a => (Ej3a4.au_nombre a =? "Miguel de Cervantes")%string)
               (Ej3a4.autores db) = false ->
    let s := Ej3a4.siguiente_oid db in
    let r := Ej3a4.ejemplo_transaccion libros_delete_many str_error db in
    fst r = Return (true, [])
    /\ Ej3a4.autores (snd r)
       = Ej3a4.autores db
         ++ [{| Ej3a4.au_id := s; Ej3a4.au_nombre := "Miguel de Cervantes" |}]
    /\ Ej3a4.libros (snd r)
       = Ej3a4.libros db
         ++ [{| Ej3a4.li_id := (s + 1)%N;
                Ej3a4.li_titulo := "Don Quijote de la Mancha";
                Ej3a4.li_anio := 1605; Ej3a4.li_autor_id := Ej3a4.VOid s |};
             {| Ej3a4.li_id := (s + 2)%N;
                Ej3a4.li_titulo := "Novelas ejemplares";
                Ej3a4.li_anio := 1613; Ej3a4.li_autor_id := Ej3a4.VOid s |}].
Proof.
  intros del str db E s r.
  destruct (ej3a4_ejemplo_transaccion_new_author del str db E)
    as [H1 [_ [H2 H3]]].
  auto.
Qed.

Lemma X16_witness_then_listing :
  let del := fun _ : Ej3a4.oid => @ret Ej3a4.database Ej3a4.error N 0%N in
  let str := fun _ : Ej3a4.error => "" in
  let db := snd (Ej3a4.insertar_autores ["Borges"] Ej3a4.crear_conexion) in
  (Ej3a4.nombre_unique db
   && existsb (fun a => (Ej3a4.au_nombre a =? "Miguel de Cervantes")%string)
              (Ej3a4.autores db) = false
   /\ fst (Ej3a4.consultar_libros (snd (Ej3a4.ejemplo_transaccion del str db)))
      = Return ["Don Quijote de la Mancha (1605) - Miguel de Cervantes";
                "Novelas ejemplares (1613) - Miguel de Cervantes"])
  /\
  (let s := Ej3a4.siguiente_oid db in
   let r := Ej3a4.ejemplo_transaccion del str db in
   fst r = Return (true, [])
   /\ Ej3a4.autores (snd r)
      = Ej3a4.autores db
        ++ [{| Ej3a4.au_id := s; Ej3a4.au_nombre := "Miguel de Cervantes" |}]
   /\ Ej3a4.libros (snd r)
      = Ej3a4.libros db
        ++ [{| Ej3a4.li_id := (s + 1)%N;
               Ej3a4.li_titulo := "Don Quijote de la Mancha";
               Ej3a4.li_anio := 1605; Ej3a4.li_autor_id := Ej3a4.VOid s |};
            {| Ej3a4.li_id := (s + 2)%N;
               Ej3a4.li_titulo := "Novelas ejemplares";
               Ej3a4.li_anio := 1613; Ej3a4.li_autor_id := Ej3a4.VOid s |}]).
Proof.
  intros del str db. split.
  - split; [reflexivity|]. vm_compute. reflexivity.
  - apply (X16_ejemplo_transaccion_adds_author_and_two_books del str db).
    reflexivity.
Defined.

(** X17: in the MongoDB variant, once the unique index on [nombre] exists,
    [ejemplo_transaccion] does not repeat itself: after one run the author
    "Miguel de Cervantes" is stored, and a second run returns [False],
    prints the one error line and leaves both collections as the first run
    left them. *)
Theorem X17_ejemplo_transaccion_second_run_changes_nothing :
  forall (libros_delete_many : Ej3a4.oid -> Ej3a4.Mongo N)
         (str_error : Ej3a4.error -> string) (db : Ej3a4.database),
    Ej3a4.nombre_unique db = true ->
    let db1 := snd (Ej3a4.ejemplo_transaccion libros_delete_many str_error db) in
    let r := Ej3a4.ejemplo_transaccion libros_delete_many str_error db1 in
    In "Miguel de Cervantes" (map Ej3a4.au_nombre (Ej3a4.autores db1))
    /\ fst r = Return (false, [Ej3a4.mensaje_error str_error
                                 Ej3a4.DuplicateKeyError])
    /\ Ej3a4.autores (snd r) = Ej3a4.autores db1
    /\ Ej3a4.libros (snd r) = Ej3a4.libros db1.
Proof.
  intros del str db Hu db1 r.
  assert (H1 : Ej3a4.nombre_unique db1 = true
               /\ In "Miguel de Cervantes"
                     (map Ej3a4.au_nombre (Ej3a4.autores db1))).
  { subst db1.
    destruct (existsb (fun a => (Ej3a4.au_nombre a =? "Miguel de Cervantes")%string)
                      (Ej3a4.autores db)) eqn:E.
    - assert (Hin : In "Miguel de Cervantes"
                       (map Ej3a4.au_nombre (Ej3a4.autores db))).
      { apply existsb_exists in E. destruct E as [a [Ha E]].
        apply String.eqb_eq in E. apply in_map_iff. exists a. auto. }
      destruct (ej3a4_ejemplo_transaccion_name_taken del str db Hu Hin)
        as [_ [Hu' [Ha _]]].
      cbv zeta in *. rewrite Hu', Ha. auto.
    - assert (E' : Ej3a4.nombre_unique db
                   && existsb (fun a => (Ej3a4.au_nombre a
                                         =? "Miguel de Cervantes")%string)
                              (Ej3a4.autores db) = false)
        by (rewrite E; apply andb_false_r).
      destruct (ej3a4_ejemplo_transaccion_new_author del str db E')
        as [_ [Hu' [Ha _]]].
      cbv zeta in *. rewrite Hu', Ha. split; [exact Hu|].
      rewrite map_app. apply in_or_app. right. left. reflexivity. }
  destruct H1 as [Hu1 Hin1]. split; [exact Hin1|].
  destruct (ej3a4_ejemplo_transaccion_name_taken del str db1 Hu1 Hin1)
    as [H2 [_ [H3 H4]]].
  auto.
Qed.

Lemma X17_witness_after_crear_colecciones :
  let del := fun _ : Ej3a4.oid => @ret Ej3a4.database Ej3a4.error N 0%N in
  let str := fun _ : Ej3a4.error => "E11000 duplicate key error" in
  let db := snd (Ej3a4.crear_colecciones Ej3a4.crear_conexion) in
  (Ej3a4.nombre_unique db = true
   /\ fst (Ej3a4.ejemplo_transaccion del str db) = Return (true, []))
  /\
  (let db1 := snd (Ej3a4.ejemplo_transaccion del str db) in
   let r := Ej3a4.ejemplo_transaccion del str db1 in
   In "Miguel de Cervantes" (map Ej3a4.au_nombre (Ej3a4.autores db1))
   /\ fst r = Return (false, [Ej3a4.mensaje_error str Ej3a4.DuplicateKeyError])
   /\ Ej3a4.autores (snd r) = Ej3a4.autores db1
   /\ Ej3a4.libros (snd r) = Ej3a4.libros db1).
Proof.
  intros del str db. split.
  - split; reflexivity.
  - apply (X17_ejemplo_transaccion_second_run_changes_nothing del str db).
    reflexivity.
Defined.

(** *** From an author's returned id to the search by name *)

Lemma ej3a4_insertar_autores_one db n :
  existsb (fun a => (Ej3a4.au_nombre a =? n)%string) (Ej3a4.autores db) = false ->
  Ej3a4.insertar_autores [n] db
  = (Return [Ej3a4.str_oid (Ej3a4.siguiente_oid db)],
     {| Ej3a4.autores :=
          Ej3a4.autores db
          ++ [{| Ej3a4.au_id := Ej3a4.siguiente_oid db; Ej3a4.au_nombre := n |}];
        Ej3a4.libros := Ej3a4.libros db;
        Ej3a4.nombre_unique := Ej3a4.nombre_unique db;
        Ej3a4.siguiente_oid := (Ej3a4.siguiente_oid db + 1)%N;
        Ej3a4.llamadas :=
          Ej3a4.llamadas db ++ [Ej3a4.insert_many "autores" 1] |}).
Proof.
  intros E. rewrite ej3a4_insertar_autores_run by discriminate.
  cbn [numerar_docs_autores Ej3a4.escribir_autores List.length].
  cbv zeta.
  cbn [Ej3a4.nombre_unique Ej3a4.autores Ej3a4.au_nombre].
  rewrite E, andb_false_r. cbn [Ej3a4.escribir_autores ret fst snd].
  unfold ids_desde. cbn [seq map N.of_nat]. rewrite N.add_0_r.
  reflexivity.
Qed.

Lemma find_app_last {A} (p : A -> bool) l x :
  existsb p l = false -> p x = true -> find p (l ++ [x]) = Some x.
Proof.
  induction l as [|y l IH]; cbn; intros H Hx; [rewrite Hx; reflexivity|].
  apply orb_false_iff in H. destruct H as [Hy H]. rewrite Hy. apply IH; assumption.
Qed.

Lemma numerar_docs_libros_map s v pares :
  map (fun l => (Ej3a4.li_titulo l, Ej3a4.li_anio l))
      (numerar_docs_libros s (map (fun '(t, y) => (t, y, v)) pares))
  = pares.
Proof.
  revert s. induction pares as [|[t y] pares IH]; intros s; cbn; [reflexivity|].
  rewrite IH. reflexivity.
Qed.

Lemma numerar_docs_libros_autor s v pares l :
  In l (numerar_docs_libros s (map (fun '(t, y) => (t, y, v)) pares)) ->
  Ej3a4.li_autor_id l = v.
Proof.
  revert s. induction pares as [|[t y] pares IH]; intros s; cbn; [intros []|].
  intros [<-|H]; [reflexivity|]. apply (IH _ H).
Qed.

(** X18: in the MongoDB variant the id string that [insertar_autores]
    returns links books to the author.  On a database that holds no author
    of that name and no book carrying the next ObjectId as author id, after
    inserting the author and then a non-empty batch of books under the
    returned id, [buscar_libros_por_autor] by the author's name returns
    exactly the titles and years of that batch, ordered by year. *)
Theorem X18_books_under_returned_author_id_are_found :
  forall (db : Ej3a4.database) (nombre : string) (pares : list (string * Z)),
    pares <> [] ->
    forallb (fun par => Ej3a4.bson_int (snd par)) pares = true ->
    (Ej3a4.siguiente_oid db + 1 + N.of_nat (List.length pares) <= 2 ^ 96)%N ->
    existsb (fun a => (Ej3a4.au_nombre a =? nombre)%string) (Ej3a4.autores db)
    = false ->
    existsb (fun l => Ej3a4.valor_es_oid (Ej3a4.li_autor_id l)
                                         (Ej3a4.siguiente_oid db))
            (Ej3a4.libros db) = false ->
    exists id_autor,
      fst (Ej3a4.insertar_autores [nombre] db) = Return [id_autor]
      /\ let db1 := snd (Ej3a4.insertar_autores [nombre] db) in
         let libros := map (fun '(t, y) => (t, y, Ej3a4.Str id_autor)) pares in
         let r2 := Ej3a4.insertar_libros libros db1 in
         (exists ids, fst r2 = Return ids
                      /\ List.length ids = List.length pares)
         /\ exists encontrados,
              fst (Ej3a4.buscar_libros_por_autor nombre (snd r2))
              = Return encontrados
              /\ Sorted anio_le encontrados
              /\ Permutation pares encontrados.
Proof.
  intros db n pares Hne Hok Hmax Hn Hb.
  set (s := Ej3a4.siguiente_oid db) in *.
  assert (Hs : Ej3a4.ObjectId_value (Ej3a4.str_oid s) = Some s)
    by (apply ObjectId_str_oid; lia).
  exists (Ej3a4.str_oid s).
  rewrite (ej3a4_insertar_autores_one db n Hn). fold s.
  split; [reflexivity|]. cbv zeta. cbn [snd].
  set (libros := map (fun '(t, y) => (t, y, Ej3a4.Str (Ej3a4.str_oid s))) pares).
  assert (Hl : libros <> []).
  { unfold libros. destruct pares; [contradiction Hne; reflexivity|discriminate]. }
  assert (Ht : forallb tupla_bson libros = true).
  { unfold libros. apply forallb_forall. intros x Hx. apply in_map_iff in Hx.
    destruct Hx as [[t y] [<- Hx]]. unfold tupla_bson. rewrite Hs.
    rewrite forallb_forall in Hok. specialize (Hok (t, y) Hx).
    cbn [snd] in Hok. rewrite Hok. reflexivity. }
  rewrite (ej3a4_insertar_libros_exact _ libros Hl Ht).
  cbn [fst snd Ej3a4.autores Ej3a4.libros Ej3a4.siguiente_oid].
  split.
  { eexists. split; [reflexivity|].
    unfold ids_desde, libros. rewrite !length_map, length_seq. reflexivity. }
  assert (Hd : map doc_de_libro libros
               = map (fun '(t, y) => (t, y, Ej3a4.VOid s)) pares).
  { unfold libros. rewrite map_map. apply map_ext. intros [t y].
    unfold doc_de_libro, valor_de_ref. rewrite Hs. reflexivity. }
  rewrite Hd.
  unfold Ej3a4.buscar_libros_por_autor, Ej3a4.autores_find_one,
    Ej3a4.libros_aggregate_match, Ej3a4.registrar, bind, ret, get.
  cbn [fst snd Ej3a4.autores Ej3a4.libros].
  rewrite (find_app_last _ _ _ Hn) by (cbn; apply String.eqb_refl).
  cbn [fst snd Ej3a4.au_id Ej3a4.libros].
  rewrite filter_app.
  rewrite (filter_none _ (Ej3a4.libros db)).
  2:{ intros l Hl'. destruct (Ej3a4.valor_es_oid _ s) eqn:E; [|reflexivity].
      assert (existsb (fun l => Ej3a4.valor_es_oid (Ej3a4.li_autor_id l) s)
                      (Ej3a4.libros db) = true); [|congruence].
      apply existsb_exists. exists l. auto. }
  cbn [app]. rewrite filter_keeps.
  2:{ intros l Hl'. apply numerar_docs_libros_autor in Hl'. rewrite Hl'.
      cbn. apply N.eqb_refl. }
  eexists. split; [reflexivity|]. rewrite !map_map. split.
  - apply Sorted_map. cbn.
    eapply Sorted_impl; [|apply sort_by_sorted, anio_leb_total].
    intros x y H. unfold anio_le. cbn. apply Z.leb_le, H.
  - rewrite <- (numerar_docs_libros_map (s + 1)%N (Ej3a4.VOid s) pares) at 1.
    cbn. erewrite map_ext; [apply Permutation_map, sort_by_perm|].
    intros l. reflexivity.
Qed.

Lemma X18_witness_borges :
  let db := snd (Ej3a4.insertar_autores ["Allende"]
                   (snd (Ej3a4.crear_colecciones Ej3a4.crear_conexion))) in
  let pares := [("El Aleph", 1949); ("Ficciones", 1944)] in
  (pares <> []
   /\ forallb (fun par => Ej3a4.bson_int (snd par)) pares = true
   /\ (Ej3a4.siguiente_oid db + 1 + N.of_nat (List.length pares) <= 2 ^ 96)%N
   /\ existsb (fun a => (Ej3a4.au_nombre a =? "Borges")%string) (Ej3a4.autores db)
      = false
   /\ existsb (fun l => Ej3a4.valor_es_oid (Ej3a4.li_autor_id l)
                                           (Ej3a4.siguiente_oid db))
              (Ej3a4.libros db) = false)
  /\
  (exists id_autor,
      fst (Ej3a4.insertar_autores ["Borges"] db) = Return [id_autor]
      /\ let db1 := snd (Ej3a4.insertar_autores ["Borges"] db) in
         let libros := map (fun '(t, y) => (t, y, Ej3a4.Str id_autor)) pares in
         let r2 := Ej3a4.insertar_libros libros db1 in
         (exists ids, fst r2 = Return ids
                      /\ List.length ids = List.length pares)
         /\ exists encontrados,
              fst (Ej3a4.buscar_libros_por_autor "Borges" (snd r2))
              = Return encontrados
              /\ Sorted anio_le encontrados
              /\ Permutation pares encontrados).
Proof.
  intros db pares. split.
  - split; [discriminate|]. split; [reflexivity|].
    split; [vm_compute; discriminate|]. split; reflexivity.
  - apply (X18_books_under_returned_author_id_are_found db "Borges" pares);
      [discriminate|reflexivity|vm_compute; discriminate|reflexivity
      |reflexivity].
Defined.

(** ** The statement texts of the SQLite [actualizar_libro] *)

(** *** Reading the interpolated texts *)

Lemma append_mas_caracter s c r :
  (Ej3a1.mas_caracter s c ++ r)%string = (s ++ String c r)%string.
Proof.
  unfold Ej3a1.mas_caracter. induction s as [|x s IH]; cbn; [reflexivity|].
  rewrite IH. reflexivity.
Qed.

Lemma append_vacio s : (s ++ "")%string = s.
Proof. induction s as [|x s IH]; cbn; [reflexivity|]. rewrite IH. reflexivity. Qed.

Lemma correr_app m s1 s2 :
  Ej3a1.correr m (s1 ++ s2)
  = match Ej3a1.correr m s1 with
    | Some (ts, m') =>
        match Ej3a1.correr m' s2 with
        | Some (ts', m'') => Some (ts ++ ts', m'')
        | None => None
        end
    | None => None
    end.
Proof.
  revert m. induction s1 as [|c s1 IH]; intros m; cbn.
  - destruct (Ej3a1.correr m s2) as [[ts m']|]; reflexivity.
  - destruct (Ej3a1.paso m c) as [[ts m']|]; [|reflexivity].
    rewrite IH. destruct (Ej3a1.correr m' s1) as [[ts1 m1]|]; [|reflexivity].
    destruct (Ej3a1.correr m1 s2) as [[ts2 m2]|]; [|reflexivity].
    rewrite app_assoc. reflexivity.
Qed.

(** Inside a string literal, a text without apostrophe or NUL is taken
    whole. *)
Lemma correr_texto t : forall leido,
  Ej3a1.sql_text t = true ->
  Ej3a1.correr (Ej3a1.Texto leido) t = Some ([], Ej3a1.Texto (leido ++ t)).
Proof.
  induction t as [|c t IH]; intros leido H; cbn.
  - rewrite append_vacio. reflexivity.
  - cbn in H. apply andb_true_iff in H. destruct H as [Hc Ht].
    unfold Ej3a1.sql_char in Hc. apply andb_true_iff in Hc.
    destruct Hc as [H1 H2].
    apply negb_true_iff in H1. apply negb_true_iff in H2. rewrite H1, H2.
    rewrite (IH _ Ht), append_mas_caracter. reflexivity.
Qed.

Lemma correr_digitos u : forall leido,
  Ej3a1.correr (Ej3a1.Numero leido) (NilEmpty.string_of_uint u)
  = Some ([], Ej3a1.Numero (leido ++ NilEmpty.string_of_uint u)).
Proof.
  induction u; intros leido; cbn;
    rewrite ?append_vacio; try reflexivity;
    rewrite IHu, append_mas_caracter; reflexivity.
Qed.

(** The decimal writing of a natural number is read as one run of
    digits, from between tokens and after a [-]. *)
Lemma correr_numero u :
  Ej3a1.correr Ej3a1.Fuera (NilZero.string_of_uint u)
  = Some ([], Ej3a1.Numero (NilZero.string_of_uint u))
  /\ Ej3a1.correr Ej3a1.Guion (NilZero.string_of_uint u)
     = Some ([Ej3a1.T_menos], Ej3a1.Numero (NilZero.string_of_uint u)).
Proof.
  destruct u; cbn; rewrite ?correr_digitos; cbn; split; reflexivity.
Qed.

Lemma valor_digitos_uint u :
  Ej3a1.valor_digitos (NilZero.string_of_uint u) = Z.of_uint u.
Proof.
  unfold Ej3a1.valor_digitos. destruct u; try reflexivity;
    cbn [NilZero.string_of_uint]; rewrite NilEmpty.usu; reflexivity.
Qed.

Lemma sql_text_digitos u : Ej3a1.sql_text (NilEmpty.string_of_uint u) = true.
Proof. induction u; cbn; auto. Qed.

Lemma sql_text_str_int z : Ej3a1.sql_text (str_int z) = true.
Proof.
  unfold str_int. destruct (Z.to_int z) as [u|u]; cbn;
    destruct u; cbn; auto using sql_text_digitos.
Qed.

(** The decimal writing of a 64-bit integer at the end of a statement is
    read as that integer. *)
Lemma correr_str_int z :
  Ej3a1.sql_int z = true ->
  exists pre ds,
    Ej3a1.correr Ej3a1.Fuera (str_int z) = Some (pre, Ej3a1.Numero ds)
    /\ Ej3a1.leer_atomo (pre ++ [Ej3a1.T_entero ds])
       = Some (Ej3a1.E_entero z, []).
Proof.
  intros Hz. pose proof (DecimalZ.of_to z) as Hof. unfold str_int.
  destruct (Z.to_int z) as [u|u]; cbn [NilZero.string_of_int].
  - destruct (correr_numero u) as [H _].
    exists [], (NilZero.string_of_uint u). split; [exact H|].
    cbn [app Ej3a1.leer_atomo]. rewrite valor_digitos_uint.
    cbn in Hof. rewrite Hof, Hz. reflexivity.
  - destruct (correr_numero u) as [_ H].
    exists [Ej3a1.T_menos], (NilZero.string_of_uint u). split.
    + cbn. rewrite H. reflexivity.
    + cbn [app Ej3a1.leer_atomo]. rewrite valor_digitos_uint.
      cbn in Hof. rewrite Hof, Hz. reflexivity.
Qed.

Lemma leer_tokens_titulo t id :
  Ej3a1.sql_text t = true ->
  Ej3a1.sql_int id = true ->
  exists numero,
    Ej3a1.leer_tokens (Ej3a1.sql_actualizar_titulo t id)
    = Some ([Ej3a1.T_palabra "update"; Ej3a1.T_palabra "libros";
             Ej3a1.T_palabra "set"; Ej3a1.T_palabra "titulo"; Ej3a1.T_igual;
             Ej3a1.T_texto t; Ej3a1.T_palabra "where"; Ej3a1.T_palabra "id";
             Ej3a1.T_igual] ++ numero)
    /\ Ej3a1.leer_atomo numero = Some (Ej3a1.E_entero id, []).
Proof.
  intros Ht Hid. destruct (correr_str_int id Hid) as [pre [ds [Hc Ha]]].
  exists (pre ++ [Ej3a1.T_entero ds]). split; [|exact Ha].
  unfold Ej3a1.leer_tokens, Ej3a1.sql_actualizar_titulo.
  assert (H1 : Ej3a1.correr Ej3a1.Fuera "UPDATE libros SET titulo = '"
               = Some ([Ej3a1.T_palabra "update"; Ej3a1.T_palabra "libros";
                        Ej3a1.T_palabra "set"; Ej3a1.T_palabra "titulo";
                        Ej3a1.T_igual], Ej3a1.Texto "")) by reflexivity.
  rewrite correr_app, H1. cbv beta iota.
  rewrite correr_app, (correr_texto t "" Ht). cbv beta iota.
  change ("" ++ t)%string with t.
  assert (H2 : Ej3a1.correr (Ej3a1.Texto t) "' WHERE id = "
               = Some ([Ej3a1.T_texto t; Ej3a1.T_palabra "where";
                        Ej3a1.T_palabra "id"; Ej3a1.T_igual], Ej3a1.Fuera))
    by reflexivity.
  rewrite correr_app, H2. cbv beta iota. rewrite Hc.
  cbn [Ej3a1.fin app]. reflexivity.
Qed.

Lemma leer_tokens_anio a id :
  Ej3a1.sql_int id = true ->
  exists numero,
    Ej3a1.leer_tokens (Ej3a1.sql_actualizar_anio a id)
    = Some ([Ej3a1.T_palabra "update"; Ej3a1.T_palabra "libros";
             Ej3a1.T_palabra "set"; Ej3a1.T_palabra "anio"; Ej3a1.T_igual;
             Ej3a1.T_texto (str_int a); Ej3a1.T_palabra "where";
             Ej3a1.T_palabra "id"; Ej3a1.T_igual] ++ numero)
    /\ Ej3a1.leer_atomo numero = Some (Ej3a1.E_entero id, []).
Proof.
  intros Hid. destruct (correr_str_int id Hid) as [pre [ds [Hc Ha]]].
  exists (pre ++ [Ej3a1.T_entero ds]). split; [|exact Ha].
  unfold Ej3a1.leer_tokens, Ej3a1.sql_actualizar_anio.
  assert (H1 : Ej3a1.correr Ej3a1.Fuera "UPDATE libros SET anio = '"
               = Some ([Ej3a1.T_palabra "update"; Ej3a1.T_palabra "libros";
                        Ej3a1.T_palabra "set"; Ej3a1.T_palabra "anio";
                        Ej3a1.T_igual], Ej3a1.Texto "")) by reflexivity.
  rewrite correr_app, H1. cbv beta iota.
  rewrite correr_app, (correr_texto (str_int a) "" (sql_text_str_int a)).
  cbv beta iota. change ("" ++ str_int a)%string with (str_int a).
  generalize (str_int a) as t. intros t.
  assert (H2 : Ej3a1.correr (Ej3a1.Texto t) "' WHERE id = "
               = Some ([Ej3a1.T_texto t; Ej3a1.T_palabra "where";
                        Ej3a1.T_palabra "id"; Ej3a1.T_igual], Ej3a1.Fuera))
    by reflexivity.
  rewrite correr_app, H2. cbv beta iota. rewrite Hc.
  cbn [Ej3a1.fin app]. reflexivity.
Qed.

(** The statement read from the text of an update of one column by id. *)
Lemma leer_update_una columna e id numero :
  Ej3a1.columna_de columna <> None ->
  Ej3a1.leer_atomo numero = Some (Ej3a1.E_entero id, []) ->
  Ej3a1.leer_update
    ([Ej3a1.T_palabra "update"; Ej3a1.T_palabra "libros";
      Ej3a1.T_palabra "set"; Ej3a1.T_palabra columna; Ej3a1.T_igual;
      Ej3a1.T_texto e; Ej3a1.T_palabra "where"; Ej3a1.T_palabra "id";
      Ej3a1.T_igual] ++ numero)
  = match Ej3a1.columna_de columna with
    | Some c =>
        Some {| Ej3a1.asignaciones := [(c, Ej3a1.E_texto e)];
                Ej3a1.donde := Some (Ej3a1.Col_id, Ej3a1.E_entero id) |}
    | None => None
    end.
Proof.
  intros Hc Hn. cbn [app]. unfold Ej3a1.leer_update.
  cbn [String.eqb Ascii.eqb Bool.eqb andb List.length Ej3a1.leer_asignaciones].
  destruct (Ej3a1.columna_de columna) as [c|]; [|congruence].
  cbn [Ej3a1.leer_atomo Ej3a1.leer_suma Ej3a1.leer_donde String.eqb Ascii.eqb
       Bool.eqb].
  change (Ej3a1.columna_de "id") with (Some Ej3a1.Col_id).
  rewrite Hn. reflexivity.
Qed.

Lemma to_int_no_nil z :
  Z.to_int z <> Decimal.Pos Decimal.Nil /\ Z.to_int z <> Decimal.Neg Decimal.Nil.
Proof.
  destruct z as [|p|p]; cbn; split; try discriminate;
    intros H; injection H as H;
    exact (DecimalPos.Unsigned.to_uint_nonnil p H).
Qed.

(** The decimal text of a 64-bit integer is stored as that integer. *)
Lemma entero_de_texto_str_int a :
  Ej3a1.sql_int a = true -> Ej3a1.entero_de_texto (str_int a) = Some a.
Proof.
  intros Ha. unfold Ej3a1.entero_de_texto.
  destruct (to_int_no_nil a) as [H1 H2].
  unfold str_int at 1. rewrite (NilZero.isi _ H1 H2).
  cbv zeta. rewrite DecimalZ.of_to, String.eqb_refl, Ha. reflexivity.
Qed.

Lemma actualizar_filas_titulo t id ls :
  Ej3a1.actualizar_filas
    {| Ej3a1.asignaciones := [(Ej3a1.Col_titulo, Ej3a1.E_texto t)];
       Ej3a1.donde := Some (Ej3a1.Col_id, Ej3a1.E_entero id) |} ls
  = Some (map (Ej3a1.SET_titulo t id) ls).
Proof.
  induction ls as [|l ls IH]; [reflexivity|].
  cbn [Ej3a1.actualizar_filas map]. rewrite IH.
  cbn. unfold Ej3a1.SET_titulo. destruct (Ej3a1.l_id l =? id); reflexivity.
Qed.

Lemma actualizar_filas_anio a id ls :
  Ej3a1.sql_int a = true ->
  Ej3a1.actualizar_filas
    {| Ej3a1.asignaciones := [(Ej3a1.Col_anio, Ej3a1.E_texto (str_int a))];
       Ej3a1.donde := Some (Ej3a1.Col_id, Ej3a1.E_entero id) |} ls
  = Some (map (Ej3a1.SET_anio a id) ls).
Proof.
  intros Ha. induction ls as [|l ls IH]; [reflexivity|].
  cbn [Ej3a1.actualizar_filas map]. rewrite IH.
  cbn [Ej3a1.donde Ej3a1.asignaciones Ej3a1.cumple Ej3a1.valor_columna
       Ej3a1.evaluar Ej3a1.asignar_todas Ej3a1.asignar Ej3a1.entero_de_dato].
  rewrite (entero_de_texto_str_int a Ha).
  unfold Ej3a1.SET_anio. destruct (Ej3a1.l_id l =? id); reflexivity.
Qed.

(** On a title without apostrophe or NUL and a 64-bit id, the text of
    line 101 is the update of [titulo] on the rows with that id. *)
Lemma cursor_execute_titulo t id c :
  Ej3a1.sql_text t = true ->
  Ej3a1.sql_int id = true ->
  Ej3a1.cursor_execute (Ej3a1.sql_actualizar_titulo t id) c
  = Some (Ej3a1.UPDATE_titulo t id c).
Proof.
  intros Ht Hid. unfold Ej3a1.cursor_execute.
  destruct (leer_tokens_titulo t id Ht Hid) as [numero [-> Hn]].
  rewrite (leer_update_una "titulo" t id numero); [|discriminate|exact Hn].
  change (Ej3a1.columna_de "titulo") with (Some Ej3a1.Col_titulo).
  cbv beta iota. rewrite actualizar_filas_titulo. reflexivity.
Qed.

Lemma cursor_execute_anio a id c :
  Ej3a1.sql_int a = true ->
  Ej3a1.sql_int id = true ->
  Ej3a1.cursor_execute (Ej3a1.sql_actualizar_anio a id) c
  = Some (Ej3a1.UPDATE_anio a id c).
Proof.
  intros Ha Hid. unfold Ej3a1.cursor_execute.
  destruct (leer_tokens_anio a id Hid) as [numero [-> Hn]].
  rewrite (leer_update_una "anio" (str_int a) id numero);
    [|discriminate|exact Hn].
  change (Ej3a1.columna_de "anio") with (Some Ej3a1.Col_anio).
  cbv beta iota. rewrite (actualizar_filas_anio a id _ Ha). reflexivity.
Qed.

(** *** The texts and the updates they stand for *)

(** X19: for a 64-bit id, a new title without apostrophe or NUL and a
    64-bit new year, the texts that the SQLite [actualizar_libro] builds
    by interpolation are read as the updates of [titulo] and of [anio] on
    the rows with that id: executing the texts changes the connection as
    those updates do. *)
Theorem X19_actualizar_libro_texts_read_as_updates :
  forall (c : Ej3a1.conexion) (id_libro : Z)
         (nuevo_titulo : option string) (nuevo_anio : option Z),
    Ej3a1.sql_int id_libro = true ->
    opt_sql_text nuevo_titulo = true ->
    opt_sql_int nuevo_anio = true ->
    Ej3a1.actualizar_libro_texto id_libro nuevo_titulo nuevo_anio c
    = Some (Ej3a1.actualizar_libro id_libro nuevo_titulo nuevo_anio c).
Proof.
  intros c id t a Hid Ht Ha.
  assert (Hanio : forall c1,
             match a with
             | Some a0 =>
                 if truthy a0
                 then Ej3a1.cursor_execute (Ej3a1.sql_actualizar_anio a0 id) c1
                 else Some (Return tt, c1)
             | None => Some (Return tt, c1)
             end
             = Some (if_truthy a (fun a0 => Ej3a1.UPDATE_anio a0 id) c1)).
  { intros c1. unfold if_truthy. destruct a as [a|]; [|reflexivity].
    cbn in Ha. destruct (truthy a); [|reflexivity].
    apply cursor_execute_anio; assumption. }
  unfold Ej3a1.actualizar_libro_texto, Ej3a1.actualizar_libro, bind.
  unfold if_truthy at 1.
  destruct t as [t|]; [cbn in Ht; destruct (truthy t)|].
  - rewrite (cursor_execute_titulo t id c Ht Hid).
    unfold Ej3a1.UPDATE_titulo. apply Hanio.
  - apply Hanio.
  - apply Hanio.
Qed.

Lemma X19_witness_title_and_year :
  let c := snd (Ej3a1.insertar_libros [("Cien", 1967, 1); ("Paula", 1994, 2)]
                  Ej3a1.crear_tablas) in
  (Ej3a1.sql_int 2 = true /\ opt_sql_text (Some "Paula (2a ed.)") = true
   /\ opt_sql_int (Some 1995) = true
   /\ Ej3a1.sql_actualizar_titulo "Paula (2a ed.)" 2
      = "UPDATE libros SET titulo = 'Paula (2a ed.)' WHERE id = 2"
   /\ Ej3a1.sql_actualizar_anio 1995 2
      = "UPDATE libros SET anio = '1995' WHERE id = 2"
   /\ map (fun l => (Ej3a1.l_id l, Ej3a1.l_titulo l, Ej3a1.l_anio l))
          (Ej3a1.libros
             (snd (Ej3a1.actualizar_libro 2 (Some "Paula (2a ed.)") (Some 1995) c)))
      = [(1, "Cien", 1967); (2, "Paula (2a ed.)", 1995)])
  /\ Ej3a1.actualizar_libro_texto 2 (Some "Paula (2a ed.)") (Some 1995) c
     = Some (Ej3a1.actualizar_libro 2 (Some "Paula (2a ed.)") (Some 1995) c).
Proof.
  intros c. split.
  - repeat split; reflexivity.
  - apply (X19_actualizar_libro_texts_read_as_updates
             c 2 (Some "Paula (2a ed.)") (Some 1995)); reflexivity.
Defined.
